(** * Amazon analytics suite: loader and analyzer, embedded and verified

    Shallow embedding of [src/data_loader.py] (class [DataLoader]) and
    [src/analyzer.py] (class [DataAnalyzer]), with [src/config.py] supplying
    the business thresholds.

    Conventions of the embedding.
    - A Python [str] is a Rocq [string]; each [ascii] stands for the code
      point of the same number (0..255), so the character classes of
      [str.lower], [str.strip] and of the regular expressions [\w] and [\s]
      are the Unicode ones restricted to that range.
    - A number is an IEEE binary64 value, [spec_float] with precision 53 and
      [emax] 1024; an integer column is read through its float value.
    - A pandas [DataFrame] is the ordered list of its labelled columns; a
      label may occur twice (two distinct CSV headers can normalise to the
      same name), in which case [df[label]] is a frame, not a series.
    - A Python [dict] is a [gmap]; the alert list is a [list].
    - Code that mutates its arguments or raises is written in a monad of
      state and exceptions in which the state survives a raise, as it does
      in Python. *)

From Stdlib Require Import ZArith List String Ascii Lia Bool DecimalString.
From Stdlib Require Import Floats.SpecFloat.
From stdpp Require Import gmap strings list.

Import ListNotations.
Local Open Scope string_scope.
Local Open Scope bool_scope.
Local Open Scope list_scope.

(** ** Python strings *)

Module PyStr.

Definition code (c : ascii) : N := N_of_ascii c.

Definition between (lo hi : N) (c : ascii) : bool :=
  (lo <=? code c)%N && (code c <=? hi)%N.

(** [str.isspace], which is also the class [\s] of [re] on [str] patterns. *)
Definition is_space (c : ascii) : bool :=
  between 9 13 c || between 28 32 c || (code c =? 133)%N || (code c =? 160)%N.

(** [str.isalnum] or underscore: the class [\w] of [re] on [str] patterns. *)
Definition is_word (c : ascii) : bool :=
  between 48 57 c || between 65 90 c || between 97 122 c || (code c =? 95)%N
  || (code c =? 170)%N || (code c =? 178)%N || (code c =? 179)%N
  || (code c =? 181)%N || (code c =? 185)%N || (code c =? 186)%N
  || between 188 190 c || between 192 214 c || between 216 246 c
  || between 248 255 c.

Definition is_upper (c : ascii) : bool :=
  between 65 90 c || between 192 214 c || between 216 222 c.

Definition lower_char (c : ascii) : ascii :=
  if is_upper c then ascii_of_N (code c + 32) else c.

(** [s.lower()] *)
Fixpoint lower (s : string) : string :=
  match s with
  | EmptyString => EmptyString
  | String c s' => String (lower_char c) (lower s')
  end.

Fixpoint lstrip (s : string) : string :=
  match s with
  | EmptyString => EmptyString
  | String c s' => if is_space c then lstrip s' else s
  end.

Fixpoint rstrip (s : string) : string :=
  match s with
  | EmptyString => EmptyString
  | String c s' =>
      match rstrip s' with
      | EmptyString => if is_space c then EmptyString else String c EmptyString
      | r => String c r
      end
  end.

(** [s.strip()] *)
Definition strip (s : string) : string := rstrip (lstrip s).

(** [sub in s] *)
Fixpoint contains (sub s : string) : bool :=
  String.prefix sub s ||
  match s with
  | EmptyString => false
  | String _ s' => contains sub s'
  end.

(** [any(p in s for p in patterns)] *)
Definition contains_any (patterns : list string) (s : string) : bool :=
  existsb (fun p => contains p s) patterns.

(** [re.sub(cls, '_', s)] for a one-character class [cls]. *)
Fixpoint sub_each (p : ascii -> bool) (s : string) : string :=
  match s with
  | EmptyString => EmptyString
  | String c s' => String (if p c then "_"%char else c) (sub_each p s')
  end.

(** [re.sub(cls+, '_', s)]: every maximal run of the class becomes one
    underscore.  [in_run] tells that the previous character was in the run. *)
Fixpoint sub_runs (p : ascii -> bool) (in_run : bool) (s : string) : string :=
  match s with
  | EmptyString => EmptyString
  | String c s' =>
      if p c then
        if in_run then sub_runs p true s' else String "_" (sub_runs p true s')
      else String c (sub_runs p false s')
  end.

Definition is_underscore (c : ascii) : bool := (code c =? 95)%N.

Arguments is_space : simpl never.
Arguments is_word : simpl never.
Arguments lower_char : simpl never.
Arguments is_underscore : simpl never.

End PyStr.


(** ** Binary64 numbers *)

Module F.

Definition prec : Z := 53.
Definition emax : Z := 1024.

Abbreviation float := spec_float.

Definition nan : float := S754_nan.
Definition zero : float := S754_zero false.
Definition inf : float := S754_infinity false.

(** The float of a Python [int] literal. *)
Definition of_Z (n : Z) : float := binary_normalize prec emax n 0 false.

Definition add : float -> float -> float := SFadd prec emax.
Definition sub : float -> float -> float := SFsub prec emax.
Definition mul : float -> float -> float := SFmul prec emax.
Definition div : float -> float -> float := SFdiv prec emax.
Definition abs : float -> float := SFabs.

(** [x < y], false as soon as one side is NaN. *)
Definition ltb : float -> float -> bool := SFltb.
Definition gtb (x y : float) : bool := ltb y x.

Definition is_nan (x : float) : bool :=
  match x with S754_nan => true | _ => false end.

Definition is_inf (x : float) : bool :=
  match x with S754_infinity _ => true | _ => false end.

(** Neither NaN nor an infinity. *)
Definition is_finite (x : float) : bool :=
  match x with S754_zero _ | S754_finite _ _ _ => true | _ => false end.

(** [numpy.rint]: nearest integer, ties to even, sign kept on zero. *)
Definition rint (x : float) : float :=
  match x with
  | S754_finite s m e =>
      if (0 <=? e)%Z then x
      else
        let '(mrs, _) := shr (shr_record_of_loc (Zpos m) loc_Exact) e (- e) in
        let n := round_nearest_even (shr_m mrs) (loc_of_shr_record mrs) in
        binary_normalize prec emax (cond_Zopp s n) 0 s
  | _ => x
  end.

(** [numpy.round(x, 2)], which numpy documents as
    [true_divide(rint(x * 10**2), 10**2)]. *)
Definition round2 (x : float) : float :=
  div (rint (mul x (of_Z 100))) (of_Z 100).

(** [Series.replace([np.inf, -np.inf], 0)] on one value. *)
Definition replace_inf (x : float) : float :=
  if is_inf x then zero else x.

(** [Series.fillna(0)] on one value. *)
Definition fillna0 (x : float) : float :=
  if is_nan x then zero else x.

(** [Series.sum()] of a [float64] column: NaN cells are skipped, the empty
    sum is zero.  The additions are made in the order of the rows; pandas'
    kernels may group them differently, which changes the rounding of the
    sum, and they add an [int64] column in [int64]. *)
Definition nansum (xs : list float) : float :=
  fold_left (fun acc x => if is_nan x then acc else add acc x) xs zero.

Definition count_valid (xs : list float) : nat :=
  length (List.filter (fun x => negb (is_nan x)) xs).

(** [Series.mean()]: mean of the cells that are not NaN, NaN when there is
    none. *)
Definition nanmean (xs : list float) : float :=
  match count_valid xs with
  | O => nan
  | n => div (nansum xs) (of_Z (Z.of_nat n))
  end.

End F.

(** ** Exceptions, and the monad of the method bodies *)

Inductive exn :=
  TypeError | ValueError | KeyError | AttributeError | ZeroDivisionError.

Inductive outcome (A : Type) :=
| Ok (a : A)
| Raise (e : exn).
Arguments Ok {A} a.
Arguments Raise {A} e.

(** A statement run on a state [S]: the state it leaves, and either its
    value or the exception it raised.  What was written before a raise
    stays written. *)
Definition M (S A : Type) : Type := S -> S * outcome A.

Definition ret {S A} (a : A) : M S A := fun s => (s, Ok a).

Definition bind {S A B} (c : M S A) (k : A -> M S B) : M S B :=
  fun s =>
    match c s with
    | (s', Ok a) => k a s'
    | (s', Raise e) => (s', Raise e)
    end.

Definition raise {S A} (e : exn) : M S A := fun s => (s, Raise e).

Definition modify {S} (f : S -> S) : M S unit := fun s => (f s, Ok tt).

(** Value of an expression that may raise. *)
Definition lift {S A} (o : outcome A) : M S A := fun s => (s, o).

(** [try: body  except ...: <log>]: the handlers of the analyzer and of the
    loader only write to the log. *)
Definition try_except {S} (body : M S unit) : M S unit :=
  fun s => (fst (body s), Ok tt).

(** [if cond: body] *)
Definition when {S} (cond : bool) (body : M S unit) : M S unit :=
  if cond then body else ret tt.

Declare Scope py_scope.
Delimit Scope py_scope with py.
Notation "x <- c ;; k" := (bind c (fun x => k))
  (at level 100, c at next level, right associativity) : py_scope.
Notation "c ;; k" := (bind c (fun _ => k))
  (at level 100, right associativity) : py_scope.

(** ** Series and frames *)

Inductive cell :=
| CStr (s : string)
| CNum (x : F.float).

(** A column with its dtype: [float64] (a column of whole numbers, which
    pandas holds as [int64], is read through the floats of its values);
    [object], holding strings and numbers (an empty CSV cell is the number
    NaN); [datetime64[ns]], the nanoseconds since the epoch with [None] for
    [NaT], timezone-aware or not. *)
Inductive series :=
| SNum (xs : list F.float)
| SObj (xs : list cell)
| STime (aware : bool) (xs : list (option Z)).

Definition series_len (s : series) : nat :=
  match s with
  | SNum xs => length xs
  | SObj xs => length xs
  | STime _ xs => length xs
  end.

Definition frame : Type := list (string * series).

(** [df.columns] *)
Definition columns (df : frame) : list string := map fst df.

(** [len(df)] *)
Definition len (df : frame) : nat :=
  match df with
  | [] => 0
  | (_, s) :: _ => series_len s
  end.

(** All columns have the same number of rows. *)
Definition rectangular (df : frame) : Prop :=
  Forall (fun c => series_len (snd c) = len df) df.

(** [label in df.columns] *)
Definition has_column (df : frame) (label : string) : bool :=
  existsb (String.eqb label) (columns df).

(** What [df[label]] evaluates to: a series when one column carries the
    label, a frame when several do. *)
Inductive selection :=
| Series (s : series)
| Frame (cols : frame).

Definition labelled (label : string) (c : string * series) : bool :=
  String.eqb (fst c) label.

(** [df[label]] *)
Definition getitem (df : frame) (label : string) : outcome selection :=
  match List.filter (labelled label) df with
  | [] => Raise KeyError
  | [c] => Ok (Series (snd c))
  | cs => Ok (Frame cs)
  end.

(** [df[label] = s]: an existing label keeps its place, a new one is
    appended. *)
Definition setitem (df : frame) (label : string) (s : series) : frame :=
  if has_column df label
  then map (fun c => if labelled label c then (label, s) else c) df
  else df ++ [(label, s)].

Fixpoint mask_filter {A} (mask : list bool) (xs : list A) : list A :=
  match mask, xs with
  | b :: mask', x :: xs' => if b then x :: mask_filter mask' xs' else mask_filter mask' xs'
  | _, _ => []
  end.

Definition series_filter (mask : list bool) (s : series) : series :=
  match s with
  | SNum xs => SNum (mask_filter mask xs)
  | SObj xs => SObj (mask_filter mask xs)
  | STime a xs => STime a (mask_filter mask xs)
  end.

(** [df[mask]] for a boolean series [mask] *)
Definition filter_rows (mask : list bool) (df : frame) : frame :=
  map (fun c => (fst c, series_filter mask (snd c))) df.

Definition series_head (n : nat) (s : series) : series :=
  match s with
  | SNum xs => SNum (firstn n xs)
  | SObj xs => SObj (firstn n xs)
  | STime a xs => STime a (firstn n xs)
  end.

(** [df.head(n)] *)
Definition head (n : nat) (df : frame) : frame :=
  map (fun c => (fst c, series_head n (snd c))) df.

(** ** What is left to pandas and to Python

    The parsers and formatters of the libraries, and what pandas does with
    columns that are not [float64] where the code aggregates them directly,
    are not re-implemented: every statement below holds whatever they
    return. *)
Inductive aggregation := AggSum | AggMean.

(** Values stored in a metrics dictionary. *)
Inductive mvalue :=
| MInt (n : Z)
| MNum (x : F.float)
| MStr (s : string)
| MSeries (s : series)
| MFrame (df : frame).

Class Pandas := {
  (** the number a string cell reads as, [None] when it does not parse *)
  parse_number : string -> option F.float;
  (** [pd.to_numeric] on a [datetime64] series *)
  datetime_as_number : bool -> list (option Z) -> list F.float;
  datetime_as_number_length :
    forall aware ts, length (datetime_as_number aware ts) = length ts;
  (** [pd.to_datetime(s, errors='coerce')] on a series that is not
      [datetime64] yet *)
  to_datetime_values : series -> outcome series;
  (** the wall-clock reading of an instant in the zone of an aware series *)
  wall_clock : Z -> Z;
  (** [.sum()] and [.mean()] of a selection that is not one [float64]
      series *)
  aggregate_other : aggregation -> selection -> outcome mvalue;
  (** [f"{x:.1f}"] *)
  format_1f : F.float -> string;
  (** [f"{x}"] for a float *)
  format_float : F.float -> string
}.

(** ** Calendar: [strftime('%Y-%m')] *)

Module Calendar.
Local Open Scope Z_scope.

Definition ns_per_day : Z := 86400 * 1000000000.

(** Year and month of a day count since 1970-01-01 (proleptic Gregorian). *)
Definition year_month_of_days (days : Z) : Z * Z :=
  let z := days + 719468 in
  let era := z / 146097 in
  let doe := z - era * 146097 in
  let yoe := (doe - doe / 1460 + doe / 36524 - doe / 146096) / 365 in
  let doy := doe - (365 * yoe + yoe / 4 - yoe / 100) in
  let mp := (5 * doy + 2) / 153 in
  let m := if mp <? 10 then mp + 3 else mp - 9 in
  let y := yoe + era * 400 + (if m <=? 2 then 1 else 0) in
  (y, m).

(** Day count since 1970-01-01 of a civil date. *)
Definition days_of_civil (y m d : Z) : Z :=
  let y' := if m <=? 2 then y - 1 else y in
  let era := y' / 400 in
  let yoe := y' - era * 400 in
  let mp := if 2 <? m then m - 3 else m + 9 in
  let doy := (153 * mp + 2) / 5 + d - 1 in
  let doe := yoe * 365 + yoe / 4 - yoe / 100 + doy in
  era * 146097 + doe - 719468.

(** Midnight of a civil date, in nanoseconds since the epoch. *)
Definition timestamp (y m d : Z) : Z := days_of_civil y m d * ns_per_day.

Definition digit_value (c : ascii) : option Z :=
  let n := Z.of_N (N_of_ascii c) in
  if (48 <=? n) && (n <=? 57) then Some (n - 48) else None.

Fixpoint number_of_digits (acc : Z) (s : string) : option Z :=
  match s with
  | EmptyString => Some acc
  | String c s' =>
      match digit_value c with
      | Some d => number_of_digits (10 * acc + d) s'
      | None => None
      end
  end.

(** The timestamp that a text of the form YYYY-MM-DD denotes. *)
Definition parse_iso_date (s : string) : option Z :=
  if (String.length s =? 10)%nat
     && String.eqb (substring 4 1 s) "-" && String.eqb (substring 7 1 s) "-"
  then
    match number_of_digits 0 (substring 0 4 s),
          number_of_digits 0 (substring 5 2 s),
          number_of_digits 0 (substring 8 2 s) with
    | Some y, Some m, Some d =>
        if (1 <=? m) && (m <=? 12) && (1 <=? d) && (d <=? 31)
        then Some (timestamp y m d) else None
    | _, _, _ => None
    end
  else None.

Definition digit (n : Z) : ascii := ascii_of_N (48 + Z.to_N (n mod 10)).

Definition digits2 (n : Z) : string :=
  String (digit (n / 10)) (String (digit n) EmptyString).

Definition digits4 (n : Z) : string :=
  String (digit (n / 1000)) (String (digit (n / 100)) (digits2 n)).

(** [t.strftime('%Y-%m')] of a naive timestamp; pandas timestamps lie
    between the years 1677 and 2262. *)
Definition strftime_Ym (t : Z) : string :=
  let '(y, m) := year_month_of_days (t / ns_per_day) in
  (digits4 y ++ "-" ++ digits2 m)%string.

End Calendar.

(** [str(n)] for a count *)
Definition str_of_nat (n : nat) : string :=
  NilEmpty.string_of_uint (Nat.to_uint n).

(** [str(n)] for an [int] threshold *)
Definition str_of_Z (n : Z) : string :=
  NilEmpty.string_of_int (Z.to_int n).
(** ** [DataLoader]: names and file discovery *)

Module DataLoader.
Import PyStr.

(** [_standardize_column_name]; the argument is already a [str]. *)
Definition _standardize_column_name (name : string) : string :=
  let name := strip (lower name) in
  let name := sub_each (fun c => negb (is_word c || is_space c)) name in
  let name := sub_runs is_space false name in
  let name := sub_runs is_underscore false name in
  name.

(** The five buckets of [discover_files]; the key of each bucket in the
    dictionary [categorized] is given by [bucket_key]. *)
Inductive bucket := Sales | Inventory | Advertising | Reviews | Other.

Definition bucket_key (b : bucket) : string :=
  match b with
  | Sales => "sales"
  | Inventory => "inventory"
  | Advertising => "advertising"
  | Reviews => "reviews"
  | Other => "other"
  end.

(** The [if]/[elif] chain of the loop body of [discover_files], applied to
    the name of one file. *)
Definition classify (file_name : string) : bucket :=
  let filename := lower file_name in
  if contains_any ["sales"; "transaction"; "order"] filename then Sales
  else if contains_any ["inventory"; "stock"] filename then Inventory
  else if contains_any ["ad"; "spend"; "campaign"] filename then Advertising
  else if contains_any ["review"; "rating"] filename then Reviews
  else Other.

Definition empty_categorized : gmap string (list string) :=
  <["sales" := []]> (<["inventory" := []]> (<["advertising" := []]>
    (<["reviews" := []]> (<["other" := []]> ∅)))).

(** [categorized[key].append(file_path)] *)
Definition append_to (key : string) (file_path : string)
    (categorized : gmap string (list string)) : gmap string (list string) :=
  alter (fun files => files ++ [file_path]) key categorized.

(** [discover_files], from the list of CSV files of the directory on. *)
Definition discover_files (csv_files : list string) : gmap string (list string) :=
  fold_left (fun categorized file_path =>
               append_to (bucket_key (classify file_path)) file_path categorized)
            csv_files empty_categorized.


Section Cleaning.
Context `{Pandas}.

(** A cell of an [object] column read as a number; a string that does not
    parse is coerced to NaN. *)
Definition to_numeric_cell (c : cell) : F.float :=
  match c with
  | CNum x => x
  | CStr s => match parse_number s with Some x => x | None => F.nan end
  end.

(** [pd.to_numeric(sel, errors='coerce')]; a frame is refused. *)
Definition to_numeric (sel : selection) : outcome (list F.float) :=
  match sel with
  | Series (SNum xs) => Ok xs
  | Series (SObj cs) => Ok (map to_numeric_cell cs)
  | Series (STime aware ts) => Ok (datetime_as_number aware ts)
  | Frame _ => Raise TypeError
  end.

(** [pd.to_datetime(sel, errors='coerce')]; a frame with a repeated label
    is refused. *)
Definition to_datetime (sel : selection) : outcome series :=
  match sel with
  | Series (STime aware ts) => Ok (STime aware ts)
  | Series s => to_datetime_values s
  | Frame _ => Raise ValueError
  end.

(** [_find_date_column] *)
Definition _find_date_column (columns : list string) : option string :=
  find (fun col =>
          contains_any ["date"; "time"; "order_date"; "transaction_date"] (lower col))
       columns.

(** [try: df[col] = convert(df[col])  except: <nothing written>] *)
Definition try_convert (convert : selection -> outcome series) (col : string)
    (df : frame) : frame :=
  match getitem df col with
  | Ok sel =>
      match convert sel with
      | Ok s => setitem df col s
      | Raise _ => df
      end
  | Raise _ => df
  end.

Definition sales_numeric_patterns : list string :=
  ["quantity"; "price"; "total"; "amount"; "qty"; "cost"; "revenue"].

Definition inventory_numeric_patterns : list string :=
  ["stock"; "quantity"; "qty"; "days"; "supply"; "inbound"].

(** The conversion of the sales loop: [pd.to_numeric(..., errors='coerce')] *)
Definition sales_numeric (sel : selection) : outcome series :=
  match to_numeric sel with
  | Ok xs => Ok (SNum xs)
  | Raise e => Raise e
  end.

(** The conversion of the inventory loop:
    [pd.to_numeric(..., errors='coerce').fillna(0)] *)
Definition inventory_numeric (sel : selection) : outcome series :=
  match to_numeric sel with
  | Ok xs => Ok (SNum (map F.fillna0 xs))
  | Raise e => Raise e
  end.

(** The loop [for col in df_clean.columns] of both cleaners. *)
Definition convert_numeric_columns (patterns : list string)
    (convert : selection -> outcome series) (df_clean : frame) : frame :=
  fold_left (fun df_clean col =>
               if contains_any patterns (lower col)
               then try_convert convert col df_clean
               else df_clean)
            (columns df_clean) df_clean.

(** [_clean_sales_data] *)
Definition _clean_sales_data (df : frame) : frame :=
  let df_clean := df in
  let df_clean :=
    match _find_date_column (columns df_clean) with
    | Some date_col => try_convert to_datetime date_col df_clean
    | None => df_clean
    end in
  convert_numeric_columns sales_numeric_patterns sales_numeric df_clean.

(** [_clean_inventory_data] *)
Definition _clean_inventory_data (df : frame) : frame :=
  let df_clean := df in
  convert_numeric_columns inventory_numeric_patterns inventory_numeric df_clean.

(** [df.columns = [self._standardize_column_name(col) for col in df.columns]] *)
Definition standardize_columns (df : frame) : frame :=
  map (fun c => (_standardize_column_name (fst c), snd c)) df.

(** [load_sales_data] and [load_inventory_data] from the frame that
    [pd.read_csv] returned; the advertising and reviews loaders only
    rename the columns. *)
Definition load_sales_data (raw : frame) : frame :=
  _clean_sales_data (standardize_columns raw).

Definition load_inventory_data (raw : frame) : frame :=
  _clean_inventory_data (standardize_columns raw).

Definition load_advertising_data (raw : frame) : frame := standardize_columns raw.

Definition load_reviews_data (raw : frame) : frame := standardize_columns raw.

End Cleaning.

End DataLoader.

(** ** [Config]: the business thresholds *)

Record Config := {
  low_stock_days : Z;
  overstock_days : Z;
  excessive_stock_days : Z;
  low_profit_margin : Z;
  high_acos : Z;
  low_rating : F.float
}.

(** The values of [THRESHOLDS] in [config.py]. *)
Definition config : Config := {|
  low_stock_days := 7;
  overstock_days := 30;
  excessive_stock_days := 90;
  low_profit_margin := 15;
  high_acos := 40;
  low_rating := F.of_Z 3
|}.

(** ** Group-by *)

Module GroupBy.

(** Group keys are the strings and the numbers of the key column; NaN
    keys are dropped.  Numbers sort before strings. *)
Definition key_eqb (a b : cell) : bool :=
  match a, b with
  | CStr s, CStr t => String.eqb s t
  | CNum x, CNum y => SFeqb x y
  | _, _ => false
  end.

Definition key_ltb (a b : cell) : bool :=
  match a, b with
  | CStr s, CStr t => String.ltb s t
  | CNum x, CNum y => F.ltb x y
  | CNum _, CStr _ => true
  | CStr _, CNum _ => false
  end.

Definition key_of_cell (c : cell) : option cell :=
  match c with
  | CStr s => Some c
  | CNum x => if F.is_nan x then None else Some c
  end.

(** The key of each row of the column that [groupby] is given: a column
    of names or of numbers, as the code groups by campaign, by product and by
    month string (a datetime column is not grouped here). *)
Definition row_keys (sel : selection) : outcome (list (option cell)) :=
  match sel with
  | Series (SObj cs) => Ok (map key_of_cell cs)
  | Series (SNum xs) => Ok (map (fun x => key_of_cell (CNum x)) xs)
  | Series (STime _ _) => Raise TypeError
  | Frame _ => Raise ValueError
  end.

Fixpoint insert_key (k : cell) (ks : list cell) : list cell :=
  match ks with
  | [] => [k]
  | k' :: ks' =>
      if key_eqb k k' then ks
      else if key_ltb k k' then k :: ks
      else k' :: insert_key k ks'
  end.

(** The distinct keys, sorted: one per group, in the order of the result. *)
Definition group_keys (keys : list (option cell)) : list cell :=
  fold_left (fun acc k => match k with Some k => insert_key k acc | None => acc end)
            keys [].

Definition in_group (k : cell) (keys : list (option cell)) : list bool :=
  map (fun k' => match k' with Some k' => key_eqb k' k | None => false end) keys.

(** One step of the compensated (Kahan) summation of pandas' group-by
    kernel, on the running sum and its compensation:
    [y = val - compensation; t = sumx + y; compensation = t - sumx - y;
    sumx = t], and a compensation that is NaN (an infinite value came in) is
    set back to zero.  NaN values are skipped. *)
Definition kahan_step (state : F.float * F.float) (val : F.float) : F.float * F.float :=
  let '(sumx, compensation) := state in
  if F.is_nan val then state
  else
    let y := F.sub val compensation in
    let t := F.add sumx y in
    let compensation := F.sub (F.sub t sumx) y in
    (t, if F.is_nan compensation then F.zero else compensation).

(** The sum of one group, its values taken in the order of the rows; the
    sum of a group without valid values is zero. *)
Definition kahan_sum (values : list F.float) : F.float :=
  fst (fold_left kahan_step values (F.zero, F.zero)).

(** [.agg({col: 'sum'})] on a [float64] column: one sum per group. *)
Definition group_sum (keys : list (option cell)) (values : list F.float) : list F.float :=
  map (fun k => kahan_sum (mask_filter (in_group k keys) values)) (group_keys keys).

(** The summed column of [groupby(...).agg({col: 'sum'})].  Only a
    [float64] column is summed here: on another dtype pandas raises, or
    returns an [object] column on which the arithmetic that follows in the
    same [try] block raises. *)
Definition agg_sum (keys : list (option cell)) (sel : outcome selection)
    : outcome (list F.float) :=
  match sel with
  | Ok (Series (SNum xs)) => Ok (group_sum keys xs)
  | Ok _ => Raise TypeError
  | Raise e => Raise e
  end.

(** The key column of the result, after [reset_index()]: [float64] when
    every key is a number, [object] otherwise. *)
Definition number_of_key (k : cell) : option F.float :=
  match k with
  | CNum x => Some x
  | CStr _ => None
  end.

Definition key_column (keys : list (option cell)) : series :=
  match mapM number_of_key (group_keys keys) with
  | Some (x :: xs) => SNum (x :: xs)
  | _ => SObj (group_keys keys)
  end.

(** Row numbers sorted by decreasing value, NaN last.  Rows of equal value
    stay in their order here; pandas' default sort promises no order among
    them. *)
Fixpoint insert_desc (i : nat) (x : F.float) (acc : list (nat * F.float))
    : list (nat * F.float) :=
  match acc with
  | [] => [(i, x)]
  | (j, y) :: acc' =>
      if F.is_nan y || (negb (F.is_nan x) && negb (F.ltb x y)) then (i, x) :: acc
      else (j, y) :: insert_desc i x acc'
  end.

Fixpoint order_desc_from (i : nat) (xs : list F.float) : list (nat * F.float) :=
  match xs with
  | [] => []
  | x :: xs' => insert_desc i x (order_desc_from (S i) xs')
  end.

Definition order_desc (xs : list F.float) : list nat :=
  map fst (order_desc_from 0 xs).

Definition pick {A} (rows : list nat) (xs : list A) : list A :=
  omap (fun i => xs !! i) rows.

Definition series_pick (rows : list nat) (s : series) : series :=
  match s with
  | SNum xs => SNum (pick rows xs)
  | SObj xs => SObj (pick rows xs)
  | STime a xs => STime a (pick rows xs)
  end.

(** [df.sort_values(by, ascending=False)] for a [float64] column [by]. *)
Definition sort_values_desc (by_values : list F.float) (df : frame) : frame :=
  map (fun c => (fst c, series_pick (order_desc by_values) (snd c))) df.

End GroupBy.

(** ** [DataAnalyzer] *)

Module DataAnalyzer.
Import PyStr GroupBy.

Record alert := {
  a_type : string;
  a_level : string;
  a_title : string;
  a_message : string
}.

(** What a method of the analyzer reads and writes: the table it was
    passed (the caller's object), its local metrics dictionary, and the
    two attributes [self.results] and [self.alerts]. *)
Record scope := {
  sc_df : frame;
  sc_metrics : gmap string mvalue;
  self_results : gmap string (gmap string mvalue);
  self_alerts : list alert
}.

Definition read_df : M scope frame := fun s => (s, Ok (sc_df s)).

Definition read_metrics : M scope (gmap string mvalue) := fun s => (s, Ok (sc_metrics s)).

(** [df[label] = s] on the table passed in *)
Definition assign_column (label : string) (s : series) : M scope unit :=
  modify (fun sc => {| sc_df := setitem (sc_df sc) label s;
                       sc_metrics := sc_metrics sc;
                       self_results := self_results sc;
                       self_alerts := self_alerts sc |}).

(** [metrics = entries]: the method starts a dictionary of its own. *)
Definition new_metrics (entries : gmap string mvalue) : M scope unit :=
  modify (fun sc => {| sc_df := sc_df sc;
                       sc_metrics := entries;
                       self_results := self_results sc;
                       self_alerts := self_alerts sc |}).

(** [metrics[key] = v] *)
Definition set_metric (key : string) (v : mvalue) : M scope unit :=
  modify (fun sc => {| sc_df := sc_df sc;
                       sc_metrics := <[key := v]> (sc_metrics sc);
                       self_results := self_results sc;
                       self_alerts := self_alerts sc |}).

(** [self.alerts.append(a)] *)
Definition append_alert (a : alert) : M scope unit :=
  modify (fun sc => {| sc_df := sc_df sc;
                       sc_metrics := sc_metrics sc;
                       self_results := self_results sc;
                       self_alerts := self_alerts sc ++ [a] |}).

(** [self.results[domain] = metrics] *)
Definition store_results (domain : string) : M scope unit :=
  modify (fun sc => {| sc_df := sc_df sc;
                       sc_metrics := sc_metrics sc;
                       self_results := <[domain := sc_metrics sc]> (self_results sc);
                       self_alerts := self_alerts sc |}).

(** [col and col in df.columns] *)
Definition resolved (df : frame) (col : option string) : bool :=
  match col with
  | Some c => negb (String.eqb c "") && has_column df c
  | None => false
  end.

(** [metrics.get(key, 0)] read as a number, for the comparisons that the
    code makes on numeric entries. *)
Definition get_number (metrics : gmap string mvalue) (key : string) : outcome F.float :=
  match metrics !! key with
  | None => Ok (F.of_Z 0)
  | Some (MInt n) => Ok (F.of_Z n)
  | Some (MNum x) => Ok x
  | Some _ => Raise TypeError
  end.

Section Methods.
Context `{Pandas}.
Variable cfg : Config.
(** [datetime.now()] at the time of the analysis, in nanoseconds. *)
Variable now : Z.

Local Open Scope py_scope.

Abbreviation to_numeric := DataLoader.to_numeric.
Abbreviation to_datetime := DataLoader.to_datetime.

(** [sel.sum()] *)
Definition sum_of (sel : selection) : outcome mvalue :=
  match sel with
  | Series (SNum xs) => Ok (MNum (F.nansum xs))
  | _ => aggregate_other AggSum sel
  end.

(** [sel.mean()] *)
Definition mean_of (sel : selection) : outcome mvalue :=
  match sel with
  | Series (SNum xs) => Ok (MNum (F.nanmean xs))
  | _ => aggregate_other AggMean sel
  end.

(** [df[col].sum() if col and col in df.columns else 0], and the same with
    [mean] *)
Definition aggregate_or_zero (agg : selection -> outcome mvalue) (df : frame)
    (col : option string) : outcome mvalue :=
  match col with
  | Some c =>
      if resolved df col then
        match getitem df c with
        | Ok sel => agg sel
        | Raise e => Raise e
        end
      else Ok (MInt 0)
  | None => Ok (MInt 0)
  end.

(** *** Sales *)

(** The loop that finds the revenue column. *)
Definition find_revenue_col (columns : list string) : option string :=
  find (fun col =>
          let col_lower := lower col in
          contains_any ["total"; "revenue"; "amount"; "price"] col_lower
          && negb (contains "unit" col_lower))
       columns.

Definition find_quantity_col (columns : list string) : option string :=
  find (fun col => contains_any ["quantity"; "qty"] (lower col)) columns.

Definition find_date_col (columns : list string) : option string :=
  find (fun col => contains "date" (lower col)) columns.

Definition find_product_col (columns : list string) : option string :=
  find (fun col => contains "product" (lower col) && contains "name" (lower col)) columns.

(** [sales_df['_date'].dt.strftime('%Y-%m')] *)
Definition month_strings (sel : selection) : outcome series :=
  match sel with
  | Series (STime aware ts) =>
      Ok (SObj (map (fun t =>
                       match t with
                       | Some t => CStr (Calendar.strftime_Ym (if aware then wall_clock t else t))
                       | None => CNum F.nan
                       end) ts))
  | _ => Raise AttributeError
  end.

(** [sales_df['_date'] >= recent_cutoff] against a naive [datetime] *)
Definition not_before (cutoff : Z) (sel : selection) : outcome (list bool) :=
  match sel with
  | Series (STime false ts) =>
      Ok (map (fun t => match t with Some t => (cutoff <=? t)%Z | None => false end) ts)
  | _ => Raise TypeError
  end.

(** [last_month] and [prev_month]: the last two rows of
    [monthly_sales['revenue']], present when there are at least two. *)
Definition last_two (revenue : list F.float) : option (F.float * F.float) :=
  match rev revenue with
  | last_month :: prev_month :: _ => Some (last_month, prev_month)
  | _ => None
  end.

(** [((last_month - prev_month) / prev_month) * 100] *)
Definition growth_rate (last_month prev_month : F.float) : F.float :=
  F.mul (F.div (F.sub last_month prev_month) prev_month) (F.of_Z 100).

(** The body of the [try] block on dates. *)
Definition sales_date_block (date_col : string) (revenue_col : option string)
    : M scope unit :=
  sales_df <- read_df;;
  sel <- lift (getitem sales_df date_col);;
  dates <- lift (to_datetime sel);;
  assign_column "_date" dates;;
  sales_df <- read_df;;
  sel <- lift (getitem sales_df "_date");;
  months <- lift (month_strings sel);;
  assign_column "_month_str" months;;
  sales_df <- read_df;;
  when (resolved sales_df revenue_col)
    (match revenue_col with
     | None => ret tt
     | Some revenue_col =>
         key_sel <- lift (getitem sales_df "_month_str");;
         keys <- lift (row_keys key_sel);;
         revenue <- lift (agg_sum keys (getitem sales_df revenue_col));;
         let monthly_sales := [("month", key_column keys); ("revenue", SNum revenue)] in
         set_metric "monthly_trends" (MFrame monthly_sales);;
         let recent_cutoff := (now - 30 * Calendar.ns_per_day)%Z in
         sel <- lift (getitem sales_df "_date");;
         mask <- lift (not_before recent_cutoff sel);;
         let recent_sales := filter_rows mask sales_df in
         set_metric "recent_transactions" (MInt (Z.of_nat (len recent_sales)));;
         recent_revenue <-
           (if has_column recent_sales revenue_col
            then sel <- lift (getitem recent_sales revenue_col);; lift (sum_of sel)
            else ret (MInt 0));;
         set_metric "recent_revenue" recent_revenue;;
         when (1 <? len monthly_sales)%nat
           (match last_two revenue with
            | Some (last_month, prev_month) =>
                when (F.gtb prev_month (F.of_Z 0))
                  (set_metric "monthly_growth"
                     (MNum (growth_rate last_month prev_month)))
            | None => ret tt
            end)
     end).

(** The product-performance table of the second [try] block:
    revenue (and quantity) summed by product, rounded to two decimals,
    sorted by decreasing revenue, first ten rows. *)
Definition product_block (product_col revenue_col : string) (quantity_col : option string)
    : M scope unit :=
  sales_df <- read_df;;
  key_sel <- lift (getitem sales_df product_col);;
  keys <- lift (row_keys key_sel);;
  when (String.eqb product_col revenue_col) (raise KeyError);;
  revenue <- lift (agg_sum keys (getitem sales_df revenue_col));;
  let total_revenue := map F.round2 revenue in
  let product_performance :=
    [(product_col, key_column keys); ("total_revenue", SNum total_revenue)] in
  product_performance <-
    (if resolved sales_df quantity_col then
       match quantity_col with
       | Some quantity_col =>
           when (String.eqb product_col quantity_col) (raise KeyError);;
           quantity <- lift (agg_sum keys (getitem sales_df quantity_col));;
           ret (setitem product_performance "total_quantity"
                        (SNum (map F.round2 quantity)))
       | None => ret product_performance
       end
     else ret product_performance);;
  set_metric "top_products"
    (MFrame (head 10 (sort_values_desc total_revenue product_performance))).

Definition sales_decline_alert (growth : F.float) : alert := {|
  a_type := "sales";
  a_level := "warning";
  a_title := "Sales Decline";
  a_message := "Monthly sales declined by " ++ format_1f (F.abs growth) ++ "%"
|}%string.

(** [_analyze_sales] *)
Definition _analyze_sales : M scope unit :=
  sales_df <- read_df;;
  let revenue_col := find_revenue_col (columns sales_df) in
  let quantity_col := find_quantity_col (columns sales_df) in
  total_quantity <- lift (aggregate_or_zero sum_of sales_df quantity_col);;
  total_revenue <- lift (aggregate_or_zero sum_of sales_df revenue_col);;
  avg_order_value <- lift (aggregate_or_zero mean_of sales_df revenue_col);;
  new_metrics (<["avg_order_value" := avg_order_value]>
                (<["total_revenue" := total_revenue]>
                   (<["total_quantity" := total_quantity]>
                      (<["total_transactions" := MInt (Z.of_nat (len sales_df))]> ∅))));;
  let date_col := find_date_col (columns sales_df) in
  when (resolved sales_df date_col)
    (match date_col with
     | Some date_col => try_except (sales_date_block date_col revenue_col)
     | None => ret tt
     end);;
  sales_df <- read_df;;
  let product_col := find_product_col (columns sales_df) in
  when (resolved sales_df product_col && resolved sales_df revenue_col)
    (match product_col, revenue_col with
     | Some product_col, Some revenue_col =>
         try_except (product_block product_col revenue_col quantity_col)
     | _, _ => ret tt
     end);;
  store_results "sales";;
  sales_metrics <- read_metrics;;
  monthly_growth <- lift (get_number sales_metrics "monthly_growth");;
  when (F.ltb monthly_growth (F.of_Z (-10)))
    (append_alert (sales_decline_alert monthly_growth)).


(** *** Inventory *)

Definition find_stock_col (columns : list string) : option string :=
  find (fun col =>
          let col_lower := lower col in
          contains "stock" col_lower
          && (contains "current" col_lower || contains "available" col_lower))
       columns.

Definition find_days_col (columns : list string) : option string :=
  find (fun col => contains "days" (lower col)) columns.

(** [series < n] for an [int] threshold [n] *)
Definition below (n : Z) (xs : list F.float) : list bool :=
  map (fun x => F.ltb x (F.of_Z n)) xs.

(** [series > n] *)
Definition above (n : Z) (xs : list F.float) : list bool :=
  map (fun x => F.gtb x (F.of_Z n)) xs.

Definition critical_stock_alert (n : nat) : alert := {|
  a_type := "inventory";
  a_level := "critical";
  a_title := "Critical Stock Shortage";
  a_message := str_of_nat n ++ " products have less than 3 days of stock"
|}%string.

Definition low_stock_alert (n : nat) : alert := {|
  a_type := "inventory";
  a_level := "warning";
  a_title := "Low Stock Alert";
  a_message := str_of_nat n ++ " products have less than "
               ++ str_of_Z (low_stock_days cfg) ++ " days of stock"
|}%string.

Definition overstock_alert (n : nat) : alert := {|
  a_type := "inventory";
  a_level := "info";
  a_title := "Overstock Detected";
  a_message := str_of_nat n ++ " products have more than "
               ++ str_of_Z (overstock_days cfg) ++ " days of stock"
|}%string.

(** The part of the [try] block under [if days_col and ...]. *)
Definition low_stock_analysis (days_col : string) : M scope unit :=
  inventory_df <- read_df;;
  sel <- lift (getitem inventory_df days_col);;
  days_series <- lift (to_numeric sel);;
  let low_mask := below (low_stock_days cfg) days_series in
  let low_stock := filter_rows low_mask inventory_df in
  let overstock := filter_rows (above (overstock_days cfg) days_series) inventory_df in
  set_metric "low_stock_count" (MInt (Z.of_nat (len low_stock)));;
  set_metric "overstock_count" (MInt (Z.of_nat (len overstock)));;
  set_metric "low_stock_products" (MFrame (head 10 low_stock));;
  set_metric "overstock_products" (MFrame (head 10 overstock));;
  when (0 <? len low_stock)%nat
    (let critical_low :=
       filter_rows (below 3 (mask_filter low_mask days_series)) low_stock in
     when (0 <? len critical_low)%nat
       (append_alert (critical_stock_alert (len critical_low)));;
     append_alert (low_stock_alert (len low_stock)));;
  when (0 <? len overstock)%nat
    (append_alert (overstock_alert (len overstock))).

(** The body of the [try] block of [_analyze_inventory]. *)
Definition inventory_stock_block (stock_col : string) (days_col : option string)
    : M scope unit :=
  inventory_df <- read_df;;
  sel <- lift (getitem inventory_df stock_col);;
  stock <- lift (to_numeric sel);;
  set_metric "total_stock" (MNum (F.nansum stock));;
  when (resolved inventory_df days_col)
    (match days_col with
     | Some days_col => low_stock_analysis days_col
     | None => ret tt
     end).

(** [_analyze_inventory] *)
Definition _analyze_inventory : M scope unit :=
  inventory_df <- read_df;;
  new_metrics (<["total_products" := MInt (Z.of_nat (len inventory_df))]> ∅);;
  let stock_col := find_stock_col (columns inventory_df) in
  let days_col := find_days_col (columns inventory_df) in
  when (resolved inventory_df stock_col)
    (match stock_col with
     | Some stock_col => try_except (inventory_stock_block stock_col days_col)
     | None => ret tt
     end);;
  store_results "inventory".

(** *** Advertising *)

Definition find_containing (key : string) (columns : list string) : option string :=
  find (fun col => contains key (lower col)) columns.

(** [if col and col in df.columns:
       metrics[key] = pd.to_numeric(df[col], errors='coerce').sum()] *)
Definition total_of (key : string) (col : option string) : M scope unit :=
  advertising_df <- read_df;;
  when (resolved advertising_df col)
    (match col with
     | Some col =>
         sel <- lift (getitem advertising_df col);;
         values <- lift (to_numeric sel);;
         set_metric key (MNum (F.nansum values))
     | None => ret tt
     end).

(** [sales / spend] then [.replace([np.inf, -np.inf], 0).fillna(0).round(2)],
    for one campaign *)
Definition roas_of (sales spend : F.float) : F.float :=
  F.round2 (F.fillna0 (F.replace_inf (F.div sales spend))).

Fixpoint zip_with {A B C} (f : A -> B -> C) (xs : list A) (ys : list B) : list C :=
  match xs, ys with
  | x :: xs', y :: ys' => f x y :: zip_with f xs' ys'
  | _, _ => []
  end.

Definition high_acos_alert (n : nat) : alert := {|
  a_type := "advertising";
  a_level := "warning";
  a_title := "High ACOS Campaigns";
  a_message := str_of_nat n ++ " campaigns have ACOS > " ++ str_of_Z (high_acos cfg) ++ "%"
|}%string.

(** [100 / THRESHOLDS['high_acos']] *)
Definition roas_floor : outcome F.float :=
  if (high_acos cfg =? 0)%Z then Raise ZeroDivisionError
  else Ok (F.div (F.of_Z 100) (F.of_Z (high_acos cfg))).

(** The body of the [try] block on campaigns. *)
Definition campaign_block (spend_col clicks_col : option string) : M scope unit :=
  advertising_df <- read_df;;
  key_sel <- lift (getitem advertising_df "campaign_name");;
  keys <- lift (row_keys key_sel);;
  match spend_col, clicks_col with
  | Some spend_col, Some clicks_col =>
      spend <- lift (agg_sum keys (getitem advertising_df spend_col));;
      clicks <- lift (agg_sum keys (getitem advertising_df clicks_col));;
      (* one key in the dictionary gives one column, and three names do
         not fit *)
      when (String.eqb spend_col clicks_col) (raise ValueError);;
      let campaign_performance :=
        [("campaign_name", key_column keys); ("spend", SNum spend);
         ("clicks", SNum clicks)] in
      campaign_performance <-
        (if has_column advertising_df "sales" then
           sales <- lift (agg_sum keys (getitem advertising_df "sales"));;
           let roas := zip_with roas_of sales spend in
           let campaign_performance :=
             setitem (setitem campaign_performance "sales" (SNum sales))
                     "roas" (SNum roas) in
           floor <- lift roas_floor;;
           let high_acos_campaigns :=
             filter_rows (map (fun r => F.ltb r floor) roas) campaign_performance in
           when (0 <? len high_acos_campaigns)%nat
             (set_metric "high_acos_campaigns" (MFrame (head 5 high_acos_campaigns));;
              append_alert (high_acos_alert (len high_acos_campaigns)));;
           ret campaign_performance
         else ret campaign_performance);;
      set_metric "campaign_performance"
        (MFrame (head 10 (sort_values_desc spend campaign_performance)))
  | _, _ => raise KeyError
  end.

(** [_analyze_advertising] *)
Definition _analyze_advertising : M scope unit :=
  advertising_df <- read_df;;
  new_metrics ∅;;
  let spend_col := find_containing "spend" (columns advertising_df) in
  let clicks_col := find_containing "clicks" (columns advertising_df) in
  let impressions_col := find_containing "impressions" (columns advertising_df) in
  total_of "total_spend" spend_col;;
  total_of "total_clicks" clicks_col;;
  total_of "total_impressions" impressions_col;;
  advertising_metrics <- read_metrics;;
  total_spend <- lift (get_number advertising_metrics "total_spend");;
  total_clicks <- lift (get_number advertising_metrics "total_clicks");;
  when (F.gtb total_spend (F.of_Z 0) && F.gtb total_clicks (F.of_Z 0))
    (set_metric "avg_cpc" (MNum (F.div total_spend total_clicks));;
     total_impressions <- lift (get_number advertising_metrics "total_impressions");;
     when (F.gtb total_impressions (F.of_Z 0))
       (set_metric "ctr"
          (MNum (F.mul (F.div total_clicks total_impressions) (F.of_Z 100)))));;
  when (has_column advertising_df "campaign_name")
    (try_except (campaign_block spend_col clicks_col));;
  store_results "advertising".

(** *** Reviews *)

Definition low_ratings_alert (n : nat) : alert := {|
  a_type := "reviews";
  a_level := "warning";
  a_title := "Low Ratings Alert";
  a_message := str_of_nat n ++ " reviews have rating < " ++ format_float (low_rating cfg)
|}%string.

(** The body of the [try] block on ratings. *)
Definition rating_block : M scope unit :=
  reviews_df <- read_df;;
  sel <- lift (getitem reviews_df "rating");;
  values <- lift (to_numeric sel);;
  set_metric "avg_rating" (MNum (F.nanmean values));;
  sel <- lift (getitem reviews_df "rating");;
  ratings <- lift (to_numeric sel);;
  let low_rated :=
    filter_rows (map (fun r => F.ltb r (low_rating cfg)) ratings) reviews_df in
  when (0 <? len low_rated)%nat
    (set_metric "low_rated_count" (MInt (Z.of_nat (len low_rated)));;
     append_alert (low_ratings_alert (len low_rated))).

(** [_analyze_reviews] *)
Definition _analyze_reviews : M scope unit :=
  reviews_df <- read_df;;
  new_metrics (<["total_reviews" := MInt (Z.of_nat (len reviews_df))]> ∅);;
  when (has_column reviews_df "rating") (try_except rating_block);;
  store_results "reviews".

(** *** The whole analysis *)

(** The analyzer object and the dictionary of tables it is given.  A table
    is shared with the caller: what a method writes into it is seen through
    [data_dict] afterwards. *)
Record run := {
  data_dict : gmap string (option frame);
  results : gmap string (gmap string mvalue);
  alerts : list alert
}.

(** [if key in data_dict and data_dict[key] is not None: method(data_dict[key])] *)
Definition analyze_domain (key : string) (method : M scope unit) : M run unit :=
  fun r =>
    match data_dict r !! key with
    | Some (Some table) =>
        let '(sc, out) := method {| sc_df := table; sc_metrics := ∅;
                                    self_results := results r;
                                    self_alerts := alerts r |} in
        ({| data_dict := <[key := Some (sc_df sc)]> (data_dict r);
            results := self_results sc;
            alerts := self_alerts sc |}, out)
    | _ => (r, Ok tt)
    end.

(** [try: body  except Exception as e: <log>; raise] *)
Definition try_reraise {S} (body : M S unit) : M S unit :=
  fun s =>
    match body s with
    | (s', Ok tt) => (s', Ok tt)
    | (s', Raise e) => (s', Raise e)
    end.

(** [analyze_all] *)
Definition analyze_all : M run unit :=
  try_reraise
    (analyze_domain "sales" _analyze_sales;;
     analyze_domain "inventory" _analyze_inventory;;
     analyze_domain "advertising" _analyze_advertising;;
     analyze_domain "reviews" _analyze_reviews).

End Methods.
End DataAnalyzer.

(** ** Predicates and functions used in the statements *)

Module Shape.
Import PyStr.

Fixpoint all_chars (P : ascii -> bool) (s : string) : bool :=
  match s with
  | EmptyString => true
  | String c s' => P c && all_chars P s'
  end.

Definition lowered (c : ascii) : bool := Ascii.eqb (lower_char c) c.

(** Shape of a normalised name: word characters that [lower] leaves alone,
    and no underscore next to another one. *)
Fixpoint normal (after_underscore : bool) (s : string) : bool :=
  match s with
  | EmptyString => true
  | String c s' =>
      is_word c && lowered c && negb (after_underscore && is_underscore c)
      && normal (is_underscore c) s'
  end.

Definition keepable (c : ascii) : bool := lowered c && (is_word c || is_space c).
Definition settled (c : ascii) : bool := lowered c && is_word c.

#[global] Instance bucket_eq_dec : EqDecision DataLoader.bucket.
Proof. solve_decision. Defined.

(** The files of a listing that [classify] sends to the bucket [b], in the
    order of the listing. *)
Definition files_of (b : DataLoader.bucket) (csv_files : list string) : list string :=
  List.filter (fun f => bool_decide (DataLoader.classify f = b)) csv_files.

(** The test of the revenue loop on one column name. *)
Definition revenue_like (col : string) : bool :=
  contains_any ["total"; "revenue"; "amount"; "price"] (lower col)
  && negb (contains "unit" (lower col)).

(** The scope with its table, or its metrics, replaced. *)
Definition with_df (sc : DataAnalyzer.scope) (df : frame) : DataAnalyzer.scope :=
  {| DataAnalyzer.sc_df := df;
     DataAnalyzer.sc_metrics := DataAnalyzer.sc_metrics sc;
     DataAnalyzer.self_results := DataAnalyzer.self_results sc;
     DataAnalyzer.self_alerts := DataAnalyzer.self_alerts sc |}.

Definition with_metrics (sc : DataAnalyzer.scope) (m : gmap string mvalue)
    : DataAnalyzer.scope :=
  {| DataAnalyzer.sc_df := DataAnalyzer.sc_df sc;
     DataAnalyzer.sc_metrics := m;
     DataAnalyzer.self_results := DataAnalyzer.self_results sc;
     DataAnalyzer.self_alerts := DataAnalyzer.self_alerts sc |}.

Section SalesStages.
Context `{Pandas}.
Variable now : Z.
Import DataAnalyzer.

(** The three aggregates of the dictionary literal of [_analyze_sales]:
    quantity total, revenue total, mean revenue. *)
Definition sales_basics (df : frame) : outcome (mvalue * mvalue * mvalue) :=
  let revenue_col := find_revenue_col (columns df) in
  let quantity_col := find_quantity_col (columns df) in
  match aggregate_or_zero sum_of df quantity_col with
  | Ok q =>
      match aggregate_or_zero sum_of df revenue_col with
      | Ok r =>
          match aggregate_or_zero mean_of df revenue_col with
          | Ok a => Ok (q, r, a)
          | Raise e => Raise e
          end
      | Raise e => Raise e
      end
  | Raise e => Raise e
  end.

Definition basic_metrics (df : frame) (q r a : mvalue) : gmap string mvalue :=
  <["avg_order_value" := a]>
    (<["total_revenue" := r]>
       (<["total_quantity" := q]>
          (<["total_transactions" := MInt (Z.of_nat (len df))]> ∅))).

(** The scope after the [if date_col ...] statement. *)
Definition after_dates (revenue_col : option string) (sc : scope) : scope :=
  match find_date_col (columns (sc_df sc)) with
  | Some date_col =>
      if resolved (sc_df sc) (Some date_col)
      then fst (sales_date_block now date_col revenue_col sc)
      else sc
  | None => sc
  end.

(** The scope after the [if product_col ...] statement. *)
Definition after_products (revenue_col quantity_col : option string) (sc : scope)
    : scope :=
  match find_product_col (columns (sc_df sc)), revenue_col with
  | Some product_col, Some revenue_col' =>
      if resolved (sc_df sc) (Some product_col) && resolved (sc_df sc) revenue_col
      then fst (product_block product_col revenue_col' quantity_col sc)
      else sc
  | _, _ => sc
  end.

(** The end of [_analyze_sales]: the metrics are stored, the alert is
    appended when the growth is below -10. *)
Definition sales_finish (sc : scope) : scope * outcome unit :=
  let stored :=
    {| sc_df := sc_df sc; sc_metrics := sc_metrics sc;
       self_results := <["sales" := sc_metrics sc]> (self_results sc);
       self_alerts := self_alerts sc |} in
  match get_number (sc_metrics sc) "monthly_growth" with
  | Ok growth =>
      if F.ltb growth (F.of_Z (-10))
      then ({| sc_df := sc_df sc; sc_metrics := sc_metrics sc;
               self_results := <["sales" := sc_metrics sc]> (self_results sc);
               self_alerts := self_alerts sc ++ [sales_decline_alert growth] |}, Ok tt)
      else (stored, Ok tt)
  | Raise e => (stored, Raise e)
  end.

End SalesStages.

(** An instance of the library interface, for the closed examples: text
    is read as a number when it is a decimal integer and as a date when it
    is written YYYY-MM-DD, a timestamp is read as its count of nanoseconds,
    the zone of aware timestamps is UTC, and pandas refuses to aggregate
    what is not a [float64] series. *)
Definition sample_to_datetime (s : series) : outcome series :=
  match s with
  | SObj cs =>
      Ok (STime false
            (map (fun c => match c with
                           | CStr s => Calendar.parse_iso_date s
                           | CNum _ => None
                           end) cs))
  | SNum xs => Ok (STime false (map (fun _ => None) xs))
  | STime aware ts => Ok (STime aware ts)
  end.

Definition sample_pandas : Pandas := {|
  parse_number := fun s =>
    option_map (fun n => F.of_Z (Z.of_int n)) (NilEmpty.int_of_string s);
  datetime_as_number := fun _ ts =>
    map (fun t => match t with Some t => F.of_Z t | None => F.of_Z (- 2 ^ 63) end) ts;
  datetime_as_number_length := fun _ ts => length_map _ ts;
  to_datetime_values := sample_to_datetime;
  wall_clock := fun t => t;
  aggregate_other := fun _ _ => Raise TypeError;
  format_1f := fun _ => "?";
  format_float := fun _ => "?"
|}.

(** A scope around a table, for an analyzer that has not run yet. *)
Definition fresh (df : frame) : DataAnalyzer.scope :=
  {| DataAnalyzer.sc_df := df;
     DataAnalyzer.sc_metrics := ∅;
     DataAnalyzer.self_results := ∅;
     DataAnalyzer.self_alerts := [] |}.

(** The number of columns that the first assignment to [label] adds. *)
Definition added (df : frame) (label : string) : list string :=
  if has_column df label then [] else [label].

(** The values of [pd.to_numeric(s, errors='coerce')] for a series [s]. *)
Definition numeric_values `{Pandas} (s : series) : list F.float :=
  match s with
  | SNum xs => xs
  | SObj cs => map DataLoader.to_numeric_cell cs
  | STime aware ts => datetime_as_number aware ts
  end.

(** Number of rows that a boolean mask keeps. *)
Definition count_true (mask : list bool) : nat :=
  length (List.filter (fun b => b) mask).

(** Number of values that satisfy a test. *)
Definition count (p : F.float -> bool) (xs : list F.float) : nat :=
  count_true (map p xs).

Section InventoryAlerts.
Context `{Pandas}.
Variable cfg : Config.
Import DataAnalyzer.

(** The alerts that [low_stock_analysis] appends, from the days of supply
    of the rows. *)
Definition stock_alerts (days : list F.float) : list alert :=
  let low := below (low_stock_days cfg) days in
  let n_low := count_true low in
  let n_critical := count_true (below 3 (mask_filter low days)) in
  let n_over := count_true (above (overstock_days cfg) days) in
  (if (0 <? n_low)%nat
   then (if (0 <? n_critical)%nat then [critical_stock_alert n_critical] else [])
        ++ [low_stock_alert cfg n_low]
   else [])
  ++ (if (0 <? n_over)%nat then [overstock_alert cfg n_over] else []).

(** The alerts that [_analyze_inventory] appends for a table. *)
Definition inventory_alerts (df : frame) : list alert :=
  match find_stock_col (columns df) with
  | Some stock_col =>
      match getitem df stock_col with
      | Ok (Series _) =>
          match find_days_col (columns df) with
          | Some days_col =>
              match getitem df days_col with
              | Ok (Series s) => stock_alerts (numeric_values s)
              | _ => []
              end
          | None => []
          end
      | _ => []
      end
  | None => []
  end.

End InventoryAlerts.

(** An alert list holds the critical stock alert. *)
Definition has_critical (alerts : list DataAnalyzer.alert) : bool :=
  existsb (fun a => String.eqb (DataAnalyzer.a_title a) "Critical Stock Shortage") alerts.

(** One value of a column is replaced by the number [v]. *)
Definition set_number (i : nat) (v : F.float) (s : series) : option series :=
  match s with
  | SNum xs => Some (SNum (<[i := v]> xs))
  | SObj cs => Some (SObj (<[i := CNum v]> cs))
  | STime _ _ => None
  end.

(** The body of the loop of [convert_numeric_columns]. *)
Definition convert_step (patterns : list string) (convert : selection -> outcome series)
    (df_clean : frame) (col : string) : frame :=
  if contains_any patterns (lower col)
  then DataLoader.try_convert convert col df_clean else df_clean.

(** The sales table as the numeric loop of [_clean_sales_data] finds it:
    after the conversion of the date column. *)
Definition date_converted `{Pandas} (df : frame) : frame :=
  match DataLoader._find_date_column (columns df) with
  | Some date_col => DataLoader.try_convert DataLoader.to_datetime date_col df
  | None => df
  end.

Section Run.
Context `{Pandas}.
Variable cfg : Config.
Variable now : Z.
Import DataAnalyzer.

(** The four domains in the order in which [analyze_all] goes through
    them, each with its method. *)
Definition domains : list (string * M scope unit) :=
  [("sales", _analyze_sales now);
   ("inventory", _analyze_inventory cfg);
   ("advertising", _analyze_advertising cfg);
   ("reviews", _analyze_reviews cfg)].

(** The domains of a list analysed one after the other; a raise ends the
    sequence. *)
Fixpoint run_domains (ds : list (string * M scope unit)) : M run unit :=
  match ds with
  | [] => ret tt
  | (key, method) :: ds' =>
      bind (analyze_domain key method) (fun _ => run_domains ds')
  end.

End Run.

(** *** Tables of the closed examples *)

(** The sales table of the end-to-end scenario of the specification. *)
Definition scenario_sales : frame :=
  [("date", STime false [Some (Calendar.timestamp 2023 1 5);
                         Some (Calendar.timestamp 2023 1 20);
                         Some (Calendar.timestamp 2023 2 1);
                         Some (Calendar.timestamp 2023 2 15)]);
   ("revenue", SNum [F.of_Z 100; F.of_Z 50; F.of_Z 200; F.of_Z 60])].

(** January closes on refunds: its total is -50. *)
Definition refund_sales : frame :=
  [("date", STime false [Some (Calendar.timestamp 2023 1 5);
                         Some (Calendar.timestamp 2023 2 1)]);
   ("revenue", SNum [F.of_Z (-50); F.of_Z 100])].

(** A sales table that was analysed before and exported with its helper
    columns. *)
Definition exported_sales : frame :=
  [("_date", STime false [Some (Calendar.timestamp 2023 1 5)]);
   ("_month_str", SObj [CStr "2023-01"]);
   ("revenue", SNum [F.of_Z 100])].

(** A sales table without any revenue-like column. *)
Definition unit_price_sales : frame :=
  [("unit_price", SNum [F.of_Z 4; F.of_Z 6]); ("qty", SNum [F.of_Z 1; F.of_Z 2])].

(** Inventory tables of the end-to-end scenarios: one row with two days
    of supply, with and without a stock-level column. *)
Definition short_inventory : frame :=
  [("current_stock", SNum [F.of_Z 5]); ("days_of_supply", SNum [F.of_Z 2])].

Definition days_only_inventory : frame :=
  [("days_of_supply", SNum [F.of_Z 2])].

Definition two_row_inventory : frame :=
  [("current_stock", SNum [F.of_Z 5; F.of_Z 9]);
   ("days_of_supply", SNum [F.of_Z 2; F.of_Z 45])].

(** An advertising export with the headers "Spend" and "spend ": both
    normalise to "spend". *)
Definition raw_advertising : frame :=
  [("Campaign Name", SObj [CStr "a"]);
   ("Spend", SNum [F.of_Z 10]);
   ("spend ", SNum [F.of_Z 10]);
   ("Clicks", SNum [F.of_Z 3])].

(** The reviews table of the end-to-end scenario. *)
Definition scenario_reviews : frame :=
  [("rating", SNum [F.of_Z 1; F.of_Z 1; F.of_Z 5; F.of_Z 5])].

(** A run on these two tables, from a new analyzer. *)
Definition failing_run : DataAnalyzer.run :=
  {| DataAnalyzer.data_dict :=
       <["sales" := None]>
         (<["inventory" := None]>
            (<["advertising" :=
                 Some (@DataLoader.load_advertising_data raw_advertising)]>
               (<["reviews" := Some (@DataLoader.load_reviews_data scenario_reviews)]> ∅)));
     DataAnalyzer.results := ∅;
     DataAnalyzer.alerts := [] |}.

(** One campaign with a return of 1e308. *)
Definition overflow_advertising : frame :=
  [("campaign_name", SObj [CStr "a"]);
   ("spend", SNum [F.of_Z 1]);
   ("clicks", SNum [F.of_Z 1]);
   ("sales", SNum [F.of_Z (10 ^ 308)])].

(** Raw tables with a cell that is not a number. *)
Definition raw_inventory : frame :=
  [("current_stock", SObj [CStr "12"; CStr "n/a"]);
   ("product_name", SObj [CStr "kettle"; CStr "lamp"])].

Definition raw_sales : frame :=
  [("order_date", SObj [CStr "2023-01-05"; CStr "2023-01-06"]);
   ("total_amount", SObj [CStr "12"; CStr "n/a"])].

Definition overstocked_inventory : frame :=
  [("current_stock", SNum [F.of_Z 5]); ("days_of_supply", SNum [F.of_Z 45])].

(** An advertising table without spend and without clicks. *)
Definition idle_advertising : frame :=
  [("spend", SNum [F.of_Z 0; F.of_Z 0]); ("clicks", SNum [F.of_Z 0; F.of_Z 0]);
   ("impressions", SNum [F.of_Z 10; F.of_Z 20])].

(** A new analyzer given one sales table. *)
Definition run_on_sales (table : frame) : DataAnalyzer.run :=
  {| DataAnalyzer.data_dict := <["sales" := Some table]> ∅;
     DataAnalyzer.results := ∅;
     DataAnalyzer.alerts := [] |}.

Definition sales_run : DataAnalyzer.run := run_on_sales scenario_sales.

Definition exported_run : DataAnalyzer.run := run_on_sales exported_sales.

(** The analysis takes place on 2023-03-01. *)
Definition scenario_now : Z := Calendar.timestamp 2023 3 1.

End Shape.

(** ** The KPI summary, the report cards and the console run *)

(** [DataAnalyzer.get_kpi_summary] *)
Module Summary.

(** [metrics.get(key, 0)] *)
Definition get_or_zero (metrics : gmap string mvalue) (key : string) : mvalue :=
  default (MInt 0) (metrics !! key).

(** [kpis[kpi] = metrics.get(key, 0)] *)
Definition copy (metrics : gmap string mvalue) (kpi key : string)
    (kpis : gmap string mvalue) : gmap string mvalue :=
  <[kpi := get_or_zero metrics key]> kpis.

(** [if domain in self.results: <body>] *)
Definition for_domain (results : gmap string (gmap string mvalue)) (domain : string)
    (body : gmap string mvalue -> gmap string mvalue -> gmap string mvalue)
    (kpis : gmap string mvalue) : gmap string mvalue :=
  match results !! domain with
  | Some metrics => body metrics kpis
  | None => kpis
  end.

(** [get_kpi_summary], from [self.results] *)
Definition get_kpi_summary (results : gmap string (gmap string mvalue))
    : gmap string mvalue :=
  let kpis := ∅ in
  let kpis :=
    for_domain results "sales"
      (fun sales kpis =>
         copy sales "monthly_growth" "monthly_growth"
           (copy sales "avg_order_value" "avg_order_value"
              (copy sales "total_transactions" "total_transactions"
                 (copy sales "total_revenue" "total_revenue" kpis)))) kpis in
  let kpis :=
    for_domain results "inventory"
      (fun inventory kpis =>
         copy inventory "overstock_products" "overstock_count"
           (copy inventory "low_stock_products" "low_stock_count"
              (copy inventory "total_products" "total_products" kpis))) kpis in
  let kpis :=
    for_domain results "advertising"
      (fun ads kpis =>
         copy ads "avg_cpc" "avg_cpc"
           (copy ads "total_ad_spend" "total_spend" kpis)) kpis in
  let kpis :=
    for_domain results "reviews"
      (fun reviews kpis =>
         copy reviews "total_reviews" "total_reviews"
           (copy reviews "avg_rating" "avg_rating" kpis)) kpis in
  kpis.

End Summary.

(** ** [DataLoader]: the load methods, with the state of the loader *)

Module Loading.
Import PyStr DataLoader.

(** What is left to pandas and to the file system here. *)
Class Reading := {
  (** [pd.read_csv(path)] *)
  read_csv : string -> outcome frame;
  (** [sel.nunique()] *)
  nunique : selection -> mvalue;
  (** [str(t.date())] for the wall-clock reading [t] of a timestamp *)
  date_text : Z -> string
}.

(** The attributes [self.data] and [self.stats]. *)
Record loader := {
  data : gmap string frame;
  stats : gmap string (gmap string mvalue)
}.

(** [self.data[key] = df] *)
Definition set_data (key : string) (df : frame) : M loader unit :=
  modify (fun l => {| data := <[key := df]> (data l); stats := stats l |}).

(** [self.stats[key] = entries] *)
Definition set_stats (key : string) (entries : gmap string mvalue) : M loader unit :=
  modify (fun l => {| data := data l; stats := <[key := entries]> (stats l) |}).

Section Load.
Context `{Pandas} `{Reading}.

Local Open Scope py_scope.

(** [dates.dropna()] on the values of a [datetime64] series *)
Definition dropna (ts : list (option Z)) : list Z := omap id ts.

(** [_get_date_range]; every failure inside its [try] block ends in the
    last line, also the [AttributeError] of a value that is no timestamp. *)
Definition _get_date_range (df : frame) (date_column : option string) : string :=
  if DataAnalyzer.resolved df date_column then
    match date_column with
    | Some date_column =>
        match getitem df date_column with
        | Ok sel =>
            match to_datetime sel with
            | Ok (STime aware ts) =>
                match dropna ts with
                | t :: rest =>
                    let local t := if aware then wall_clock t else t in
                    (date_text (local (fold_left Z.min rest t)) ++ " to "
                     ++ date_text (local (fold_left Z.max rest t)))%string
                | [] => "Not available"
                end
            | _ => "Not available"
            end
        | Raise _ => "Not available"
        end
    | None => "Not available"
    end
  else "Not available".

(** The entries 'rows' and 'columns' of every statistics record. *)
Definition shape_stats (df : frame) : gmap string mvalue :=
  <["columns" := MInt (Z.of_nat (length (columns df)))]>
    (<["rows" := MInt (Z.of_nat (len df))]> ∅).

(** [load_sales_data]; the handler of its [try] block logs and raises
    again. *)
Definition load_sales_data (file_paths : list string) : M loader (option frame) :=
  match file_paths with
  | [] => ret None
  | path :: _ =>
      df <- lift (read_csv path);;
      let df := standardize_columns df in
      let df := _clean_sales_data df in
      set_data "sales" df;;
      set_stats "sales"
        (<["date_range" :=
             MStr (_get_date_range df (_find_date_column (columns df)))]>
           (shape_stats df));;
      ret (Some df)
  end.

(** [load_inventory_data] *)
Definition load_inventory_data (file_paths : list string) : M loader (option frame) :=
  match file_paths with
  | [] => ret None
  | path :: _ =>
      df <- lift (read_csv path);;
      let df := standardize_columns df in
      let df := _clean_inventory_data df in
      set_data "inventory" df;;
      unique_products <-
        (if has_column df "product_name"
         then sel <- lift (getitem df "product_name");; ret (nunique sel)
         else ret (MInt 0));;
      set_stats "inventory" (<["unique_products" := unique_products]> (shape_stats df));;
      ret (Some df)
  end.

(** [load_advertising_data] *)
Definition load_advertising_data (file_paths : list string) : M loader (option frame) :=
  match file_paths with
  | [] => ret None
  | path :: _ =>
      df <- lift (read_csv path);;
      let df := standardize_columns df in
      set_data "advertising" df;;
      set_stats "advertising" (shape_stats df);;
      ret (Some df)
  end.

(** [load_reviews_data] *)
Definition load_reviews_data (file_paths : list string) : M loader (option frame) :=
  match file_paths with
  | [] => ret None
  | path :: _ =>
      df <- lift (read_csv path);;
      let df := standardize_columns df in
      set_data "reviews" df;;
      average_rating <-
        (if has_column df "rating"
         then sel <- lift (getitem df "rating");; lift (DataAnalyzer.mean_of sel)
         else ret (MInt 0));;
      set_stats "reviews" (<["average_rating" := average_rating]> (shape_stats df));;
      ret (Some df)
  end.

End Load.
End Loading.

(** [UIManager]: what the console run computes from the discovered files
    and from the analyzer. *)
Module UIManager.

(** [sum(len(file_list) for file_list in files.values())]; the order in
    which the values are met does not matter to the sum. *)
Definition total_files (files : gmap string (list string)) : nat :=
  map_fold (fun _ file_list total => total + length file_list) 0 files.

(** [len([a for a in analyzer.alerts if a['level'] == 'critical'])] *)
Definition critical_alerts (alerts : list DataAnalyzer.alert) : nat :=
  length (List.filter (fun a => String.eqb (DataAnalyzer.a_level a) "critical") alerts).

Section Tables.
Context `{Pandas} `{Loading.Reading}.

Local Open Scope py_scope.

(** [load(files[key]) if files[key] else None] *)
Definition load_if_any (load : list string -> M Loading.loader (option frame))
    (files : gmap string (list string)) (key : string)
    : M Loading.loader (option frame) :=
  match files !! key with
  | Some [] => ret None
  | Some file_paths => load file_paths
  | None => raise KeyError
  end.

(** The dictionary [data_dict] that the run builds from the discovered
    files. *)
Definition load_tables (files : gmap string (list string))
    : M Loading.loader (gmap string (option frame)) :=
  sales <- load_if_any Loading.load_sales_data files "sales";;
  inventory <- load_if_any Loading.load_inventory_data files "inventory";;
  advertising <- load_if_any Loading.load_advertising_data files "advertising";;
  reviews <- load_if_any Loading.load_reviews_data files "reviews";;
  ret (<["reviews" := reviews]>
         (<["advertising" := advertising]>
            (<["inventory" := inventory]> (<["sales" := sales]> ∅)))).

End Tables.

End UIManager.

(** [ExcelReportWriter]: the KPI cards of the executive dashboard.  The
    titles of the cards hold characters beyond U+00FF, which are written
    here by their UTF-8 bytes; nothing is computed on a title. *)
Module ExcelReportWriter.

(** [_get_category_color] *)
Definition _get_category_color (category : string) : string :=
  let color_map : gmap string string :=
    <["sales" := "BDD7EE"]>
      (<["inventory" := "C6EFCE"]>
         (<["reviews" := "FFEB9C"]> (<["advertising" := "F8CBAD"]> ∅))) in
  default "E7E6E6" (color_map !! category).

(** A card: title, displayed value, category. *)
Definition card : Type := string * string * string.

Section Dashboard.
(** The number formats of the cards, [f"${x:,.2f}"], [f"{x:,}"] and
    [f"{x:.1f}/5"], which are left to Python. *)
Variable format_money format_count format_rating : mvalue -> string.

(** [if kpis.get(key, 0) > 0:
       kpi_cards.append([title, format(kpis.get(key, 0)), category])] *)
Definition add_card (kpis : gmap string mvalue) (key title : string)
    (format : mvalue -> string) (category : string) (kpi_cards : list card)
    : outcome (list card) :=
  match DataAnalyzer.get_number kpis key with
  | Ok x =>
      Ok (if F.gtb x (F.of_Z 0)
          then kpi_cards ++ [(title, format (Summary.get_or_zero kpis key), category)]
          else kpi_cards)
  | Raise e => Raise e
  end.

Definition then_card (cards : outcome (list card))
    (add : list card -> outcome (list card)) : outcome (list card) :=
  match cards with
  | Ok kpi_cards => add kpi_cards
  | Raise e => Raise e
  end.

(** The list [kpi_cards] of [_create_executive_dashboard]. *)
Definition kpi_cards (kpis : gmap string mvalue) : outcome (list card) :=
  let cards := Ok [] in
  let cards := then_card cards
    (add_card kpis "total_revenue" "💰 Total Revenue" format_money "sales") in
  let cards := then_card cards
    (add_card kpis "total_transactions" "🛒 Total Transactions" format_count "sales") in
  let cards := then_card cards
    (add_card kpis "avg_order_value" "📦 Avg Order Value" format_money "sales") in
  let cards := then_card cards
    (add_card kpis "total_products" "📊 Total Products" format_count "inventory") in
  let cards := then_card cards
    (add_card kpis "low_stock_products" "⚠️ Low Stock Items" format_count "inventory") in
  let cards := then_card cards
    (add_card kpis "total_reviews" "⭐ Total Reviews" format_count "reviews") in
  let cards := then_card cards
    (add_card kpis "avg_rating" "📈 Avg Rating" format_rating "reviews") in
  let cards := then_card cards
    (add_card kpis "total_ad_spend" "📢 Ad Spend" format_money "advertising") in
  cards.

End Dashboard.

(** The loop that lays the cards out: for each card the row and the column
    of its title cell; the variable [row] is carried from one card to the
    next. *)
Fixpoint layout (i row : nat) (kpi_cards : list card) : list (nat * nat * card) :=
  match kpi_cards with
  | [] => []
  | c :: rest =>
      let col := (i mod 4) * 2 + 1 in
      let '(row, col) :=
        if (4 <=? i)%nat then (7, ((i - 4) mod 4) * 2 + 1) else (row, col) in
      (row, col, c) :: layout (S i) row rest
  end.

(** The cells that the card at [(row, col)] fills:
    [for r in range(row, row+2): for c in range(col, col+2)]. *)
Definition card_cells (row col : nat) : list (nat * nat) :=
  [(row, col); (row, col + 1); (row + 1, col); (row + 1, col + 1)].

(** All the cells of the cards of the dashboard. *)
Definition cells (placed : list (nat * nat * card)) : list (nat * nat) :=
  concat (map (fun p => card_cells (fst (fst p)) (snd (fst p))) placed).

End ExcelReportWriter.

(** ** Further terms of the statements *)

Module Terms.
Import PyStr.

(** Exactly one column of the table carries the label. *)
Definition single (df : frame) (label : string) : bool :=
  (length (List.filter (labelled label) df) =? 1)%nat.

(** A column after [df[col] = convert(df[col])] under [try]: replaced when
    the conversion returns, kept when it raises. *)
Definition converted (convert : selection -> outcome series) (c : string * series)
    : string * series :=
  match convert (Series (snd c)) with
  | Ok s => (fst c, s)
  | Raise _ => c
  end.

(** A conversion that refuses what [df[col]] is when several columns carry
    the label. *)
Definition refuses_frames (convert : selection -> outcome series) : Prop :=
  forall cols, exists e, convert (Frame cols) = Raise e.

(** The test of a numeric loop on a column name. *)
Definition numeric_like (patterns : list string) (col : string) : bool :=
  contains_any patterns (lower col).

(** Every entry of the dictionary is a float. *)
Definition all_numbers (metrics : gmap string mvalue) : Prop :=
  forall key v, metrics !! key = Some v -> exists x, v = MNum x.

(** The alert list [after] is [before] with at most [n] alerts appended,
    at most [c] of them critical. *)
Definition appends (n c : nat) (before after : list DataAnalyzer.alert) : Prop :=
  exists extra,
    after = before ++ extra
    /\ length extra <= n
    /\ UIManager.critical_alerts extra <= c.

(** The number of rows of the table given for a domain, as it is stored in
    a record; [None] without a table. *)
Definition rows_of (data_dict : gmap string (option frame)) (domain : string)
    : option mvalue :=
  match data_dict !! domain with
  | Some (Some table) => Some (MInt (Z.of_nat (len table)))
  | _ => None
  end.

(** A table was given for the domain. *)
Definition given (data_dict : gmap string (option frame)) (domain : string) : bool :=
  match data_dict !! domain with
  | Some (Some _) => true
  | _ => false
  end.

(** The first file of a listing that [classify] sends to the bucket. *)
Definition first_of (b : DataLoader.bucket) (csv_files : list string) : option string :=
  find (fun f => bool_decide (DataLoader.classify f = b)) csv_files.

(** The table that the loader of a bucket makes of the content of a
    file. *)
Definition loaded `{Pandas} (b : DataLoader.bucket) (raw : frame) : frame :=
  match b with
  | DataLoader.Sales => DataLoader.load_sales_data raw
  | DataLoader.Inventory => DataLoader.load_inventory_data raw
  | DataLoader.Advertising => DataLoader.load_advertising_data raw
  | _ => DataLoader.load_reviews_data raw
  end.

(** The mean that [load_reviews_data] takes for its statistics. *)
Definition rating_stats `{Pandas} (df : frame) : outcome mvalue :=
  if has_column df "rating" then
    match getitem df "rating" with
    | Ok sel => DataAnalyzer.mean_of sel
    | Raise e => Raise e
    end
  else Ok (MInt 0).

(** What loading the bucket gives: no table without a file, the table of
    the first file otherwise, or the exception of the reading or of the
    rating statistics. *)
Definition load_outcome `{Pandas} `{Loading.Reading} (b : DataLoader.bucket)
    (csv_files : list string) : outcome (option frame) :=
  match first_of b csv_files with
  | None => Ok None
  | Some path =>
      match Loading.read_csv path with
      | Ok raw =>
          match b with
          | DataLoader.Reviews =>
              match rating_stats (loaded b raw) with
              | Ok _ => Ok (Some (loaded b raw))
              | Raise e => Raise e
              end
          | _ => Ok (Some (loaded b raw))
          end
      | Raise e => Raise e
      end
  end.

(** The load method of a bucket. *)
Definition loader_of `{Pandas} `{Loading.Reading} (b : DataLoader.bucket)
    : list string -> M Loading.loader (option frame) :=
  match b with
  | DataLoader.Sales => Loading.load_sales_data
  | DataLoader.Inventory => Loading.load_inventory_data
  | DataLoader.Advertising => Loading.load_advertising_data
  | _ => Loading.load_reviews_data
  end.

(** The character of a normalised name: a word character that is not a
    blank. *)
Definition plain (c : ascii) : bool :=
  is_word c && negb (is_space c).

(** A character of the ASCII range. *)
Definition is_ascii (c : ascii) : bool := (code c <? 128)%N.

(** Not an uppercase letter. *)
Definition not_upper (c : ascii) : bool := negb (is_upper c).

(** The group key of each row in [groupby('_month_str')], for the dates
    [ts] of the rows: the month string of the date, no key for a row without
    a valid date. *)
Definition month_keys `{Pandas} (aware : bool) (ts : list (option Z))
    : list (option cell) :=
  match DataAnalyzer.month_strings (Series (STime aware ts)) with
  | Ok months =>
      match GroupBy.row_keys (Series months) with
      | Ok keys => keys
      | Raise _ => []
      end
  | Raise _ => []
  end.

End Terms.

(** *** Further tables of the closed examples *)

Module Samples.

(** January totals 200 and February 100. *)
Definition declining_sales : frame :=
  [("date", STime false [Some (Calendar.timestamp 2023 1 5);
                         Some (Calendar.timestamp 2023 2 1)]);
   ("revenue", SNum [F.of_Z 200; F.of_Z 100])].

(** The same sales with dates that carry a time zone. *)
Definition aware_sales : frame :=
  [("date", STime true [Some (Calendar.timestamp 2023 1 5);
                        Some (Calendar.timestamp 2023 2 1)]);
   ("revenue", SNum [F.of_Z 200; F.of_Z 100])].

(** January totals 1 and February 10^308. *)
Definition soaring_sales : frame :=
  [("date", STime false [Some (Calendar.timestamp 2023 1 5);
                         Some (Calendar.timestamp 2023 2 1)]);
   ("revenue", SNum [F.of_Z 1; F.of_Z (10 ^ 308)])].

(** Spend 40 for 8 clicks and 200 impressions. *)
Definition busy_advertising : frame :=
  [("spend", SNum [F.of_Z 10; F.of_Z 30]); ("clicks", SNum [F.of_Z 4; F.of_Z 4]);
   ("impressions", SNum [F.of_Z 100; F.of_Z 100])].

(** Campaign "a" returns 120 for a spend of 20, campaign "b" was not spent
    on. *)
Definition campaign_advertising : frame :=
  [("campaign_name", SObj [CStr "a"; CStr "b"; CStr "a"]);
   ("spend", SNum [F.of_Z 10; F.of_Z 0; F.of_Z 10]);
   ("clicks", SNum [F.of_Z 1; F.of_Z 1; F.of_Z 1]);
   ("sales", SNum [F.of_Z 100; F.of_Z 5; F.of_Z 20])].

(** A new analyzer given a sales, an inventory and a reviews table, and
    no advertising table. *)
Definition three_tables : DataAnalyzer.run :=
  {| DataAnalyzer.data_dict :=
       <["sales" := Some Shape.scenario_sales]>
         (<["inventory" := Some Shape.two_row_inventory]>
            (<["advertising" := None]>
               (<["reviews" := Some Shape.scenario_reviews]> ∅)));
     DataAnalyzer.results := ∅;
     DataAnalyzer.alerts := [] |}.

(** A new analyzer given no table: the directory held files of the bucket
    "other" only. *)
Definition no_tables : DataAnalyzer.run :=
  {| DataAnalyzer.data_dict :=
       <["sales" := None]>
         (<["inventory" := None]> (<["advertising" := None]> (<["reviews" := None]> ∅)));
     DataAnalyzer.results := ∅;
     DataAnalyzer.alerts := [] |}.

(** An inventory file with a days-of-supply cell that is text. *)
Definition unreadable_inventory : frame :=
  [("Current Stock", SNum [F.of_Z 40]); ("Days of Supply", SObj [CStr "unknown"])].

(** A sales file whose only column is named after a lifetime revenue: its
    name contains "time" and "revenue". *)
Definition lifetime_sales : frame :=
  [("Lifetime Revenue", SObj [CStr "abc"])].

(** An inventory file with the headers "Stock" and "stock ": both
    normalise to "stock". *)
Definition twice_stock : frame :=
  [("Stock", SObj [CStr "unknown"]); ("stock ", SObj [CStr "seven"])].

(** A reviews file whose ratings are text. *)
Definition text_reviews : frame :=
  [("Rating", SObj [CStr "five"; CStr "4"]); ("Review Title", SObj [CStr "a"; CStr "b"])].

(** A directory for the closed examples: three files can be read, any
    other is empty, which [read_csv] refuses with a [ValueError]; distinct
    values are counted among names and numbers, and a date is written as
    its count of nanoseconds. *)
Definition sample_reading : Loading.Reading := {|
  Loading.read_csv := fun path =>
    if String.eqb path "sales_2023.csv" then Ok Shape.raw_sales
    else if String.eqb path "stock.csv" then Ok Shape.raw_inventory
    else if String.eqb path "reviews.csv" then Ok text_reviews
    else Raise ValueError;
  Loading.nunique := fun sel =>
    match GroupBy.row_keys sel with
    | Ok keys => MInt (Z.of_nat (length (GroupBy.group_keys keys)))
    | Raise _ => MInt 0
    end;
  Loading.date_text := str_of_Z
|}.

(** A loader that has loaded nothing yet. *)
Definition new_loader : Loading.loader := {| Loading.data := ∅; Loading.stats := ∅ |}.

(** KPIs of a shop with revenue, stock and reviews. *)
Definition some_kpis : gmap string mvalue :=
  <["total_revenue" := MNum (F.of_Z 410)]>
    (<["total_transactions" := MInt 4]>
       (<["total_products" := MInt 2]>
          (<["low_stock_products" := MInt 0]>
             (<["avg_rating" := MNum (F.of_Z 3)]> ∅)))).

End Samples.
(** ** Column-name normalisation is idempotent *)

Section Normalisation.
Import PyStr DataLoader Shape.

Ltac each_char c := destruct c as [[] [] [] [] [] [] [] []]; vm_compute; try reflexivity; try discriminate.

Lemma lower_char_idem c : lowered (lower_char c) = true.
Proof. each_char c. Qed.

Lemma word_not_space c : is_word c = true -> is_space c = false.
Proof. each_char c. Qed.

Lemma underscore_word c : is_underscore c = true -> is_word c = true.
Proof. each_char c. Qed.

Lemma underscore_is c : is_underscore c = true -> c = "_"%char.
Proof. each_char c. Qed.

Lemma lowered_eq c : lowered c = true -> lower_char c = c.
Proof. unfold lowered. intros H. now apply Ascii.eqb_eq. Qed.

Lemma all_chars_impl (P Q : ascii -> bool) s :
  (forall c, P c = true -> Q c = true) -> all_chars P s = true -> all_chars Q s = true.
Proof.
  intros HPQ. induction s as [|c s IH]; simpl; [reflexivity|].
  rewrite !andb_true_iff. intros [Hc Hs]. auto.
Qed.

Lemma all_lowered_lower s : all_chars lowered (lower s) = true.
Proof.
  induction s as [|c s IH]; simpl; [reflexivity|].
  now rewrite lower_char_idem, IH.
Qed.

Lemma all_chars_lstrip P s : all_chars P s = true -> all_chars P (lstrip s) = true.
Proof.
  induction s as [|c s IH]; simpl; [reflexivity|].
  rewrite andb_true_iff. intros [Hc Hs].
  destruct (is_space c); [auto|]. simpl. now rewrite Hc, Hs.
Qed.

Lemma all_chars_rstrip P s : all_chars P s = true -> all_chars P (rstrip s) = true.
Proof.
  induction s as [|c s IH]; simpl; [reflexivity|].
  rewrite andb_true_iff. intros [Hc Hs]. specialize (IH Hs).
  destruct (rstrip s) as [|d r].
  - destruct (is_space c); simpl; [reflexivity|]. now rewrite Hc.
  - change (all_chars P (String c (String d r))) with (P c && all_chars P (String d r)).
    now rewrite Hc, IH.
Qed.

Lemma all_keepable_sub_each s :
  all_chars lowered s = true ->
  all_chars keepable (sub_each (fun c => negb (is_word c || is_space c)) s) = true.
Proof.
  induction s as [|c s IH]; cbn [all_chars sub_each]; [reflexivity|].
  rewrite andb_true_iff. intros [Hc Hs]. rewrite (IH Hs), andb_true_r.
  unfold keepable. destruct (is_word c || is_space c) eqn:E; simpl.
  - now rewrite Hc, E.
  - reflexivity.
Qed.

Lemma all_settled_sub_spaces b s :
  all_chars keepable s = true -> all_chars settled (sub_runs is_space b s) = true.
Proof.
  revert b. induction s as [|c s IH]; intros b; simpl; [reflexivity|].
  rewrite andb_true_iff. intros [Hc Hs].
  destruct (is_space c) eqn:E.
  - destruct b; simpl; auto.
  - simpl. rewrite (IH false Hs), andb_true_r.
    unfold keepable in Hc. unfold settled. now rewrite E, orb_false_r in Hc.
Qed.

Lemma normal_sub_underscores b s :
  all_chars settled s = true -> normal b (sub_runs is_underscore b s) = true.
Proof.
  revert b. induction s as [|c s IH]; intros b; simpl; [reflexivity|].
  rewrite andb_true_iff. intros [Hc Hs].
  destruct (is_underscore c) eqn:E.
  - destruct b; [now apply IH|].
    simpl. change (is_underscore "_") with true. now apply IH.
  - simpl. rewrite E, (IH false Hs), andb_false_r. simpl.
    unfold settled in Hc. apply andb_true_iff in Hc as [Hl Hw].
    now rewrite Hl, Hw.
Qed.

Lemma normal_standardize name : normal false (_standardize_column_name name) = true.
Proof.
  unfold _standardize_column_name, strip.
  apply normal_sub_underscores, all_settled_sub_spaces, all_keepable_sub_each.
  apply all_chars_rstrip, all_chars_lstrip, all_lowered_lower.
Qed.

Lemma normal_settled b s : normal b s = true -> all_chars settled s = true.
Proof.
  revert b. induction s as [|c s IH]; intros b; simpl; [reflexivity|].
  rewrite !andb_true_iff. intros [[[Hw Hl] _] Hs].
  split; [unfold settled; now rewrite Hl, Hw | eauto].
Qed.

Lemma lower_fixed s : all_chars settled s = true -> lower s = s.
Proof.
  induction s as [|c s IH]; simpl; [reflexivity|].
  rewrite andb_true_iff. intros [Hc Hs]. rewrite (IH Hs).
  apply andb_true_iff in Hc as [Hl _]. now rewrite (lowered_eq _ Hl).
Qed.

Lemma lstrip_fixed s : all_chars settled s = true -> lstrip s = s.
Proof.
  destruct s as [|c s]; simpl; [reflexivity|].
  rewrite andb_true_iff. intros [Hc _].
  apply andb_true_iff in Hc as [_ Hw]. now rewrite (word_not_space _ Hw).
Qed.

Lemma rstrip_fixed s : all_chars settled s = true -> rstrip s = s.
Proof.
  induction s as [|c s IH]; simpl; [reflexivity|].
  rewrite andb_true_iff. intros [Hc Hs]. rewrite (IH Hs).
  apply andb_true_iff in Hc as [_ Hw].
  destruct s; [now rewrite (word_not_space _ Hw) | reflexivity].
Qed.

Lemma sub_each_fixed s :
  all_chars settled s = true ->
  sub_each (fun c => negb (is_word c || is_space c)) s = s.
Proof.
  induction s as [|c s IH]; cbn [all_chars sub_each]; [reflexivity|].
  rewrite andb_true_iff. intros [Hc Hs]. rewrite (IH Hs).
  apply andb_true_iff in Hc as [_ Hw]. now rewrite Hw.
Qed.

Lemma sub_spaces_fixed b s :
  all_chars settled s = true -> sub_runs is_space b s = s.
Proof.
  revert b. induction s as [|c s IH]; intros b; simpl; [reflexivity|].
  rewrite andb_true_iff. intros [Hc Hs].
  apply andb_true_iff in Hc as [_ Hw].
  rewrite (word_not_space _ Hw). f_equal. now apply IH.
Qed.

Lemma sub_underscores_fixed b s :
  normal b s = true -> sub_runs is_underscore b s = s.
Proof.
  revert b. induction s as [|c s IH]; intros b; simpl; [reflexivity|].
  rewrite !andb_true_iff. intros [[_ Hadj] Hs].
  destruct (is_underscore c) eqn:E.
  - destruct b; [discriminate Hadj|].
    rewrite (underscore_is _ E). f_equal. now apply IH.
  - f_equal. now apply IH.
Qed.

Lemma standardize_fixed s :
  normal false s = true -> _standardize_column_name s = s.
Proof.
  intros Hn. pose proof (normal_settled _ _ Hn) as Hs.
  unfold _standardize_column_name, strip.
  rewrite (lower_fixed _ Hs), (lstrip_fixed _ Hs), (rstrip_fixed _ Hs).
  rewrite (sub_each_fixed _ Hs), (sub_spaces_fixed _ _ Hs).
  now apply sub_underscores_fixed.
Qed.

(** C5. Normalising a column name twice gives the same result as normalising
    it once: a normalised name is a fixed point of [_standardize_column_name]. *)
Theorem standardize_column_name_idempotent (name : string) :
  _standardize_column_name (_standardize_column_name name)
  = _standardize_column_name name.
Proof. apply standardize_fixed, normal_standardize. Qed.

End Normalisation.

(** ** File discovery *)

Section Discovery.
Import PyStr DataLoader Shape.

Lemma bucket_key_inj b1 b2 : bucket_key b1 = bucket_key b2 -> b1 = b2.
Proof. destruct b1, b2; simpl; intros Heq; try reflexivity; discriminate Heq. Qed.

Lemma lookup_append_to b b' f (categorized : gmap string (list string)) :
  append_to (bucket_key b') f categorized !! bucket_key b
  = if bool_decide (b' = b)
    then (fun files => files ++ [f]) <$> categorized !! bucket_key b
    else categorized !! bucket_key b.
Proof.
  unfold append_to. case_bool_decide as Hb.
  - subst b'. apply lookup_alter_eq.
  - apply lookup_alter_ne. intros Heq. apply Hb. now apply bucket_key_inj.
Qed.

Lemma discover_fold b csv_files (categorized : gmap string (list string)) :
  fold_left (fun categorized file_path =>
               append_to (bucket_key (classify file_path)) file_path categorized)
            csv_files categorized !! bucket_key b
  = (fun files => files ++ files_of b csv_files) <$> categorized !! bucket_key b.
Proof.
  revert categorized.
  induction csv_files as [|f fs IH]; intros categorized; simpl.
  - destruct (categorized !! bucket_key b); simpl; [|reflexivity].
    unfold files_of. simpl. now rewrite app_nil_r.
  - rewrite IH, lookup_append_to. unfold files_of. simpl.
    case_bool_decide; [|reflexivity].
    destruct (categorized !! bucket_key b); simpl; [|reflexivity].
    now rewrite <- app_assoc.
Qed.

Lemma empty_categorized_lookup b : empty_categorized !! bucket_key b = Some [].
Proof. destruct b; reflexivity. Qed.

(** C9. Every CSV file goes to exactly one of the five buckets: the bucket
    of a domain holds the files that [classify] sends there and no other,
    and [classify] tests the lowercased name against the pattern sets in the
    order sales, inventory, advertising, reviews; the first set that matches
    wins whatever the later ones say, and a name matching none is "other". *)
Theorem discover_files_first_match (csv_files : list string) :
  (forall b, discover_files csv_files !! bucket_key b = Some (files_of b csv_files))
  /\ (forall f,
        let name := lower f in
        let sales := contains_any ["sales"; "transaction"; "order"] name in
        let inventory := contains_any ["inventory"; "stock"] name in
        let advertising := contains_any ["ad"; "spend"; "campaign"] name in
        let reviews := contains_any ["review"; "rating"] name in
        (sales = true -> classify f = Sales)
        /\ (sales = false -> inventory = true -> classify f = Inventory)
        /\ (sales = false -> inventory = false -> advertising = true ->
            classify f = Advertising)
        /\ (sales = false -> inventory = false -> advertising = false ->
            reviews = true -> classify f = Reviews)
        /\ (sales = false -> inventory = false -> advertising = false ->
            reviews = false -> classify f = Other)).
Proof.
  split.
  - intros b. unfold discover_files.
    now rewrite discover_fold, empty_categorized_lookup.
  - intros f name sales inventory advertising reviews.
    unfold classify. fold name. fold sales inventory advertising reviews.
    repeat split; intros; repeat match goal with H : _ = _ |- _ => rewrite H end;
      reflexivity.
Qed.

End Discovery.

(** ** Column resolution in the sales analyzer *)

Section RevenueColumn.
Import PyStr DataAnalyzer Shape.

Lemma find_revenue_col_spec (cols : list string) :
  find_revenue_col cols = find revenue_like cols.
Proof. reflexivity. Qed.

Lemma find_first {A} (p : A -> bool) (l : list A) x :
  find p l = Some x <->
  exists pre post, l = pre ++ x :: post /\ p x = true
                   /\ Forall (fun y => p y = false) pre.
Proof.
  induction l as [|a l IH]; simpl.
  - split; [discriminate|]. intros (pre & post & Hl & _). now destruct pre.
  - destruct (p a) eqn:Ha.
    + split.
      * intros [= ->]. exists [], l. repeat split; [assumption|constructor].
      * intros (pre & post & Hl & Hx & Hpre).
        destruct pre as [|b pre]; simpl in Hl; injection Hl as -> ->; [reflexivity|].
        apply Forall_cons in Hpre as [Hb _]. congruence.
    + rewrite IH. split.
      * intros (pre & post & -> & Hx & Hpre).
        exists (a :: pre), post. repeat split; [assumption|now constructor].
      * intros (pre & post & Hl & Hx & Hpre).
        destruct pre as [|b pre]; simpl in Hl; injection Hl as -> ->; [congruence|].
        apply Forall_cons in Hpre as [_ Hpre]. now exists pre, post.
Qed.

Lemma find_none {A} (p : A -> bool) (l : list A) :
  find p l = None <-> Forall (fun y => p y = false) l.
Proof.
  induction l as [|a l IH]; simpl.
  - split; [constructor|reflexivity].
  - destruct (p a) eqn:Ha.
    + split; [discriminate|]. intros Hall. apply Forall_cons in Hall as [Hb _]. congruence.
    + rewrite IH. split; [now constructor|]. intros Hall. now apply Forall_cons in Hall as [_ ?].
Qed.

End RevenueColumn.

(** ** Frames *)

Section Frames.

Lemma has_column_In df label : has_column df label = true <-> In label (columns df).
Proof.
  unfold has_column. rewrite existsb_exists. split.
  - intros (x & Hin & Heq). apply String.eqb_eq in Heq. now subst.
  - intros Hin. exists label. split; [assumption|apply String.eqb_refl].
Qed.

Lemma has_column_false df label : has_column df label = false <-> ~ In label (columns df).
Proof.
  rewrite <- has_column_In. destruct (has_column df label); split; congruence.
Qed.

Lemma filter_labelled_nil df label :
  ~ In label (columns df) -> List.filter (labelled label) df = [].
Proof.
  induction df as [|[l s] df IH]; simpl; [reflexivity|]. intros Hnot.
  unfold labelled at 1. simpl.
  destruct (String.eqb_spec l label) as [->|Hne]; [tauto|]. apply IH. tauto.
Qed.

Lemma getitem_unique df label :
  NoDup (columns df) -> In label (columns df) ->
  exists s, getitem df label = Ok (Series s) /\ In (label, s) df.
Proof.
  unfold getitem. induction df as [|[l s] df IH]; simpl; [tauto|].
  intros Hnd Hin. apply NoDup_cons in Hnd as [Hl Hnd]. rewrite list_elem_of_In in Hl.
  unfold labelled at 1. simpl.
  destruct (String.eqb_spec l label) as [->|Hne].
  - rewrite filter_labelled_nil by assumption. exists s. auto.
  - destruct Hin as [?|Hin]; [congruence|].
    destruct (IH Hnd Hin) as (s' & Hget & Hin'). exists s'. auto.
Qed.

Lemma columns_setitem df label s :
  columns (setitem df label s)
  = columns df ++ (if has_column df label then [] else [label]).
Proof.
  unfold setitem. destruct (has_column df label).
  - rewrite app_nil_r. unfold columns. rewrite map_map. apply map_ext_in.
    intros [l s'] _. unfold labelled. simpl.
    now destruct (String.eqb_spec l label) as [->|Hne].
  - unfold columns. now rewrite map_app.
Qed.

Lemma NoDup_columns_setitem df label s :
  NoDup (columns df) -> NoDup (columns (setitem df label s)).
Proof.
  intros Hnd. rewrite columns_setitem.
  destruct (has_column df label) eqn:Hhas; [now rewrite app_nil_r|].
  apply has_column_false in Hhas.
  apply NoDup_app. repeat split; [assumption| |apply NoDup_singleton].
  intros x Hx Hx'. apply list_elem_of_In in Hx, Hx'.
  destruct Hx' as [<-|[]]. contradiction.
Qed.

Lemma has_column_setitem df label s : has_column (setitem df label s) label = true.
Proof.
  apply has_column_In. rewrite columns_setitem.
  destruct (has_column df label) eqn:Hhas.
  - rewrite app_nil_r. now apply has_column_In.
  - apply in_or_app. right. now left.
Qed.

Lemma has_column_setitem_other df label label' s :
  has_column df label' = true -> has_column (setitem df label s) label' = true.
Proof.
  rewrite !has_column_In, columns_setitem. intros Hin. apply in_or_app. now left.
Qed.

Lemma In_setitem df label s : In (label, s) (setitem df label s).
Proof.
  unfold setitem. destruct (has_column df label) eqn:Hhas.
  - apply has_column_In in Hhas. unfold columns in Hhas.
    apply in_map_iff in Hhas as ([l s'] & Heq & Hin). simpl in Heq. subst l.
    apply in_map_iff. exists (label, s'). split; [|assumption].
    unfold labelled. simpl. now rewrite String.eqb_refl.
  - apply in_or_app. right. now left.
Qed.

Lemma NoDup_columns_In df label s s' :
  NoDup (columns df) -> In (label, s) df -> In (label, s') df -> s = s'.
Proof.
  induction df as [|[l t] df IH]; simpl; [tauto|].
  intros Hnd. apply NoDup_cons in Hnd as [Hl Hnd]. rewrite list_elem_of_In in Hl.
  intros [Heq|Hin] [Heq'|Hin']; simplify_eq; try reflexivity.
  - exfalso. apply Hl. apply in_map_iff. now exists (label, s').
  - exfalso. apply Hl. apply in_map_iff. now exists (label, s).
  - now apply IH.
Qed.

Lemma getitem_setitem df label s :
  NoDup (columns df) -> getitem (setitem df label s) label = Ok (Series s).
Proof.
  intros Hnd.
  pose proof (NoDup_columns_setitem df label s Hnd) as Hnd'.
  destruct (getitem_unique (setitem df label s) label Hnd') as (s' & Hget & Hin).
  { apply has_column_In, has_column_setitem. }
  rewrite Hget. do 2 f_equal.
  eapply NoDup_columns_In; [exact Hnd'|exact Hin|apply In_setitem].
Qed.

End Frames.

(** ** Binary64 comparisons against the thresholds *)

Section Thresholds.

Lemma below_3_below_7 x : F.ltb x (F.of_Z 3) = true -> F.ltb x (F.of_Z 7) = true.
Proof.
  change (F.of_Z 3) with (S754_finite false 6755399441055744 (-51)).
  change (F.of_Z 7) with (S754_finite false 7881299347898368 (-50)).
  unfold F.ltb, SFltb, SFcompare.
  destruct x as [s|s| |s m e]; [reflexivity|now destruct s|discriminate|].
  destruct s; [reflexivity|].
  destruct (Z.compare_spec e (-51)) as [->|Hlt|Hgt]; intros Hcmp.
  - reflexivity.
  - destruct (Z.compare_spec e (-50)); [lia|reflexivity|lia].
  - discriminate Hcmp.
Qed.

End Thresholds.

(** ** Binary64 operations never invent a NaN *)

Section NotNaN.

Lemma iter_pos_invariant {A} (P : A -> Prop) (f : A -> A) :
  (forall x, P x -> P (f x)) -> forall n x, P x -> P (SpecFloat.iter_pos f n x).
Proof.
  intros Hf. induction n as [n IH|n IH|]; intros x Hx; simpl; auto.
Qed.

Lemma shr_1_nonneg mrs : (0 <= shr_m mrs)%Z -> (0 <= shr_m (shr_1 mrs))%Z.
Proof.
  destruct mrs as [m r s]. destruct m as [|[p|p|]|[p|p|]]; simpl; intros; lia.
Qed.

Lemma shr_nonneg mrs e n :
  (0 <= shr_m mrs)%Z -> (0 <= shr_m (fst (shr mrs e n)))%Z.
Proof.
  intros Hm. destruct n as [|p|p]; simpl; try assumption.
  now apply (iter_pos_invariant (fun mrs => (0 <= shr_m mrs)%Z) shr_1 shr_1_nonneg).
Qed.

Lemma shr_record_of_loc_m m l : shr_m (shr_record_of_loc m l) = m.
Proof. now destruct l as [|[]]. Qed.

Lemma round_nearest_even_nonneg m l : (0 <= m)%Z -> (0 <= round_nearest_even m l)%Z.
Proof. intros Hm. destruct l as [|[]]; simpl; try destruct (Z.even m); lia. Qed.

Lemma binary_round_aux_not_nan sx mx ex lx :
  (0 <= mx)%Z -> F.is_nan (binary_round_aux F.prec F.emax sx mx ex lx) = false.
Proof.
  intros Hm. unfold binary_round_aux, shr_fexp.
  set (n1 := (fexp F.prec F.emax (Zdigits2 mx + ex) - ex)%Z).
  pose proof (shr_nonneg (shr_record_of_loc mx lx) ex n1) as H1.
  rewrite shr_record_of_loc_m in H1. specialize (H1 Hm).
  destruct (shr (shr_record_of_loc mx lx) ex n1) as [mrs' e']. simpl in H1.
  set (m2 := round_nearest_even (shr_m mrs') (loc_of_shr_record mrs')).
  assert (H2 : (0 <= m2)%Z) by now apply round_nearest_even_nonneg.
  set (n2 := (fexp F.prec F.emax (Zdigits2 m2 + e') - e')%Z).
  pose proof (shr_nonneg (shr_record_of_loc m2 loc_Exact) e' n2) as H3.
  rewrite shr_record_of_loc_m in H3. specialize (H3 H2).
  destruct (shr (shr_record_of_loc m2 loc_Exact) e' n2) as [mrs'' e'']. simpl in H3.
  destruct (shr_m mrs'') as [|p|p]; [reflexivity| |lia].
  now destruct (e'' <=? F.emax - F.prec)%Z.
Qed.

Lemma binary_normalize_not_nan m e s :
  F.is_nan (binary_normalize F.prec F.emax m e s) = false.
Proof.
  destruct m as [|p|p]; [reflexivity| |]; unfold binary_normalize, binary_round;
    destruct (shl_align _ _ _) as [mz ez]; now apply binary_round_aux_not_nan.
Qed.

Lemma mul_100_not_nan x : F.is_nan x = false -> F.is_nan (F.mul x (F.of_Z 100)) = false.
Proof.
  change (F.of_Z 100) with (S754_finite false 7036874417766400 (-46)).
  destruct x as [s|s| |s m e]; try reflexivity; [discriminate|]. intros _.
  unfold F.mul, SFmul. now apply binary_round_aux_not_nan.
Qed.

Lemma div_eucl_nonneg a b q r :
  (0 <= a)%Z -> (0 < b)%Z -> Z.div_eucl a b = (q, r) -> (0 <= q)%Z.
Proof.
  intros Ha Hb Heq.
  assert (Hq : q = (a / b)%Z) by (unfold Z.div; now rewrite Heq).
  subst q. now apply Z.div_pos.
Qed.

Lemma div_finite_not_nan x s m e :
  F.is_nan x = false -> F.is_nan (F.div x (S754_finite s m e)) = false.
Proof.
  destruct x as [sx|sx| |sx mx ex]; try reflexivity; [discriminate|]. intros _.
  unfold F.div, SFdiv, SFdiv_core_binary.
  set (e' := Z.min _ _). set (m' := match (ex - e - e')%Z with
                                      | Z0 => Zpos mx
                                      | Zpos _ => Z.shiftl (Zpos mx) (ex - e - e')
                                      | Zneg _ => Z0
                                      end).
  assert (Hm' : (0 <= m')%Z).
  { subst m'. destruct (ex - e - e')%Z; try lia. apply Z.shiftl_nonneg. lia. }
  destruct (Z.div_eucl m' (Zpos m)) as [q r] eqn:Hdiv.
  apply binary_round_aux_not_nan.
  now apply (div_eucl_nonneg m' (Zpos m) q r).
Qed.

Lemma rint_not_nan x : F.is_nan x = false -> F.is_nan (F.rint x) = false.
Proof.
  destruct x as [s|s| |s m e]; try reflexivity; [discriminate|]. intros _.
  unfold F.rint. destruct (0 <=? e)%Z; [reflexivity|].
  destruct (shr _ _ _) as [mrs e']. apply binary_normalize_not_nan.
Qed.

Lemma round2_not_nan x : F.is_nan x = false -> F.is_nan (F.round2 x) = false.
Proof.
  intros Hx. unfold F.round2.
  change (F.of_Z 100) with (S754_finite false 7036874417766400 (-46)) at 2.
  now apply div_finite_not_nan, rint_not_nan, mul_100_not_nan.
Qed.

Lemma sub_finite_not_nan x y :
  F.is_finite x = true -> F.is_finite y = true -> F.is_nan (F.sub x y) = false.
Proof.
  destruct x as [sx|sx| |sx mx ex], y as [sy|sy| |sy my ey]; try discriminate;
    intros _ _; unfold F.sub, SFsub; try reflexivity.
  - now destruct sx, sy.
  - apply binary_normalize_not_nan.
Qed.

End NotNaN.

(** ** Running the method bodies *)

Ltac mrun :=
  unfold DataAnalyzer.read_df, DataAnalyzer.read_metrics, DataAnalyzer.assign_column,
    DataAnalyzer.set_metric, DataAnalyzer.new_metrics, DataAnalyzer.append_alert,
    DataAnalyzer.store_results in *;
  unfold when in *;
  unfold bind, lift, ret, raise, modify, try_except in *;
  cbn [fst snd DataAnalyzer.sc_df DataAnalyzer.sc_metrics DataAnalyzer.self_results
       DataAnalyzer.self_alerts] in *.

Ltac mcases :=
  repeat (case_match; simplify_eq;
          cbn [fst snd DataAnalyzer.sc_df DataAnalyzer.sc_metrics
               DataAnalyzer.self_results DataAnalyzer.self_alerts] in *).

Section Sales.
Import PyStr DataAnalyzer Shape.
Context `{Pandas}.
Variable now : Z.

Lemma find_resolved (p : string -> bool) (df : frame) col :
  (forall c, p c = true -> c <> "") ->
  find p (columns df) = Some col -> resolved df (Some col) = true.
Proof.
  intros Hne Hfind. unfold resolved, has_column.
  apply find_some in Hfind as [Hin Hp].
  apply andb_true_iff. split.
  - apply negb_true_iff, String.eqb_neq. now apply Hne.
  - apply existsb_exists. exists col. split; [assumption|apply String.eqb_refl].
Qed.

(** [_analyze_sales] cut into its stages. *)
Lemma analyze_sales_stages sc :
  _analyze_sales now sc =
  match sales_basics (sc_df sc) with
  | Ok (q, r, a) =>
      let revenue_col := find_revenue_col (columns (sc_df sc)) in
      let quantity_col := find_quantity_col (columns (sc_df sc)) in
      sales_finish
        (after_products revenue_col quantity_col
           (after_dates now revenue_col
              (with_metrics sc (basic_metrics (sc_df sc) q r a))))
  | Raise e => (sc, Raise e)
  end.
Proof.
  unfold _analyze_sales, sales_basics.
  mrun. cbn zeta.
  destruct (aggregate_or_zero sum_of (sc_df sc) (find_quantity_col (columns (sc_df sc))))
    as [q|e]; [|reflexivity].
  destruct (aggregate_or_zero sum_of (sc_df sc) (find_revenue_col (columns (sc_df sc))))
    as [r|e]; [|reflexivity].
  destruct (aggregate_or_zero mean_of (sc_df sc) (find_revenue_col (columns (sc_df sc))))
    as [a|e]; [|reflexivity].
  unfold after_dates, with_metrics, basic_metrics. cbn [sc_df].
  set (rc := find_revenue_col (columns (sc_df sc))).
  set (qc := find_quantity_col (columns (sc_df sc))).
  set (sc1 := {| sc_df := sc_df sc; sc_metrics := _; self_results := self_results sc;
                 self_alerts := self_alerts sc |}).
  assert (Hstage : forall sc2 : scope,
    match
      (if resolved (sc_df sc2) (find_product_col (columns (sc_df sc2)))
          && resolved (sc_df sc2) rc
       then match find_product_col (columns (sc_df sc2)) with
            | Some product_col =>
                match rc with
                | Some revenue_col =>
                    fun s : scope => (fst (product_block product_col revenue_col qc s), Ok tt)
                | None => fun s : scope => (s, Ok tt)
                end
            | None => fun s : scope => (s, Ok tt)
            end
       else fun s : scope => (s, Ok tt)) sc2
    with
    | (s'0, Ok _) => sales_finish s'0
    | (s'0, Raise e) => (s'0, Raise e)
    end = sales_finish (after_products rc qc sc2)).
  { intros sc2. unfold after_products.
    destruct (find_product_col (columns (sc_df sc2))) as [p|]; [|reflexivity].
    destruct rc as [r'|]; [|now rewrite andb_false_r].
    now destruct (resolved (sc_df sc2) (Some p) && resolved (sc_df sc2) (Some r')). }
  unfold sales_finish in Hstage at 1. unfold ret.
  destruct (find_date_col (columns (sc_df sc))) as [d|]; cbn [resolved];
    [destruct (negb (d =? "")%string && has_column (sc_df sc) d)|];
    cbn beta iota; rewrite <- Hstage; clear Hstage;
    repeat (case_match; simplify_eq; try reflexivity).
Qed.

Lemma agg_sum_length keys sel revenue :
  GroupBy.agg_sum keys sel = Ok revenue ->
  length revenue = length (GroupBy.group_keys keys).
Proof.
  unfold GroupBy.agg_sum, GroupBy.group_sum.
  destruct sel as [[[xs|cs|aware ts]|cols]|e]; intros Heq; simplify_eq.
  now rewrite length_map.
Qed.

Lemma series_len_key_column keys :
  series_len (GroupBy.key_column keys) = length (GroupBy.group_keys keys).
Proof.
  unfold GroupBy.key_column.
  destruct (mapM GroupBy.number_of_key (GroupBy.group_keys keys)) as [[|x xs]|] eqn:Hm;
    try reflexivity.
  apply length_mapM in Hm. simpl in *. congruence.
Qed.

Lemma last_two_length revenue :
  is_Some (last_two revenue) <-> 2 <= length revenue.
Proof.
  unfold last_two. rewrite <- (length_rev revenue).
  destruct (rev revenue) as [|x [|y l]]; simpl; split;
    try (intros [? ?]; discriminate); try lia; eauto.
Qed.

Lemma date_block_growth date_col revenue_col sc :
  sc_metrics sc !! "monthly_growth" = None ->
  sc_metrics sc !! "monthly_trends" = None ->
  sc_metrics sc !! "recent_revenue" = None ->
  let m := sc_metrics (fst (sales_date_block now date_col revenue_col sc)) in
  forall g,
    m !! "monthly_growth" = Some g <->
    exists keys revenue last_month prev_month recent,
      m !! "monthly_trends" = Some (MFrame [("month", keys); ("revenue", SNum revenue)])
      /\ m !! "recent_revenue" = Some recent
      /\ last_two revenue = Some (last_month, prev_month)
      /\ F.gtb prev_month (F.of_Z 0) = true
      /\ g = MNum (growth_rate last_month prev_month).
Proof.
  intros Hg Ht Hr m g. subst m. unfold sales_date_block. mrun. mcases.
  all: simplify_map_eq.
  all: try (split; [congruence | intros (? & ? & ? & ? & ? & ? & ? & ? & ? & ?); congruence]).
  all: split; [intros Heq; simplify_eq; eauto 10
              | intros (? & ? & ? & ? & ? & ? & ? & ? & ? & ?); simplify_eq; try congruence].
  all: match goal with
       | Hs : GroupBy.agg_sum _ _ = Ok ?r, Hl : last_two ?r = Some _,
         Hn : (1 <? series_len _)%nat = false |- _ =>
           apply agg_sum_length in Hs; rewrite series_len_key_column in Hn;
           apply Nat.ltb_ge in Hn;
           assert (2 <= length r) by (apply last_two_length; eauto); lia
       end.
Qed.

Lemma date_block_frame date_col revenue_col sc :
  let sc' := fst (sales_date_block now date_col revenue_col sc) in
  self_results sc' = self_results sc
  /\ self_alerts sc' = self_alerts sc
  /\ (revenue_col = None -> sc_metrics sc' = sc_metrics sc)
  /\ (forall sel dates sel' months,
        getitem (sc_df sc) date_col = Ok sel ->
        DataLoader.to_datetime sel = Ok dates ->
        getitem (setitem (sc_df sc) "_date" dates) "_date" = Ok sel' ->
        month_strings sel' = Ok months ->
        sc_df sc' = setitem (setitem (sc_df sc) "_date" dates) "_month_str" months).
Proof.
  unfold sales_date_block. mrun.
  split; [|split; [|split]].
  - mcases; reflexivity.
  - mcases; reflexivity.
  - intros ->. cbn [resolved]. mcases; reflexivity.
  - intros sel dates sel' months Hsel Hdates Hsel' Hmonths.
    rewrite Hsel, Hdates. cbn [fst snd sc_df]. rewrite Hsel', Hmonths.
    cbn [fst snd sc_df]. mcases; reflexivity.
Qed.

Lemma product_block_effects product_col revenue_col quantity_col sc :
  let sc' := fst (product_block product_col revenue_col quantity_col sc) in
  sc_df sc' = sc_df sc
  /\ self_results sc' = self_results sc
  /\ self_alerts sc' = self_alerts sc
  /\ (forall key, key <> "top_products" -> sc_metrics sc' !! key = sc_metrics sc !! key).
Proof.
  unfold product_block. mrun.
  split; [|split; [|split]]; [| | |intros key Hkey]; mcases; try reflexivity.
  all: now rewrite lookup_insert_ne by congruence.
Qed.

Lemma after_products_effects revenue_col quantity_col sc :
  let sc' := after_products revenue_col quantity_col sc in
  sc_df sc' = sc_df sc
  /\ self_results sc' = self_results sc
  /\ self_alerts sc' = self_alerts sc
  /\ (forall key, key <> "top_products" -> sc_metrics sc' !! key = sc_metrics sc !! key).
Proof.
  unfold after_products.
  destruct (find_product_col (columns (sc_df sc))) as [p|]; [|now repeat split].
  destruct revenue_col as [r|]; [|now repeat split].
  destruct (resolved (sc_df sc) (Some p) && resolved (sc_df sc) (Some r));
    [apply product_block_effects | now repeat split].
Qed.

Lemma basic_metrics_lookup df q r a :
  basic_metrics df q r a !! "total_revenue" = Some r
  /\ basic_metrics df q r a !! "avg_order_value" = Some a
  /\ basic_metrics df q r a !! "total_quantity" = Some q
  /\ basic_metrics df q r a !! "monthly_growth" = None
  /\ basic_metrics df q r a !! "monthly_trends" = None
  /\ basic_metrics df q r a !! "recent_revenue" = None.
Proof. unfold basic_metrics. repeat split; now simplify_map_eq. Qed.

Lemma date_word_nonempty c : contains "date" (lower c) = true -> c <> "".
Proof. intros Hc ->. discriminate Hc. Qed.

Lemma after_dates_growth revenue_col sc :
  sc_metrics sc !! "monthly_growth" = None ->
  sc_metrics sc !! "monthly_trends" = None ->
  sc_metrics sc !! "recent_revenue" = None ->
  let m := sc_metrics (after_dates now revenue_col sc) in
  forall g,
    m !! "monthly_growth" = Some g <->
    exists keys revenue last_month prev_month recent,
      m !! "monthly_trends" = Some (MFrame [("month", keys); ("revenue", SNum revenue)])
      /\ m !! "recent_revenue" = Some recent
      /\ last_two revenue = Some (last_month, prev_month)
      /\ F.gtb prev_month (F.of_Z 0) = true
      /\ g = MNum (growth_rate last_month prev_month).
Proof.
  intros Hg Ht Hr m. subst m. unfold after_dates.
  destruct (find_date_col (columns (sc_df sc))) as [d|];
    [destruct (resolved (sc_df sc) (Some d))|];
    [now apply date_block_growth| |]; intros g;
    (split; [congruence | intros (? & ? & ? & ? & ? & ? & ? & ?); congruence]).
Qed.

Lemma after_dates_effects revenue_col sc :
  let sc' := after_dates now revenue_col sc in
  self_results sc' = self_results sc
  /\ self_alerts sc' = self_alerts sc
  /\ (revenue_col = None -> sc_metrics sc' = sc_metrics sc).
Proof.
  unfold after_dates.
  destruct (find_date_col (columns (sc_df sc))) as [d|]; [|now repeat split].
  destruct (resolved (sc_df sc) (Some d)); [|now repeat split].
  pose proof (date_block_frame d revenue_col sc) as (Hr & Ha & Hm & _). auto.
Qed.

Lemma growth_rate_not_nan last_month prev_month :
  F.gtb prev_month (F.of_Z 0) = true ->
  F.is_finite last_month = true -> F.is_finite prev_month = true ->
  F.is_nan (growth_rate last_month prev_month) = false.
Proof.
  intros Hpos Hlast Hprev. unfold growth_rate.
  apply mul_100_not_nan.
  pose proof (sub_finite_not_nan _ _ Hlast Hprev) as Hsub.
  destruct prev_month as [s|s| |s m e]; try discriminate Hprev.
  - discriminate Hpos.
  - now apply div_finite_not_nan.
Qed.

(** C6. The revenue column is the first name, in the order of the table,
    whose lowercased form contains "total", "revenue", "amount" or "price"
    and does not contain "unit": "unit_price" is passed over and
    "total_amount" after it is taken; when no name qualifies there is no
    revenue column, and the revenue metrics are 0 without any error. *)
Theorem revenue_column_first_match sc :
  let cols := columns (sc_df sc) in
  (forall c,
     find_revenue_col cols = Some c <->
     exists pre post,
       cols = pre ++ c :: post /\ revenue_like c = true
       /\ Forall (fun y => revenue_like y = false) pre)
  /\ (forall pre mid post,
        Forall (fun y => revenue_like y = false) pre ->
        Forall (fun y => revenue_like y = false) mid ->
        find_revenue_col (pre ++ "unit_price" :: mid ++ "total_amount" :: post)
        = Some "total_amount")
  /\ (find_revenue_col cols = None <-> Forall (fun y => revenue_like y = false) cols)
  /\ (find_revenue_col cols = None ->
      forall q,
        aggregate_or_zero sum_of (sc_df sc) (find_quantity_col cols) = Ok q ->
        exists sc' m,
          _analyze_sales now sc = (sc', Ok tt)
          /\ self_results sc' !! "sales" = Some m
          /\ m !! "total_revenue" = Some (MInt 0)
          /\ m !! "avg_order_value" = Some (MInt 0)
          /\ m !! "monthly_growth" = None
          /\ self_alerts sc' = self_alerts sc).
Proof.
  intros cols. split; [|split; [|split]].
  - intros c. apply find_first.
  - intros pre mid post Hpre Hmid.
    apply (find_first revenue_like).
    exists (pre ++ "unit_price" :: mid), post. split; [|split].
    + now rewrite <- app_assoc.
    + reflexivity.
    + apply Forall_app. split; [assumption|].
      apply Forall_cons. split; [reflexivity|assumption].
  - apply find_none.
  - intros Hnone q Hq. rewrite analyze_sales_stages.
    unfold sales_basics. fold cols. rewrite Hq, Hnone. cbn [aggregate_or_zero]. cbn zeta.
    set (sc1 := with_metrics sc (basic_metrics (sc_df sc) q (MInt 0) (MInt 0))).
    destruct (after_dates_effects None sc1) as (Hres & Hal & Hmet).
    specialize (Hmet eq_refl).
    assert (Hprod : after_products None (find_quantity_col cols) (after_dates now None sc1)
                    = after_dates now None sc1).
    { unfold after_products.
      now destruct (find_product_col (columns (sc_df (after_dates now None sc1)))). }
    rewrite Hprod.
    destruct (basic_metrics_lookup (sc_df sc) q (MInt 0) (MInt 0))
      as (Hr & Ha & _ & Hg & _ & _).
    unfold sales_finish, get_number. rewrite Hmet. cbn [sc_metrics with_metrics sc1].
    rewrite Hg. change (F.ltb (F.of_Z 0) (F.of_Z (-10))) with false. cbn iota.
    eexists _, _. split; [reflexivity|]. cbn [self_results self_alerts].
    rewrite lookup_insert_eq. repeat split; assumption.
Qed.

End Sales.

(** The claim of C3 fails when the previous month is negative: two months,
    a previous total of -50, and no 'monthly_growth'. *)
Lemma monthly_growth_absent_on_negative_month :
  DataAnalyzer.sc_metrics
    (fst (@DataAnalyzer._analyze_sales Shape.sample_pandas Shape.scenario_now
            (Shape.fresh Shape.refund_sales))) !! "monthly_trends"
  = Some (MFrame [("month", SObj [CStr "2023-01"; CStr "2023-02"]);
                  ("revenue", SNum [F.of_Z (-50); F.of_Z 100])])
  /\ SFeqb (F.of_Z (-50)) (F.of_Z 0) = false
  /\ DataAnalyzer.sc_metrics
       (fst (@DataAnalyzer._analyze_sales Shape.sample_pandas Shape.scenario_now
               (Shape.fresh Shape.refund_sales))) !! "monthly_growth"
     = None.
Proof. vm_compute. repeat split; reflexivity. Qed.

Lemma revenue_column_first_match_witness :
  DataAnalyzer.find_revenue_col ["order_id"; "unit_price"; "sku"; "total_amount"; "price"]
  = Some "total_amount"
  /\ exists sc' m,
       @DataAnalyzer._analyze_sales Shape.sample_pandas Shape.scenario_now
         (Shape.fresh Shape.unit_price_sales) = (sc', Ok tt)
       /\ DataAnalyzer.self_results sc' !! "sales" = Some m
       /\ m !! "total_revenue" = Some (MInt 0)
       /\ m !! "avg_order_value" = Some (MInt 0)
       /\ m !! "monthly_growth" = None
       /\ DataAnalyzer.self_alerts sc' = [].
Proof.
  pose proof (@revenue_column_first_match Shape.sample_pandas Shape.scenario_now
                (Shape.fresh Shape.unit_price_sales)) as (_ & Hexample & _ & Hdefault).
  split.
  - apply (Hexample ["order_id"] ["sku"] ["price"]);
      repeat constructor.
  - apply (Hdefault eq_refl (MNum (F.of_Z 3))). vm_compute. reflexivity.
Defined.

(** ** Inventory alerts *)

Section Inventory.
Import PyStr DataAnalyzer Shape.
Context `{Pandas}.

Lemma to_numeric_series s : DataLoader.to_numeric (Series s) = Ok (numeric_values s).
Proof. now destruct s. Qed.

Lemma length_numeric_values s : length (numeric_values s) = series_len s.
Proof.
  destruct s as [xs|cs|aware ts]; simpl;
    [reflexivity|apply length_map|apply datetime_as_number_length].
Qed.

Lemma length_mask_filter {A} (mask : list bool) (xs : list A) :
  length mask = length xs -> length (mask_filter mask xs) = count_true mask.
Proof.
  unfold count_true. revert xs.
  induction mask as [|b mask IH]; intros [|x xs] Hlen; simpl in *; try lia.
  destruct b; simpl; rewrite IH by lia; reflexivity.
Qed.

Lemma len_filter_rows mask df :
  df <> [] -> length mask = len df -> len (filter_rows mask df) = count_true mask.
Proof.
  destruct df as [|[l s] df]; [congruence|]. intros _. simpl.
  destruct s; simpl; apply length_mask_filter.
Qed.

Lemma getitem_series_In df label s :
  getitem df label = Ok (Series s) -> In (label, s) df.
Proof.
  unfold getitem.
  destruct (List.filter (labelled label) df) as [|[l t] [|c cs]] eqn:Hf;
    intros Heq; try discriminate Heq.
  assert (Hin : In (l, t) (List.filter (labelled label) df)) by (rewrite Hf; now left).
  apply filter_In in Hin as [Hin Hl]. unfold labelled in Hl. simpl in *.
  apply String.eqb_eq in Hl. injection Heq as <-. now subst.
Qed.

Lemma getitem_series_len df label s :
  rectangular df -> getitem df label = Ok (Series s) -> series_len s = len df.
Proof.
  intros Hrect Hget. apply getitem_series_In in Hget.
  unfold rectangular in Hrect. rewrite Forall_forall in Hrect.
  apply list_elem_of_In in Hget. exact (Hrect _ Hget).
Qed.

Lemma getitem_nonempty df label sel : getitem df label = Ok sel -> df <> [].
Proof. intros Hget ->. discriminate Hget. Qed.

Lemma stock_word_nonempty c :
  contains "stock" (lower c)
  && (contains "current" (lower c) || contains "available" (lower c)) = true ->
  c <> "".
Proof. intros Hc ->. discriminate Hc. Qed.

Lemma days_word_nonempty c : contains "days" (lower c) = true -> c <> "".
Proof. intros Hc ->. discriminate Hc. Qed.

Lemma low_stock_analysis_alerts cfg days_col sc s :
  rectangular (sc_df sc) ->
  getitem (sc_df sc) days_col = Ok (Series s) ->
  self_alerts (fst (low_stock_analysis cfg days_col sc))
  = self_alerts sc ++ stock_alerts cfg (numeric_values s).
Proof.
  intros Hrect Hget.
  pose proof (getitem_nonempty _ _ _ Hget) as Hne.
  pose proof (getitem_series_len _ _ _ Hrect Hget) as Hlen.
  rewrite <- length_numeric_values in Hlen.
  unfold low_stock_analysis. mrun. rewrite Hget, to_numeric_series.
  cbn [fst snd self_alerts sc_df]. unfold stock_alerts.
  set (days := numeric_values s) in *.
  set (low := below (low_stock_days cfg) days).
  assert (Hlow : len (filter_rows low (sc_df sc)) = count_true low).
  { apply len_filter_rows; [assumption|]. unfold low, below. now rewrite length_map. }
  assert (Hover : len (filter_rows (above (overstock_days cfg) days) (sc_df sc))
                  = count_true (above (overstock_days cfg) days)).
  { apply len_filter_rows; [assumption|]. unfold above. now rewrite length_map. }
  assert (Hcrit : 0 < count_true low ->
                  len (filter_rows (below 3 (mask_filter low days))
                         (filter_rows low (sc_df sc)))
                  = count_true (below 3 (mask_filter low days))).
  { intros Hpos. apply len_filter_rows.
    - intros Hnil. rewrite Hnil in Hlow. simpl in Hlow. lia.
    - unfold below at 1. rewrite length_map, Hlow.
      apply length_mask_filter. unfold low, below. now rewrite length_map. }
  rewrite Hlow, Hover.
  destruct (0 <? count_true low)%nat eqn:Hpos; cbn [fst snd self_alerts].
  - apply Nat.ltb_lt in Hpos. rewrite (Hcrit Hpos).
    destruct (0 <? count_true (below 3 (mask_filter low days)))%nat;
      cbn [fst snd self_alerts];
      destruct (0 <? count_true (above (overstock_days cfg) days))%nat;
      cbn [fst snd self_alerts]; now rewrite <- ?app_assoc.
  - destruct (0 <? count_true (above (overstock_days cfg) days))%nat;
      cbn [fst snd self_alerts]; now rewrite ?app_nil_r.
Qed.

Lemma low_stock_analysis_frame cfg days_col sc :
  sc_df (fst (low_stock_analysis cfg days_col sc)) = sc_df sc
  /\ self_results (fst (low_stock_analysis cfg days_col sc)) = self_results sc.
Proof. unfold low_stock_analysis. mrun. split; mcases; reflexivity. Qed.

Lemma analyze_inventory_alerts cfg sc :
  rectangular (sc_df sc) ->
  self_alerts (fst (_analyze_inventory cfg sc))
  = self_alerts sc ++ inventory_alerts cfg (sc_df sc).
Proof.
  intros Hrect. unfold _analyze_inventory, inventory_alerts. mrun.
  destruct (find_stock_col (columns (sc_df sc))) as [st|] eqn:Hst;
    [|cbn [resolved fst snd self_alerts]; now rewrite app_nil_r].
  rewrite (find_resolved _ _ _ stock_word_nonempty Hst).
  cbn [fst snd self_alerts]. unfold inventory_stock_block. mrun.
  destruct (getitem (sc_df sc) st) as [[s_st|cols]|e];
    [|cbn [fst snd self_alerts DataLoader.to_numeric]; now rewrite app_nil_r
     |cbn [fst snd self_alerts]; now rewrite app_nil_r].
  rewrite to_numeric_series. cbn [fst snd self_alerts sc_df].
  destruct (find_days_col (columns (sc_df sc))) as [dc|] eqn:Hdc;
    [|cbn [resolved fst snd self_alerts]; now rewrite app_nil_r].
  rewrite (find_resolved _ _ _ days_word_nonempty Hdc).
  destruct (getitem (sc_df sc) dc) as [[s|cols]|e] eqn:Hget.
  - match goal with
    | |- context [low_stock_analysis cfg dc ?sc1] =>
        rewrite (low_stock_analysis_alerts cfg dc sc1 s Hrect Hget)
    end.
    reflexivity.
  - unfold low_stock_analysis. mrun. rewrite Hget.
    cbn [fst snd self_alerts DataLoader.to_numeric]. now rewrite app_nil_r.
  - unfold low_stock_analysis. mrun. rewrite Hget.
    cbn [fst snd self_alerts]. now rewrite app_nil_r.
Qed.

Lemma count_nested (p q : F.float -> bool) days :
  (forall x, p x = true -> q x = true) ->
  count_true (map p (mask_filter (map q days) days)) = count_true (map p days)
  /\ count_true (map p days) <= count_true (map q days).
Proof.
  intros Hpq. unfold count_true.
  induction days as [|x days [IH1 IH2]]; cbn [map mask_filter List.filter length];
    [split; [reflexivity|lia]|].
  destruct (p x) eqn:Hp.
  - rewrite (Hpq _ Hp). cbn [map mask_filter List.filter length]. rewrite Hp.
    cbn [List.filter length]. split; [now rewrite IH1|lia].
  - destruct (q x); cbn [map mask_filter List.filter length]; rewrite ?Hp;
      cbn [List.filter length]; split; (assumption || lia).
Qed.

Lemma count_critical_low days :
  count_true (below 3 (mask_filter (below 7 days) days)) = count_true (below 3 days).
Proof. apply (count_nested _ _ days below_3_below_7). Qed.

Lemma count_critical_le_low days :
  count_true (below 3 days) <= count_true (below 7 days).
Proof. apply (count_nested _ _ days below_3_below_7). Qed.

Lemma stock_alerts_config days :
  stock_alerts config days
  = (if (0 <? count_true (below 3 days))%nat
     then [critical_stock_alert (count_true (below 3 days))] else [])
    ++ (if (0 <? count_true (below 7 days))%nat
        then [low_stock_alert config (count_true (below 7 days))] else [])
    ++ (if (0 <? count_true (above 30 days))%nat
        then [overstock_alert config (count_true (above 30 days))] else []).
Proof.
  unfold stock_alerts. cbn [low_stock_days overstock_days config].
  rewrite count_critical_low.
  pose proof (count_critical_le_low days) as Hle.
  destruct (0 <? count_true (below 7 days))%nat eqn:Hlow.
  - now rewrite <- app_assoc.
  - apply Nat.ltb_ge in Hlow.
    assert (Hcrit : (0 <? count_true (below 3 days))%nat = false)
      by (apply Nat.ltb_ge; lia).
    now rewrite Hcrit.
Qed.

(** C2. For every inventory table with rows of equal length in which both a
    stock-level column and a days-of-supply column resolve to one column
    each, the analysis appends, in this order: the critical alert when some
    row has days < 3, the low-stock alert when some row has days < 7, and the
    overstock alert when some row has days > 30, each with the number of
    such rows. *)
Theorem inventory_alerts_by_days sc stock_col days_col s_stock s_days :
  rectangular (sc_df sc) ->
  find_stock_col (columns (sc_df sc)) = Some stock_col ->
  getitem (sc_df sc) stock_col = Ok (Series s_stock) ->
  find_days_col (columns (sc_df sc)) = Some days_col ->
  getitem (sc_df sc) days_col = Ok (Series s_days) ->
  let days := numeric_values s_days in
  let critical := count (fun x => F.ltb x (F.of_Z 3)) days in
  let low := count (fun x => F.ltb x (F.of_Z 7)) days in
  let over := count (fun x => F.gtb x (F.of_Z 30)) days in
  self_alerts (fst (_analyze_inventory config sc))
  = self_alerts sc
    ++ (if (0 <? critical)%nat then [critical_stock_alert critical] else [])
    ++ (if (0 <? low)%nat then [low_stock_alert config low] else [])
    ++ (if (0 <? over)%nat then [overstock_alert config over] else []).
Proof.
  intros Hrect Hst Hgst Hdc Hgdc days critical low over.
  rewrite (analyze_inventory_alerts config sc Hrect).
  unfold inventory_alerts. rewrite Hst, Hgst, Hdc, Hgdc.
  now rewrite stock_alerts_config.
Qed.

Lemma labelled_setitem label label' s c :
  labelled label' (if labelled label c then (label, s) else c) = labelled label' c.
Proof.
  unfold labelled. destruct c as [l t]. simpl.
  destruct (String.eqb_spec l label) as [->|Hne]; reflexivity.
Qed.

Lemma filter_setitem df label label' s :
  has_column df label = true ->
  List.filter (labelled label') (setitem df label s)
  = map (fun c => if labelled label c then (label, s) else c)
        (List.filter (labelled label') df).
Proof.
  intros Hhas. unfold setitem. rewrite Hhas. clear Hhas.
  induction df as [|c df IH]; simpl; [reflexivity|].
  rewrite labelled_setitem. destruct (labelled label' c); simpl; now rewrite IH.
Qed.

Lemma getitem_setitem_same df label s s' :
  getitem df label = Ok (Series s) ->
  getitem (setitem df label s') label = Ok (Series s').
Proof.
  intros Hget. pose proof (getitem_series_In _ _ _ Hget) as Hin.
  assert (Hhas : has_column df label = true).
  { apply has_column_In. apply in_map_iff. now exists (label, s). }
  unfold getitem in *. rewrite (filter_setitem _ _ _ _ Hhas).
  destruct (List.filter (labelled label) df) as [|c [|d cs]] eqn:Hf;
    try discriminate Hget.
  assert (Hc : labelled label c = true).
  { assert (Hinc : In c (List.filter (labelled label) df)) by (rewrite Hf; now left).
    now apply filter_In in Hinc. }
  simpl. now rewrite Hc.
Qed.

Lemma getitem_setitem_kind df label label' s :
  has_column df label = true -> label' <> label ->
  getitem (setitem df label s) label' = getitem df label'.
Proof.
  intros Hhas Hne. unfold getitem. rewrite (filter_setitem _ _ _ _ Hhas).
  assert (Hid : forall l,
    Forall (fun c => labelled label' c = true) l ->
    map (fun c => if labelled label c then (label, s) else c) l = l).
  { induction l as [|c l IHl]; intros Hall; [reflexivity|].
    apply Forall_cons in Hall as [Hc Hall]. simpl. rewrite (IHl Hall). f_equal.
    unfold labelled in *. destruct c as [l0 t]. simpl in *.
    apply String.eqb_eq in Hc. subst l0.
    destruct (String.eqb_spec label' label); [contradiction|reflexivity]. }
  rewrite Hid; [reflexivity|].
  apply Forall_forall. intros c Hc. apply list_elem_of_In, filter_In in Hc. tauto.
Qed.

Lemma rectangular_setitem df label s s' :
  rectangular df -> getitem df label = Ok (Series s) ->
  series_len s' = series_len s -> rectangular (setitem df label s').
Proof.
  intros Hrect Hget Hlen.
  pose proof (getitem_series_len _ _ _ Hrect Hget) as Hs.
  pose proof (getitem_series_In _ _ _ Hget) as Hin.
  assert (Hhas : has_column df label = true).
  { apply has_column_In. apply in_map_iff. now exists (label, s). }
  assert (Hlen' : len (setitem df label s') = len df).
  { unfold setitem. rewrite Hhas. destruct df as [|[l t] df]; [reflexivity|].
    simpl. unfold labelled. simpl.
    destruct (String.eqb_spec l label) as [->|Hne]; [|reflexivity].
    simpl. unfold rectangular in Hrect. apply Forall_cons in Hrect as [Ht _].
    simpl in *. congruence. }
  unfold rectangular in *. rewrite Hlen'. unfold setitem. rewrite Hhas.
  apply Forall_fmap. eapply Forall_impl; [exact Hrect|].
  intros [l t] Ht. simpl in *. unfold labelled. simpl.
  destruct (String.eqb l label); simpl; congruence.
Qed.

Lemma set_number_values i v s s' :
  set_number i v s = Some s' ->
  numeric_values s' = <[i := v]> (numeric_values s)
  /\ series_len s' = series_len s.
Proof.
  destruct s as [xs|cs|aware ts]; simpl; intros Hset; simplify_eq; simpl.
  - split; [reflexivity|apply length_insert].
  - split; [now rewrite list_fmap_insert|apply length_insert].
Qed.

Lemma count_true_pos mask : 0 < count_true mask <-> In true mask.
Proof.
  unfold count_true. induction mask as [|b mask IH]; simpl; [split; [lia|tauto]|].
  destruct b; simpl; [split; [auto|lia]|].
  rewrite IH. split; [auto|]. intros [Hb|Hin]; [discriminate|assumption].
Qed.

Lemma critical_after_lowering i v days :
  F.ltb v (F.of_Z 3) = true ->
  0 < count_true (below 3 days) -> 0 < count_true (below 3 (<[i := v]> days)).
Proof.
  intros Hv. rewrite !count_true_pos. unfold below. rewrite !in_map_iff.
  intros (x & Hx & Hin).
  apply list_elem_of_In, list_elem_of_lookup in Hin as [j Hj].
  destruct (decide (i = j)) as [->|Hne].
  - exists v. split; [assumption|].
    apply list_elem_of_In, list_elem_of_lookup. exists j.
    apply list_lookup_insert_eq. now apply lookup_lt_Some in Hj.
  - exists x. split; [assumption|].
    apply list_elem_of_In, list_elem_of_lookup. exists j.
    now rewrite list_lookup_insert_ne.
Qed.

Lemma has_critical_app l1 l2 :
  has_critical (l1 ++ l2) = has_critical l1 || has_critical l2.
Proof. apply existsb_app. Qed.

Lemma has_critical_stock_alerts days :
  has_critical (stock_alerts config days) = (0 <? count_true (below 3 days))%nat.
Proof.
  rewrite stock_alerts_config.
  destruct (0 <? count_true (below 3 days))%nat;
    destruct (0 <? count_true (below 7 days))%nat;
    destruct (0 <? count_true (above 30 days))%nat; reflexivity.
Qed.

(** C8. In an inventory table with rows of equal length, replacing one
    value of the days-of-supply column by a number below 3, all other cells
    unchanged, keeps the "Critical Stock Shortage" alert if it was raised. *)
Theorem critical_alert_monotone sc days_col s s' i v :
  rectangular (sc_df sc) ->
  find_days_col (columns (sc_df sc)) = Some days_col ->
  getitem (sc_df sc) days_col = Ok (Series s) ->
  set_number i v s = Some s' ->
  F.ltb v (F.of_Z 3) = true ->
  has_critical (self_alerts (fst (_analyze_inventory config sc))) = true ->
  has_critical
    (self_alerts
       (fst (_analyze_inventory config
               (with_df sc (setitem (sc_df sc) days_col s'))))) = true.
Proof.
  intros Hrect Hdc Hget Hset Hv.
  destruct (set_number_values _ _ _ _ Hset) as [Hvalues Hlen].
  pose proof (rectangular_setitem _ _ _ _ Hrect Hget Hlen) as Hrect'.
  assert (Hhas : has_column (sc_df sc) days_col = true).
  { apply has_column_In. apply in_map_iff. exists (days_col, s).
    split; [reflexivity|now apply getitem_series_In]. }
  assert (Hcols : columns (setitem (sc_df sc) days_col s') = columns (sc_df sc)).
  { rewrite columns_setitem, Hhas. apply app_nil_r. }
  rewrite (analyze_inventory_alerts config sc Hrect).
  rewrite (analyze_inventory_alerts config (with_df sc _) Hrect').
  cbn [with_df sc_df self_alerts]. rewrite !has_critical_app.
  destruct (has_critical (self_alerts sc)); [reflexivity|]. simpl.
  unfold inventory_alerts. rewrite Hcols, Hdc, Hget.
  rewrite (getitem_setitem_same _ _ _ s' Hget).
  destruct (find_stock_col (columns (sc_df sc))) as [st|]; [|discriminate].
  assert (Hst : match getitem (setitem (sc_df sc) days_col s') st with
                | Ok (Series _) =>
                    match getitem (sc_df sc) st with Ok (Series _) => True | _ => False end
                | Ok (Frame _) =>
                    match getitem (sc_df sc) st with Ok (Frame _) => True | _ => False end
                | Raise _ =>
                    match getitem (sc_df sc) st with Raise _ => True | _ => False end
                end).
  { destruct (String.eqb_spec st days_col) as [->|Hne].
    - now rewrite (getitem_setitem_same _ _ _ s' Hget), Hget.
    - rewrite (getitem_setitem_kind _ _ _ _ Hhas Hne).
      now destruct (getitem (sc_df sc) st) as [[?|?]|?]. }
  destruct (getitem (sc_df sc) st) as [[?|?]|?];
    destruct (getitem (setitem (sc_df sc) days_col s') st) as [[?|?]|?];
    try contradiction; try discriminate.
  rewrite !has_critical_stock_alerts, Hvalues, !Nat.ltb_lt.
  now apply critical_after_lowering.
Qed.

End Inventory.

Lemma inventory_alerts_by_days_witness :
  DataAnalyzer.self_alerts
    (fst (@DataAnalyzer._analyze_inventory Shape.sample_pandas config
            (Shape.fresh Shape.short_inventory)))
  = [@DataAnalyzer.critical_stock_alert 1; DataAnalyzer.low_stock_alert config 1].
Proof.
  apply (@inventory_alerts_by_days Shape.sample_pandas
           (Shape.fresh Shape.short_inventory)
           "current_stock" "days_of_supply" (SNum [F.of_Z 5]) (SNum [F.of_Z 2]));
    try reflexivity.
  repeat constructor.
Defined.

(** The claim of C2 fails on a table that has a days-of-supply column and
    no stock-level column: one row with two days of supply, and no alert. *)
Lemma no_alert_without_stock_column :
  DataAnalyzer.find_days_col (columns Shape.days_only_inventory) = Some "days_of_supply"
  /\ DataAnalyzer.self_alerts
       (fst (@DataAnalyzer._analyze_inventory Shape.sample_pandas config
               (Shape.fresh Shape.days_only_inventory))) = [].
Proof. vm_compute. split; reflexivity. Qed.

Lemma critical_alert_monotone_witness :
  Shape.has_critical
    (DataAnalyzer.self_alerts
       (fst (@DataAnalyzer._analyze_inventory Shape.sample_pandas config
               (Shape.with_df (Shape.fresh Shape.two_row_inventory)
                  (setitem Shape.two_row_inventory "days_of_supply"
                     (SNum [F.of_Z 2; F.of_Z 1])))))) = true.
Proof.
  apply (@critical_alert_monotone Shape.sample_pandas
           (Shape.fresh Shape.two_row_inventory) "days_of_supply"
           (SNum [F.of_Z 2; F.of_Z 45]) (SNum [F.of_Z 2; F.of_Z 1]) 1 (F.of_Z 1));
    try reflexivity.
  repeat constructor.
Defined.

(** ** Which analyzer writes into its table *)

Section InPlace.
Import PyStr DataAnalyzer Shape.
Context `{Pandas}.
Variable cfg : Config.
Variable now : Z.

Lemma analyze_inventory_frame sc : sc_df (fst (_analyze_inventory cfg sc)) = sc_df sc.
Proof.
  unfold _analyze_inventory, inventory_stock_block. mrun.
  mcases; try reflexivity.
  all: match goal with
       | |- context [low_stock_analysis cfg ?d ?s] =>
           now rewrite (proj1 (low_stock_analysis_frame cfg d s))
       end.
Qed.

Lemma total_of_frame key col sc : sc_df (fst (total_of key col sc)) = sc_df sc.
Proof. unfold total_of. mrun. mcases; reflexivity. Qed.

Lemma campaign_block_frame spend_col clicks_col sc :
  sc_df (fst (campaign_block cfg spend_col clicks_col sc)) = sc_df sc.
Proof. unfold campaign_block. mrun. mcases; reflexivity. Qed.

Lemma rating_block_frame sc : sc_df (fst (rating_block cfg sc)) = sc_df sc.
Proof. unfold rating_block. mrun. mcases; reflexivity. Qed.

Lemma analyze_reviews_frame sc : sc_df (fst (_analyze_reviews cfg sc)) = sc_df sc.
Proof.
  unfold _analyze_reviews. mrun.
  destruct (has_column (sc_df sc) "rating"); cbn [fst snd sc_df]; [|reflexivity].
  now rewrite rating_block_frame.
Qed.

Lemma analyze_advertising_frame sc :
  sc_df (fst (_analyze_advertising cfg sc)) = sc_df sc.
Proof.
  unfold _analyze_advertising. mrun.
  repeat match goal with
         | |- context [total_of ?k ?c ?s] =>
             let Hf := fresh "Hf" in
             pose proof (total_of_frame k c s) as Hf;
             destruct (total_of k c s) as [? [?|?]]; cbn [fst snd sc_df] in *
         end; try congruence.
  mcases; rewrite ?campaign_block_frame; cbn [sc_df]; congruence.
Qed.

Lemma sales_finish_frame sc : sc_df (fst (sales_finish sc)) = sc_df sc.
Proof.
  unfold sales_finish.
  destruct (get_number (sc_metrics sc) "monthly_growth") as [g|e]; [|reflexivity].
  now destruct (F.ltb g (F.of_Z (-10))).
Qed.

Lemma has_column_setitem_ne df label label' s :
  label' <> label ->
  has_column (setitem df label s) label' = has_column df label'.
Proof.
  intros Hne. apply eq_true_iff_eq.
  rewrite !has_column_In, columns_setitem, in_app_iff.
  destruct (has_column df label); simpl; [tauto|].
  split; [intros [?|[?|[]]]; [assumption|congruence] | auto].
Qed.

Lemma analyze_sales_frame sc date_col s aware ts q r a :
  NoDup (columns (sc_df sc)) ->
  sales_basics (sc_df sc) = Ok (q, r, a) ->
  find_date_col (columns (sc_df sc)) = Some date_col ->
  getitem (sc_df sc) date_col = Ok (Series s) ->
  DataLoader.to_datetime (Series s) = Ok (STime aware ts) ->
  columns (sc_df (fst (_analyze_sales now sc)))
  = columns (sc_df sc) ++ added (sc_df sc) "_date" ++ added (sc_df sc) "_month_str".
Proof.
  intros Hnd Hbasics Hfind Hget Hdates.
  rewrite analyze_sales_stages, Hbasics. cbn zeta.
  rewrite sales_finish_frame.
  rewrite (proj1 (after_products_effects _ _ _)).
  unfold after_dates. cbn [with_metrics sc_df]. rewrite Hfind.
  rewrite (find_resolved _ _ _ date_word_nonempty Hfind).
  match goal with
  | |- context [sales_date_block now date_col ?rc ?sc1] =>
      destruct (date_block_frame now date_col rc sc1) as (_ & _ & _ & Hframe)
  end.
  cbn [sc_df] in Hframe.
  rewrite (Hframe _ _ _ _ Hget Hdates (getitem_setitem _ _ _ Hnd) eq_refl).
  rewrite !columns_setitem, <- app_assoc. unfold added.
  now rewrite has_column_setitem_ne by discriminate.
Qed.

Lemma analyze_domain_table key method r table :
  data_dict r !! key = Some (Some table) ->
  data_dict (fst (analyze_domain key method r))
  = <[key := Some (sc_df (fst (method {| sc_df := table; sc_metrics := ∅;
                                         self_results := results r;
                                         self_alerts := alerts r |})))]>
      (data_dict r).
Proof.
  intros Htable. unfold analyze_domain. rewrite Htable.
  now destruct (method _) as [sc out].
Qed.

Lemma analyze_domain_keeps_tables key method r :
  (forall sc, sc_df (fst (method sc)) = sc_df sc) ->
  data_dict (fst (analyze_domain key method r)) = data_dict r.
Proof.
  intros Hframe. unfold analyze_domain.
  destruct (data_dict r !! key) as [[table|]|] eqn:Htable; try reflexivity.
  specialize (Hframe {| sc_df := table; sc_metrics := ∅; self_results := results r;
                        self_alerts := alerts r |}).
  destruct (method _) as [sc out]. cbn [fst data_dict sc_df] in *.
  rewrite Hframe. now apply insert_id.
Qed.

(** C10. [_analyze_sales] writes into the table it is given, which is the
    caller's: when the sales table has pairwise distinct labels, its basic
    aggregates can be computed and its date column converts to a datetime
    column, the table found under 'sales' after the analysis has the columns
    '_date' and '_month_str'; each is appended unless the table already had
    a column of that name, so the column count grows by two when it had
    neither.  The analyses of the other three domains leave every table as
    it was. *)
Theorem sales_analysis_adds_helper_columns r table date_col s aware ts q t a :
  data_dict r !! "sales" = Some (Some table) ->
  NoDup (columns table) ->
  sales_basics table = Ok (q, t, a) ->
  find_date_col (columns table) = Some date_col ->
  getitem table date_col = Ok (Series s) ->
  DataLoader.to_datetime (Series s) = Ok (STime aware ts) ->
  (exists table',
     data_dict (fst (analyze_domain "sales" (_analyze_sales now) r)) !! "sales"
     = Some (Some table')
     /\ columns table'
        = columns table ++ added table "_date" ++ added table "_month_str"
     /\ (has_column table "_date" = false -> has_column table "_month_str" = false ->
         length (columns table') = length (columns table) + 2))
  /\ (forall r0,
        data_dict (fst (analyze_domain "inventory" (_analyze_inventory cfg) r0))
        = data_dict r0
        /\ data_dict (fst (analyze_domain "advertising" (_analyze_advertising cfg) r0))
           = data_dict r0
        /\ data_dict (fst (analyze_domain "reviews" (_analyze_reviews cfg) r0))
           = data_dict r0).
Proof.
  intros Htable Hnd Hbasics Hfind Hget Hdates. split.
  - set (sc := {| sc_df := table; sc_metrics := ∅; self_results := results r;
                  self_alerts := alerts r |}).
    exists (sc_df (fst (_analyze_sales now sc))).
    pose proof (analyze_sales_frame sc date_col s aware ts q t a
                  Hnd Hbasics Hfind Hget Hdates) as Hcols.
    cbn [sc sc_df] in Hcols. split; [|split].
    + rewrite (analyze_domain_table _ _ _ _ Htable). apply lookup_insert_eq.
    + exact Hcols.
    + intros Hd Hm. rewrite Hcols. unfold added. rewrite Hd, Hm.
      rewrite !length_app. simpl. lia.
  - intros r0. split; [|split]; apply analyze_domain_keeps_tables.
    + apply analyze_inventory_frame.
    + apply analyze_advertising_frame.
    + apply analyze_reviews_frame.
Qed.

End InPlace.

Lemma sales_analysis_adds_helper_columns_witness :
  exists table',
    DataAnalyzer.data_dict
      (fst (DataAnalyzer.analyze_domain "sales"
              (@DataAnalyzer._analyze_sales Shape.sample_pandas Shape.scenario_now)
              Shape.sales_run)) !! "sales" = Some (Some table')
    /\ columns table' = ["date"; "revenue"; "_date"; "_month_str"].
Proof.
  destruct (@sales_analysis_adds_helper_columns Shape.sample_pandas config
              Shape.scenario_now Shape.sales_run Shape.scenario_sales "date"
              (STime false [Some (Calendar.timestamp 2023 1 5);
                            Some (Calendar.timestamp 2023 1 20);
                            Some (Calendar.timestamp 2023 2 1);
                            Some (Calendar.timestamp 2023 2 15)])
              false
              [Some (Calendar.timestamp 2023 1 5);
               Some (Calendar.timestamp 2023 1 20);
               Some (Calendar.timestamp 2023 2 1);
               Some (Calendar.timestamp 2023 2 15)]
              (MInt 0) (MNum (F.of_Z 410))
              (MNum (F.div (F.of_Z 410) (F.of_Z 4))))
    as [(table' & Htable & Hcols & _) _];
    try (vm_compute; reflexivity).
  - apply NoDup_ListNoDup. repeat constructor; simpl; intuition discriminate.
  - exists table'. split; [exact Htable|exact Hcols].
Defined.

(** The claim of C10 fails on a table that already has the two helper
    columns: the date column is found, and the table has three columns
    before and after the analysis. *)
Lemma helper_columns_overwritten :
  DataAnalyzer.find_date_col (columns Shape.exported_sales) = Some "_date"
  /\ length (columns Shape.exported_sales) = 3
  /\ exists table',
       DataAnalyzer.data_dict
         (fst (DataAnalyzer.analyze_domain "sales"
                 (@DataAnalyzer._analyze_sales Shape.sample_pandas Shape.scenario_now)
                 Shape.exported_run)) !! "sales" = Some (Some table')
       /\ length (columns table') = 3.
Proof.
  split; [reflexivity|]. split; [reflexivity|].
  eexists. split; [vm_compute; reflexivity|reflexivity].
Qed.

(** ** The whole analysis *)

Section WholeRun.
Import PyStr DataAnalyzer Shape.
Context `{Pandas}.
Variable cfg : Config.
Variable now : Z.

Lemma analyze_sales_raise sc sc' e :
  _analyze_sales now sc = (sc', Raise e) -> sc' = sc.
Proof.
  rewrite analyze_sales_stages.
  destruct (sales_basics (sc_df sc)) as [[[q r] a]|e'] eqn:Hbasics;
    [|now intros [= <- _]].
  cbn zeta.
  set (rc := find_revenue_col (columns (sc_df sc))).
  set (qc := find_quantity_col (columns (sc_df sc))).
  set (sc1 := with_metrics sc (basic_metrics (sc_df sc) q r a)).
  set (sc3 := after_products rc qc (after_dates now rc sc1)).
  destruct (basic_metrics_lookup (sc_df sc) q r a) as (_ & _ & _ & Hg & Ht & Hr).
  pose proof (after_dates_growth now rc sc1 Hg Ht Hr) as Hiff.
  destruct (after_products_effects rc qc (after_dates now rc sc1)) as (_ & _ & _ & Hkeys).
  fold sc3 in Hkeys.
  unfold sales_finish, get_number.
  destruct (sc_metrics sc3 !! "monthly_growth") as [g|] eqn:Hgrowth.
  - rewrite Hkeys in Hgrowth by discriminate.
    apply Hiff in Hgrowth as (? & ? & l & p & ? & _ & _ & _ & _ & ->).
    destruct (F.ltb (growth_rate l p) (F.of_Z (-10))); discriminate.
  - destruct (F.ltb (F.of_Z 0) (F.of_Z (-10))); discriminate.
Qed.

Lemma analyze_inventory_returns sc : snd (_analyze_inventory cfg sc) = Ok tt.
Proof. unfold _analyze_inventory. mrun. mcases; reflexivity. Qed.

Lemma analyze_reviews_returns sc : snd (_analyze_reviews cfg sc) = Ok tt.
Proof. unfold _analyze_reviews. mrun. mcases; reflexivity. Qed.

Lemma total_of_self key col sc :
  self_results (fst (total_of key col sc)) = self_results sc
  /\ self_alerts (fst (total_of key col sc)) = self_alerts sc.
Proof. unfold total_of. mrun. split; mcases; reflexivity. Qed.

Lemma analyze_advertising_raise sc sc' e :
  _analyze_advertising cfg sc = (sc', Raise e) ->
  self_results sc' = self_results sc /\ self_alerts sc' = self_alerts sc.
Proof.
  unfold _analyze_advertising. mrun.
  repeat match goal with
         | |- context [total_of ?k ?c ?s] =>
             let Hr := fresh "Hr" in
             let Ha := fresh "Ha" in
             destruct (total_of_self k c s) as [Hr Ha];
             destruct (total_of k c s) as [? [?|?]]; cbn [fst snd] in *
         end;
    cbn [self_results self_alerts] in *;
    try (intros [= <- _]; split; congruence).
  mcases; intros [= <- _]; cbn [self_results self_alerts]; split; congruence.
Qed.

Lemma analyze_domain_raise key method r r' e :
  In (key, method) (domains cfg now) ->
  analyze_domain key method r = (r', Raise e) ->
  results r' = results r /\ alerts r' = alerts r.
Proof.
  intros Hin. unfold analyze_domain.
  destruct (data_dict r !! key) as [[table|]|]; try discriminate.
  set (sc := {| sc_df := table; sc_metrics := ∅; self_results := results r;
                self_alerts := alerts r |}).
  destruct (method sc) as [sc' out] eqn:Hrun. intros [= <- ->].
  cbn [results alerts].
  destruct Hin as [Heq|[Heq|[Heq|[Heq|[]]]]]; injection Heq as <- <-.
  - apply analyze_sales_raise in Hrun. now subst sc'.
  - pose proof (analyze_inventory_returns sc) as Hret. rewrite Hrun in Hret.
    discriminate Hret.
  - now apply analyze_advertising_raise in Hrun.
  - pose proof (analyze_reviews_returns sc) as Hret. rewrite Hrun in Hret.
    discriminate Hret.
Qed.

Lemma analyze_all_run r : analyze_all cfg now r = run_domains (domains cfg now) r.
Proof.
  unfold analyze_all, try_reraise, domains. cbn [run_domains].
  unfold bind, ret.
  repeat match goal with
         | |- context [analyze_domain ?k ?m ?s] =>
             destruct (analyze_domain k m s) as [? [[]|?]]
         end; reflexivity.
Qed.

Lemma run_domains_app ds1 ds2 r r1 :
  run_domains ds1 r = (r1, Ok tt) ->
  run_domains (ds1 ++ ds2) r = run_domains ds2 r1.
Proof.
  revert r. induction ds1 as [|[k m] ds1 IH]; intros r; cbn [run_domains app].
  - now intros [= ->].
  - unfold bind. destruct (analyze_domain k m r) as [r' [[]|e]]; [apply IH|discriminate].
Qed.

(** C1. When the method of a domain raises, [analyze_all] raises the same
    exception at once: the state is the one this method left, in which
    neither the failing domain nor any later domain has a metrics record or
    an alert; the records and alerts of the domains analysed before are
    kept. *)
Theorem analyze_all_stops_at_first_failure before key method after r r1 r2 e :
  domains cfg now = before ++ (key, method) :: after ->
  run_domains before r = (r1, Ok tt) ->
  analyze_domain key method r1 = (r2, Raise e) ->
  analyze_all cfg now r = (r2, Raise e)
  /\ results r2 = results r1
  /\ alerts r2 = alerts r1.
Proof.
  intros Hsplit Hbefore Hfail. split.
  - rewrite analyze_all_run, Hsplit, (run_domains_app _ _ _ _ Hbefore).
    cbn [run_domains]. unfold bind. now rewrite Hfail.
  - apply (analyze_domain_raise key method r1 r2 e); [|exact Hfail].
    rewrite Hsplit. apply in_or_app. right. now left.
Qed.

End WholeRun.

Lemma analyze_all_stops_at_first_failure_witness :
  snd (@DataAnalyzer.analyze_all Shape.sample_pandas config Shape.scenario_now
         Shape.failing_run) = Raise TypeError.
Proof.
  destruct (@analyze_all_stops_at_first_failure Shape.sample_pandas config
              Shape.scenario_now
              [("sales", @DataAnalyzer._analyze_sales Shape.sample_pandas Shape.scenario_now);
               ("inventory", @DataAnalyzer._analyze_inventory Shape.sample_pandas config)]
              "advertising" (@DataAnalyzer._analyze_advertising Shape.sample_pandas config)
              [("reviews", @DataAnalyzer._analyze_reviews Shape.sample_pandas config)]
              Shape.failing_run Shape.failing_run
              (fst (DataAnalyzer.analyze_domain "advertising"
                      (@DataAnalyzer._analyze_advertising Shape.sample_pandas config)
                      Shape.failing_run))
              TypeError) as [Hrun _].
  - reflexivity.
  - vm_compute. reflexivity.
  - vm_compute. reflexivity.
  - now rewrite Hrun.
Defined.

(** The claim of C1 fails when the advertising analysis raises: the
    reviews table was loaded and yields an alert when analysed, but the run
    ends on the exception with no reviews record and no alert. *)
Lemma run_aborted_by_advertising_failure :
  DataAnalyzer.data_dict Shape.failing_run !! "reviews" = Some (Some Shape.scenario_reviews)
  /\ DataAnalyzer.self_alerts
       (fst (@DataAnalyzer._analyze_reviews Shape.sample_pandas config
               (Shape.fresh Shape.scenario_reviews)))
     = [@DataAnalyzer.low_ratings_alert Shape.sample_pandas config 2]
  /\ snd (@DataAnalyzer.analyze_all Shape.sample_pandas config Shape.scenario_now
            Shape.failing_run) = Raise TypeError
  /\ DataAnalyzer.results
       (fst (@DataAnalyzer.analyze_all Shape.sample_pandas config Shape.scenario_now
               Shape.failing_run)) !! "reviews" = None
  /\ DataAnalyzer.alerts
       (fst (@DataAnalyzer.analyze_all Shape.sample_pandas config Shape.scenario_now
               Shape.failing_run)) = [].
Proof. vm_compute. repeat split; reflexivity. Qed.

(** ** Numeric coercion in the loader *)

Section Coercion.
Import PyStr DataLoader Shape.
Context `{Pandas}.

Lemma getitem_has_column df label sel : getitem df label = Ok sel -> has_column df label = true.
Proof.
  unfold getitem.
  destruct (List.filter (labelled label) df) as [|c cs] eqn:Hf; [discriminate|].
  intros _. assert (Hin : In c (List.filter (labelled label) df)) by (rewrite Hf; now left).
  apply filter_In in Hin as [Hin Hl]. unfold labelled in Hl.
  apply String.eqb_eq in Hl. apply has_column_In, in_map_iff. now exists c.
Qed.

Lemma try_convert_other convert col col' df :
  col' <> col -> getitem (try_convert convert col df) col' = getitem df col'.
Proof.
  intros Hne. unfold try_convert.
  destruct (getitem df col) as [sel|e] eqn:Hget; [|reflexivity].
  destruct (convert sel); [|reflexivity].
  apply getitem_setitem_kind; [|assumption]. eapply getitem_has_column, Hget.
Qed.

Lemma try_convert_same convert col df s s' :
  getitem df col = Ok (Series s) -> convert (Series s) = Ok s' ->
  getitem (try_convert convert col df) col = Ok (Series s').
Proof.
  intros Hget Hconv. unfold try_convert. rewrite Hget, Hconv.
  now apply (getitem_setitem_same _ _ s).
Qed.

Lemma fold_convert_other patterns convert col labels df :
  ~ In col labels ->
  getitem (fold_left (convert_step patterns convert) labels df) col = getitem df col.
Proof.
  revert df. induction labels as [|c labels IH]; intros df Hnot; simpl; [reflexivity|].
  rewrite IH by (intros Hin; apply Hnot; now right). unfold convert_step.
  destruct (contains_any patterns (lower c)); [|reflexivity].
  apply try_convert_other. intros ->. apply Hnot. now left.
Qed.

Lemma unique_label_split df label s :
  getitem df label = Ok (Series s) ->
  exists pre post, columns df = pre ++ label :: post /\ ~ In label pre /\ ~ In label post.
Proof.
  unfold getitem. induction df as [|[l t] df IH]; simpl; [discriminate|].
  unfold labelled at 1. simpl. destruct (String.eqb_spec l label) as [->|Hne].
  - destruct (List.filter (labelled label) df) as [|c cs] eqn:Hf; [|discriminate].
    intros _. exists [], (columns df). repeat split; [tauto|].
    intros Hin. apply in_map_iff in Hin as ([l' t'] & Heq & Hin). simpl in Heq. subst l'.
    assert (Hc : In (label, t') (List.filter (labelled label) df)).
    { apply filter_In. split; [assumption|]. unfold labelled. simpl. apply String.eqb_refl. }
    rewrite Hf in Hc. destruct Hc.
  - intros Hget. destruct (IH Hget) as (pre & post & Hcols & Hpre & Hpost).
    exists (l :: pre), post. simpl. rewrite Hcols. repeat split; [|assumption].
    intros [Heq|Hin]; [congruence|contradiction].
Qed.

Lemma convert_numeric_columns_unique patterns convert df col s s' :
  getitem df col = Ok (Series s) ->
  contains_any patterns (lower col) = true ->
  convert (Series s) = Ok s' ->
  getitem (convert_numeric_columns patterns convert df) col = Ok (Series s').
Proof.
  intros Hget Hpat Hconv.
  destruct (unique_label_split _ _ _ Hget) as (pre & post & Hcols & Hpre & Hpost).
  unfold convert_numeric_columns. fold (convert_step patterns convert).
  rewrite Hcols, fold_left_app. cbn [fold_left].
  rewrite (fold_convert_other _ _ _ post) by assumption.
  unfold convert_step at 1. rewrite Hpat.
  apply (try_convert_same _ _ _ s); [|assumption].
  now rewrite fold_convert_other.
Qed.

(** C4. Cleaning never raises, and in a column that matches the numeric
    patterns of its table and is converted (one column carries the name), a
    cell that does not parse as a number becomes zero in an inventory table
    and NaN in a sales table. *)
Theorem numeric_coercion_sentinels (df : frame) (col : string) (cells : list cell) :
  (contains_any inventory_numeric_patterns (lower col) = true ->
   getitem df col = Ok (Series (SObj cells)) ->
   exists values,
     getitem (_clean_inventory_data df) col = Ok (Series (SNum values))
     /\ length values = length cells
     /\ forall i s, cells !! i = Some (CStr s) -> parse_number s = None ->
                    values !! i = Some F.zero)
  /\ (contains_any sales_numeric_patterns (lower col) = true ->
      getitem (date_converted df) col = Ok (Series (SObj cells)) ->
      exists values,
        getitem (_clean_sales_data df) col = Ok (Series (SNum values))
        /\ length values = length cells
        /\ forall i s, cells !! i = Some (CStr s) -> parse_number s = None ->
                       values !! i = Some F.nan).
Proof.
  split.
  - intros Hpat Hget.
    exists (map F.fillna0 (map to_numeric_cell cells)). split; [|split].
    + unfold _clean_inventory_data.
      now apply (convert_numeric_columns_unique _ _ _ _ (SObj cells)).
    + now rewrite !length_map.
    + intros i s Hcell Hparse. rewrite !list_lookup_fmap, Hcell. simpl.
      now rewrite Hparse.
  - intros Hpat Hget.
    exists (map to_numeric_cell cells). split; [|split].
    + change (_clean_sales_data df)
        with (convert_numeric_columns sales_numeric_patterns sales_numeric
                (date_converted df)).
      now apply (convert_numeric_columns_unique _ _ _ _ (SObj cells)).
    + now rewrite length_map.
    + intros i s Hcell Hparse. rewrite list_lookup_fmap, Hcell. simpl.
      now rewrite Hparse.
Qed.

End Coercion.

Lemma numeric_coercion_sentinels_witness :
  (exists values,
     getitem (@DataLoader._clean_inventory_data Shape.sample_pandas Shape.raw_inventory)
       "current_stock" = Ok (Series (SNum values))
     /\ values !! 1 = Some F.zero)
  /\ (exists values,
        getitem (@DataLoader._clean_sales_data Shape.sample_pandas Shape.raw_sales)
          "total_amount" = Ok (Series (SNum values))
        /\ values !! 1 = Some F.nan).
Proof.
  split.
  - destruct (@numeric_coercion_sentinels Shape.sample_pandas Shape.raw_inventory
                "current_stock" [CStr "12"; CStr "n/a"]) as [Hinv _].
    destruct (Hinv eq_refl eq_refl) as (values & Hget & _ & Hcell).
    exists values. split; [exact Hget|]. now apply (Hcell 1 "n/a").
  - destruct (@numeric_coercion_sentinels Shape.sample_pandas Shape.raw_sales
                "total_amount" [CStr "12"; CStr "n/a"]) as [_ Hsales].
    destruct (Hsales eq_refl eq_refl) as (values & Hget & _ & Hcell).
    exists values. split; [exact Hget|]. now apply (Hcell 1 "n/a").
Defined.

(** The claim of C4 does not hold for all inputs.  A sales column named
    after a lifetime revenue is taken by the date conversion first (its name
    contains "time"): its unparseable cell becomes NaT and then, in the
    numeric loop, the number -9223372036854775808, not NaN.  And two
    inventory columns that share a label after the renaming are left as
    text. *)
Lemma numeric_coercion_not_for_all_inputs :
  @DataLoader.load_sales_data Shape.sample_pandas Samples.lifetime_sales
  = [("lifetime_revenue", SNum [F.of_Z (-9223372036854775808)])]
  /\ F.is_nan (F.of_Z (-9223372036854775808)) = false
  /\ @DataLoader.load_inventory_data Shape.sample_pandas Samples.twice_stock
     = [("stock", SObj [CStr "unknown"]); ("stock", SObj [CStr "seven"])].
Proof. vm_compute. repeat split; reflexivity. Qed.

(** ** Return on spend *)

Section Roas.
Import DataAnalyzer Shape.

(** A campaign without spend has a return of zero, whatever its sales. *)
Lemma roas_of_zero_spend sales s : roas_of sales (S754_zero s) = F.zero.
Proof. destruct sales as [[]|[]| |[] m e], s; reflexivity. Qed.

(** Before the rounding, the return is neither NaN nor an infinity. *)
Lemma roas_finite_before_rounding sales spend :
  F.is_finite (F.fillna0 (F.replace_inf (F.div sales spend))) = true.
Proof.
  unfold F.fillna0, F.replace_inf.
  destruct (F.div sales spend) as [s|s| |s m e]; reflexivity.
Qed.

(** The return is never NaN. *)
Lemma roas_of_not_nan sales spend : F.is_nan (roas_of sales spend) = false.
Proof.
  unfold roas_of. apply round2_not_nan.
  pose proof (roas_finite_before_rounding sales spend) as Hfin.
  now destruct (F.fillna0 (F.replace_inf (F.div sales spend))).
Qed.

End Roas.

(** C7. The return of a campaign is not always finite: with sales of 1e308
    for a spend of 1 the division gives 1e308, which the replacement of
    infinities leaves alone and the rounding to two decimals turns into
    +Infinity, and this is the value in the campaign table of the metrics. *)
Theorem roas_infinite_after_rounding :
  DataAnalyzer.roas_of (F.of_Z (10 ^ 308)) (F.of_Z 1) = F.inf
  /\ DataAnalyzer.sc_metrics
       (fst (@DataAnalyzer._analyze_advertising Shape.sample_pandas config
               (Shape.fresh Shape.overflow_advertising))) !! "campaign_performance"
     = Some (MFrame [("campaign_name", SObj [CStr "a"]);
                     ("spend", SNum [F.of_Z 1]);
                     ("clicks", SNum [F.of_Z 1]);
                     ("sales", SNum [F.of_Z (10 ^ 308)]);
                     ("roas", SNum [F.inf])]).
Proof. vm_compute. split; reflexivity. Qed.

(** ** The end-to-end scenarios *)

Section Scenarios.
Import DataAnalyzer Shape.

Example standardize_example :
  DataLoader._standardize_column_name "  Total Amount ($) " = "total_amount_".
Proof. reflexivity. Qed.

Example classify_example :
  DataLoader.classify "Sales_Inventory_2023.csv" = DataLoader.Sales.
Proof. reflexivity. Qed.

Example discover_example :
  DataLoader.discover_files ["stock_ads.csv"; "notes.csv"; "download.csv"] !! "advertising"
  = Some ["download.csv"].
Proof. vm_compute. reflexivity. Qed.

(** January totals 150, February 260, the growth is between 73 and 74
    percent, and there is no alert. *)
Example sales_scenario :
  let sc := fst (@_analyze_sales sample_pandas scenario_now (fresh scenario_sales)) in
  sc_metrics sc !! "monthly_trends"
  = Some (MFrame [("month", SObj [CStr "2023-01"; CStr "2023-02"]);
                  ("revenue", SNum [F.of_Z 150; F.of_Z 260])])
  /\ sc_metrics sc !! "monthly_growth"
     = Some (MNum (growth_rate (F.of_Z 260) (F.of_Z 150)))
  /\ F.ltb (F.of_Z 73) (growth_rate (F.of_Z 260) (F.of_Z 150)) = true
  /\ F.ltb (growth_rate (F.of_Z 260) (F.of_Z 150)) (F.of_Z 74) = true
  /\ self_alerts sc = [].
Proof. vm_compute. repeat split; reflexivity. Qed.

(** A row with 45 days of supply: the overstock alert and no other. *)
Example overstock_scenario :
  self_alerts (fst (@_analyze_inventory sample_pandas config (fresh overstocked_inventory)))
  = [overstock_alert config 1].
Proof. vm_compute. reflexivity. Qed.

(** No spend and no clicks: neither 'avg_cpc' nor 'ctr'. *)
Example idle_advertising_scenario :
  let sc := fst (@_analyze_advertising sample_pandas config (fresh idle_advertising)) in
  sc_metrics sc !! "avg_cpc" = None /\ sc_metrics sc !! "ctr" = None
  /\ sc_metrics sc !! "total_spend" = Some (MNum F.zero).
Proof. vm_compute. repeat split; reflexivity. Qed.

(** Ratings 1, 1, 5, 5: mean 3, two low ratings, one alert. *)
Example reviews_scenario :
  let sc := fst (@_analyze_reviews sample_pandas config (fresh scenario_reviews)) in
  sc_metrics sc !! "avg_rating" = Some (MNum (F.of_Z 3))
  /\ sc_metrics sc !! "low_rated_count" = Some (MInt 2)
  /\ self_alerts sc = [@low_ratings_alert sample_pandas config 2].
Proof. vm_compute. repeat split; reflexivity. Qed.

End Scenarios.

(** * Further properties of the loader, the analyzer and the report *)

(** ** Normalised column names *)

Section Names.
Import PyStr DataLoader Shape Terms.

Ltac by_char c :=
  destruct c as [[] [] [] [] [] [] [] []]; vm_compute; try reflexivity; try discriminate.

Lemma settled_plain c : settled c = true -> plain c = true.
Proof. by_char c. Qed.

Lemma space_lower_char c : is_space c = true -> lower_char c = c.
Proof. by_char c. Qed.

Lemma is_space_lower_char c : is_space (lower_char c) = is_space c.
Proof. by_char c. Qed.

Lemma underscore_char : is_underscore "_"%char = true.
Proof. reflexivity. Qed.

Lemma normal_no_double b s : normal b s = true -> contains "__" s = false.
Proof.
  revert b. induction s as [|c s IH]; intros b Hn; [reflexivity|].
  cbn [normal] in Hn. apply andb_true_iff in Hn as [Hn Hs].
  apply andb_true_iff in Hn as [_ Hb].
  cbn [contains]. rewrite (IH _ Hs), orb_false_r.
  cbn [String.prefix]. destruct (ascii_dec "_" c) as [<-|Hne]; [|reflexivity].
  rewrite underscore_char in Hs. destruct s as [|d s]; [reflexivity|].
  cbn [normal] in Hs. cbn [String.prefix].
  destruct (ascii_dec "_" d) as [<-|Hne]; [|now destruct s].
  rewrite underscore_char in Hs. discriminate Hs.
Qed.

Lemma length_lower s : String.length (lower s) = String.length s.
Proof. induction s as [|c s IH]; simpl; congruence. Qed.

Lemma length_lstrip s : String.length (lstrip s) <= String.length s.
Proof. induction s as [|c s IH]; simpl; [lia|]. destruct (is_space c); simpl; lia. Qed.

Lemma length_rstrip s : String.length (rstrip s) <= String.length s.
Proof.
  induction s as [|c s IH]; simpl; [lia|].
  destruct (rstrip s); [destruct (is_space c)|]; simpl in *; lia.
Qed.

Lemma length_sub_each p s : String.length (sub_each p s) = String.length s.
Proof. induction s as [|c s IH]; simpl; congruence. Qed.

Lemma length_sub_runs p b s : String.length (sub_runs p b s) <= String.length s.
Proof.
  revert b. induction s as [|c s IH]; intros b; simpl; [lia|].
  destruct (p c); [destruct b|]; simpl;
    match goal with |- context [sub_runs p ?b' s] => specialize (IH b') end; lia.
Qed.

Lemma settled_not_upper c : settled c = true -> not_upper c = true.
Proof. by_char c. Qed.

(** X1. Whatever the header, its normalised name is made of word
    characters, none of them a blank, and holds no two underscores in a row;
    when the header is made of ASCII characters the name has no uppercase
    letter and is not longer than the header. *)
Theorem standardized_name_shape (name : string) :
  let r := _standardize_column_name name in
  all_chars plain r = true
  /\ contains "__" r = false
  /\ (all_chars is_ascii name = true ->
      all_chars not_upper r = true
      /\ String.length r <= String.length name).
Proof.
  cbn zeta. pose proof (normal_standardize name) as Hn. split; [|split].
  - apply (all_chars_impl settled); [exact settled_plain|].
    now apply (normal_settled false).
  - now apply (normal_no_double false).
  - intros _. split.
    + apply (all_chars_impl settled); [exact settled_not_upper|].
      now apply (normal_settled false).
    + unfold _standardize_column_name, strip.
      set (s1 := rstrip (lstrip (lower name))).
      set (s2 := sub_each _ s1). set (s3 := sub_runs is_space false s2).
      pose proof (length_sub_runs is_underscore false s3).
      pose proof (length_sub_runs is_space false s2).
      pose proof (length_sub_each (fun c => negb (is_word c || is_space c)) s1).
      pose proof (length_rstrip (lstrip (lower name))).
      pose proof (length_lstrip (lower name)).
      pose proof (length_lower name).
      subst s3 s2 s1. lia.
Qed.

Lemma append_nil t : ("" ++ t)%string = t.
Proof. reflexivity. Qed.

Lemma append_cons c s t : (String c s ++ t)%string = String c (s ++ t)%string.
Proof. reflexivity. Qed.

Lemma lower_app s t : lower (s ++ t)%string = (lower s ++ lower t)%string.
Proof.
  induction s as [|c s IH]; rewrite ?append_nil, ?append_cons; cbn [lower];
    rewrite ?append_nil, ?append_cons; congruence.
Qed.

Lemma lower_spaces s : all_chars is_space s = true -> lower s = s.
Proof.
  induction s as [|c s IH]; simpl; [reflexivity|]. intros Hs.
  apply andb_true_iff in Hs as [Hc Hs]. now rewrite (space_lower_char c Hc), IH.
Qed.

Lemma lstrip_spaces s : all_chars is_space s = true -> lstrip s = "".
Proof.
  induction s as [|c s IH]; simpl; [reflexivity|]. intros Hs.
  apply andb_true_iff in Hs as [Hc Hs]. rewrite Hc. now apply IH.
Qed.

Lemma rstrip_empty s : rstrip s = "" <-> all_chars is_space s = true.
Proof.
  induction s as [|c s IH]; simpl; [tauto|].
  destruct (rstrip s) as [|d r].
  - destruct (is_space c); simpl; [tauto|]. split; discriminate.
  - split; [discriminate|]. intros Hs. apply andb_true_iff in Hs as [_ Hs].
    apply IH in Hs. discriminate Hs.
Qed.

Lemma lstrip_app s t :
  lstrip (s ++ t)%string
  = if all_chars is_space s then lstrip t else (lstrip s ++ t)%string.
Proof.
  induction s as [|c s IH]; rewrite ?append_nil, ?append_cons;
    cbn [lstrip all_chars]; [reflexivity|].
  destruct (is_space c); cbn [andb]; rewrite ?append_cons; [exact IH|reflexivity].
Qed.

Lemma rstrip_app_spaces s t :
  all_chars is_space t = true -> rstrip (s ++ t)%string = rstrip s.
Proof.
  intros Ht. induction s as [|c s IH]; rewrite ?append_nil, ?append_cons;
    cbn [rstrip]; [now apply rstrip_empty|].
  now rewrite IH.
Qed.

Lemma strip_padded pre s post :
  all_chars is_space pre = true -> all_chars is_space post = true ->
  strip (pre ++ s ++ post)%string = strip s.
Proof.
  intros Hpre Hpost. unfold strip. rewrite lstrip_app, Hpre, lstrip_app.
  destruct (all_chars is_space s) eqn:Hs.
  - now rewrite (lstrip_spaces post), (lstrip_spaces s).
  - now apply rstrip_app_spaces.
Qed.

(** X2. Headers that differ only in the case of their letters and in
    blanks before and after normalise to the same name. *)
Theorem standardize_ignores_case_and_padding (pre post a b : string) :
  all_chars is_space pre = true -> all_chars is_space post = true ->
  lower a = lower b ->
  _standardize_column_name (pre ++ a ++ post)%string = _standardize_column_name b.
Proof.
  intros Hpre Hpost Hab. unfold _standardize_column_name.
  rewrite !lower_app, (lower_spaces pre Hpre), (lower_spaces post Hpost), Hab.
  now rewrite (strip_padded pre (lower b) post Hpre Hpost).
Qed.

Lemma all_space_lower s : all_chars is_space (lower s) = all_chars is_space s.
Proof.
  induction s as [|c s IH]; simpl; [reflexivity|].
  now rewrite is_space_lower_char, IH.
Qed.

Lemma all_space_lstrip s :
  all_chars is_space (lstrip s) = all_chars is_space s.
Proof.
  induction s as [|c s IH]; simpl; [reflexivity|].
  destruct (is_space c) eqn:Hc; simpl; [exact IH|now rewrite Hc].
Qed.

Lemma strip_empty s : strip s = "" <-> all_chars is_space s = true.
Proof. unfold strip. now rewrite rstrip_empty, all_space_lstrip. Qed.

Lemma sub_each_empty p s : sub_each p s = "" <-> s = "".
Proof. destruct s; simpl; split; congruence. Qed.

Lemma sub_runs_empty p s : sub_runs p false s = "" <-> s = "".
Proof. destruct s as [|c s]; simpl; [tauto|]. destruct (p c); split; discriminate. Qed.

(** X3. The normalised name is empty exactly for a header made of blanks
    only (the empty header included): every other header keeps at least one
    character. *)
Theorem standardized_name_empty_iff (name : string) :
  _standardize_column_name name = "" <-> all_chars is_space name = true.
Proof.
  unfold _standardize_column_name.
  now rewrite !sub_runs_empty, sub_each_empty, strip_empty, all_space_lower.
Qed.

Lemma prefix_split p s :
  String.prefix p s = true -> exists rest, s = (p ++ rest)%string.
Proof.
  revert s. induction p as [|a p IH]; intros s Hp; [now exists s|].
  destruct s as [|c s]; [discriminate Hp|]. cbn [String.prefix] in Hp.
  destruct (ascii_dec a c) as [<-|Hne]; [|discriminate Hp].
  destruct (IH _ Hp) as [rest ->]. now exists rest.
Qed.

Lemma prefix_append p rest : String.prefix p (p ++ rest)%string = true.
Proof.
  induction p as [|a p IH]; [now destruct rest|].
  rewrite append_cons. cbn [String.prefix]. now destruct (ascii_dec a a).
Qed.

Lemma contains_skip sub a s :
  contains sub s = true -> contains sub (a ++ s)%string = true.
Proof.
  intros Hs. induction a as [|c a IH]; [exact Hs|].
  rewrite append_cons. cbn [contains]. rewrite IH. apply orb_true_r.
Qed.

Lemma contains_prefixed sub rest : contains sub (sub ++ rest)%string = true.
Proof.
  destruct (sub ++ rest)%string eqn:Heq; cbn [contains]; rewrite <- Heq, prefix_append;
    reflexivity.
Qed.

Lemma append_associative (a b c : string) :
  ((a ++ b) ++ c = a ++ (b ++ c))%string.
Proof. induction a as [|x a IH]; rewrite ?append_nil, ?append_cons; congruence. Qed.

(** A text that contains [a ++ b] contains [b]. *)
Lemma contains_tail a b s :
  contains (a ++ b)%string s = true -> contains b s = true.
Proof.
  induction s as [|c s IH]; cbn [contains]; intros Hc.
  - rewrite orb_false_r in Hc. apply prefix_split in Hc as [rest Heq].
    destruct a, b; try discriminate Heq. reflexivity.
  - apply orb_true_iff in Hc as [Hp|Hc].
    + apply prefix_split in Hp as [rest Heq]. rewrite append_associative in Heq.
      change (contains b (String c s) = true). rewrite Heq.
      apply contains_skip, contains_prefixed.
    + rewrite (IH Hc). apply orb_true_r.
Qed.

Lemma find_ext_in {A} (p q : A -> bool) (l : list A) :
  (forall x, In x l -> p x = q x) -> find p l = find q l.
Proof.
  induction l as [|x l IH]; intros Hpq; simpl; [reflexivity|].
  rewrite (Hpq x) by now left. destruct (q x); [reflexivity|].
  apply IH. intros y Hy. apply Hpq. now right.
Qed.

Lemma date_keys col :
  contains_any ["date"; "time"; "order_date"; "transaction_date"] col
  = contains "date" col || contains "time" col.
Proof.
  unfold contains_any. cbn [existsb].
  destruct (contains "date" col) eqn:Hd; [reflexivity|].
  destruct (contains "time" col); [reflexivity|]. cbn [orb].
  destruct (contains "order_date" col) eqn:Ho.
  { apply (contains_tail "order_" "date") in Ho. congruence. }
  destruct (contains "transaction_date" col) eqn:Ht; [|reflexivity].
  apply (contains_tail "transaction_" "date") in Ht. congruence.
Qed.

(** X4. The date column that the loader picks is the first column whose
    lowercased name contains "date" or "time"; the keys "order_date" and
    "transaction_date" never change the choice. *)
Theorem find_date_column_first_date_or_time (columns : list string) :
  _find_date_column columns
  = find (fun col => contains "date" (lower col) || contains "time" (lower col)) columns.
Proof.
  unfold _find_date_column. apply find_ext_in. intros col _. apply date_keys.
Qed.

(** X5. In a table without a column name that contains "time", the loader
    and the sales analyzer pick the same date column. *)
Theorem loader_and_analyzer_agree_on_date_column (columns : list string) :
  Forall (fun col => contains "time" (lower col) = false) columns ->
  _find_date_column columns = DataAnalyzer.find_date_col columns.
Proof.
  intros Hall. unfold _find_date_column, DataAnalyzer.find_date_col.
  apply find_ext_in. intros col Hin. rewrite date_keys.
  rewrite Forall_forall in Hall. rewrite (Hall col); [apply orb_false_r|].
  now apply list_elem_of_In.
Qed.

End Names.

Lemma standardize_ignores_case_and_padding_witness :
  DataLoader._standardize_column_name " Spend  " = DataLoader._standardize_column_name "spend".
Proof.
  apply (standardize_ignores_case_and_padding " " "  " "Spend" "spend"); reflexivity.
Defined.

Lemma loader_and_analyzer_agree_on_date_column_witness :
  DataLoader._find_date_column ["order_id"; "order_date"; "total_amount"]
  = DataAnalyzer.find_date_col ["order_id"; "order_date"; "total_amount"].
Proof.
  apply loader_and_analyzer_agree_on_date_column.
  repeat constructor.
Defined.

(** ** The cleaners, column by column *)

Section Cleaners.
Import PyStr DataLoader Shape Terms.
Context `{Pandas}.

Lemma columns_try_convert convert col df :
  columns (try_convert convert col df) = columns df.
Proof.
  unfold try_convert. destruct (getitem df col) as [sel|e] eqn:Hget; [|reflexivity].
  destruct (convert sel); [|reflexivity].
  rewrite columns_setitem, (getitem_has_column _ _ _ Hget). apply app_nil_r.
Qed.

Lemma columns_fold_convert patterns convert labels df :
  columns (fold_left (convert_step patterns convert) labels df) = columns df.
Proof.
  revert df. induction labels as [|l labels IH]; intros df; simpl; [reflexivity|].
  rewrite IH. unfold convert_step.
  destruct (contains_any patterns (lower l)); [apply columns_try_convert|reflexivity].
Qed.

Lemma columns_convert_numeric_columns patterns convert df :
  columns (convert_numeric_columns patterns convert df) = columns df.
Proof. apply columns_fold_convert. Qed.

Lemma columns_date_converted df : columns (date_converted df) = columns df.
Proof.
  unfold date_converted.
  destruct (_find_date_column (columns df)); [apply columns_try_convert|reflexivity].
Qed.

Lemma fst_converted convert c : fst (converted convert c) = fst c.
Proof. unfold converted. now destruct (convert (Series (snd c))). Qed.

Lemma labelled_fst label c : labelled label c = true <-> fst c = label.
Proof. unfold labelled. apply String.eqb_eq. Qed.

Lemma filter_labelled_map (f : string * series -> string * series) label df :
  (forall c, fst (f c) = fst c) ->
  List.filter (labelled label) (map f df) = map f (List.filter (labelled label) df).
Proof.
  intros Hf. induction df as [|c df IH]; simpl; [reflexivity|].
  assert (Hl : labelled label (f c) = labelled label c)
    by (unfold labelled; now rewrite Hf).
  rewrite Hl. destruct (labelled label c); simpl; now rewrite IH.
Qed.

Lemma single_map (f : string * series -> string * series) label df :
  (forall c, fst (f c) = fst c) -> single (map f df) label = single df label.
Proof.
  intros Hf. unfold single. now rewrite (filter_labelled_map f label df Hf), length_map.
Qed.

Lemma map_same {A} (f : A -> A) (l : list A) :
  (forall x, In x l -> f x = x) -> map f l = l.
Proof.
  intros Hf. rewrite <- (map_id l) at 2. now apply map_ext_in.
Qed.

Lemma try_convert_map convert col df :
  refuses_frames convert ->
  try_convert convert col df
  = map (fun c => if labelled col c && single df col then converted convert c else c) df.
Proof.
  intros Hrefuse. unfold try_convert, getitem, single.
  destruct (List.filter (labelled col) df) as [|c0 [|c1 cs]] eqn:Hf; cbn [length Nat.eqb].
  - symmetry. apply map_same. intros c _. now rewrite andb_false_r.
  - assert (Hc0 : In c0 df /\ labelled col c0 = true).
    { apply filter_In. rewrite Hf. now left. }
    destruct Hc0 as [Hin Hl0].
    assert (Honly : forall c, In c df -> labelled col c = true -> c = c0).
    { intros c Hc Hl. assert (Hc' : In c (List.filter (labelled col) df))
        by (apply filter_In; auto).
      rewrite Hf in Hc'. destruct Hc' as [<-|[]]. reflexivity. }
    assert (Hhas : has_column df col = true).
    { apply has_column_In, in_map_iff. exists c0. split; [|assumption].
      now apply labelled_fst. }
    destruct (convert (Series (snd c0))) as [s|e] eqn:Hconv.
    + unfold setitem. rewrite Hhas. apply map_ext_in. intros c Hc.
      destruct (labelled col c) eqn:Hl; [|reflexivity]. cbn [andb].
      rewrite (Honly c Hc Hl). unfold converted. rewrite Hconv.
      apply labelled_fst in Hl0. now rewrite Hl0.
    + symmetry. apply map_same. intros c Hc.
      destruct (labelled col c) eqn:Hl; [|reflexivity]. cbn [andb].
      rewrite (Honly c Hc Hl). unfold converted. now rewrite Hconv.
  - destruct (Hrefuse (c0 :: c1 :: cs)) as [e ->].
    symmetry. apply map_same. intros c _. now rewrite andb_false_r.
Qed.

Lemma count_occ_columns df label :
  count_occ string_dec (columns df) label = length (List.filter (labelled label) df).
Proof.
  induction df as [|c df IH]; simpl; [reflexivity|]. unfold labelled at 1.
  destruct (string_dec (fst c) label) as [->|Hne].
  - rewrite String.eqb_refl. simpl. now rewrite IH.
  - apply String.eqb_neq in Hne. now rewrite Hne.
Qed.

Lemma fold_convert_map patterns convert labels df :
  refuses_frames convert ->
  fold_left (convert_step patterns convert) labels df
  = map (fun c => if numeric_like patterns (fst c) && single df (fst c)
                  then Nat.iter (count_occ string_dec labels (fst c))
                                (converted convert) c
                  else c) df.
Proof.
  intros Hrefuse. revert df.
  induction labels as [|l labels IH]; intros df; cbn [fold_left].
  - symmetry. apply map_same. intros c _. now destruct (_ && _).
  - set (g := fun c : string * series =>
                if numeric_like patterns l && (labelled l c && single df l)
                then converted convert c else c).
    assert (Hg : forall c, fst (g c) = fst c).
    { intros c. unfold g. destruct (_ && _); [apply fst_converted|reflexivity]. }
    assert (Hstep : convert_step patterns convert df l = map g df).
    { unfold convert_step, g. fold (numeric_like patterns l).
      destruct (numeric_like patterns l); cbn [andb].
      - now apply try_convert_map.
      - symmetry. now apply map_same. }
    rewrite Hstep, IH, map_map. apply map_ext. intros c.
    rewrite Hg, (single_map g _ df Hg). unfold g. cbn [count_occ].
    destruct (string_dec l (fst c)) as [->|Hne].
    + assert (Hl : labelled (fst c) c = true) by now apply labelled_fst.
      rewrite Hl. cbn [andb].
      destruct (numeric_like patterns (fst c) && single df (fst c)); [|reflexivity].
      now rewrite Nat.iter_succ_r.
    + assert (Hl : labelled l c = false).
      { unfold labelled. apply String.eqb_neq. congruence. }
      rewrite Hl. cbn [andb]. now rewrite andb_false_r.
Qed.

Lemma convert_numeric_columns_map patterns convert df :
  refuses_frames convert ->
  convert_numeric_columns patterns convert df
  = map (fun c => if numeric_like patterns (fst c) && single df (fst c)
                  then converted convert c else c) df.
Proof.
  intros Hrefuse. unfold convert_numeric_columns. fold (convert_step patterns convert).
  rewrite (fold_convert_map _ _ _ _ Hrefuse). apply map_ext_in. intros c Hc.
  destruct (numeric_like patterns (fst c)); [|reflexivity]. cbn [andb].
  destruct (single df (fst c)) eqn:Hs; [|reflexivity].
  unfold single in Hs. apply Nat.eqb_eq in Hs.
  now rewrite count_occ_columns, Hs.
Qed.

Lemma inventory_numeric_refuses : refuses_frames inventory_numeric.
Proof. intros cols. now exists TypeError. Qed.

Lemma sales_numeric_refuses : refuses_frames sales_numeric.
Proof. intros cols. now exists TypeError. Qed.

Lemma to_datetime_refuses : refuses_frames to_datetime.
Proof. intros cols. now exists ValueError. Qed.

Lemma converted_inventory c :
  converted inventory_numeric c = (fst c, SNum (map F.fillna0 (numeric_values (snd c)))).
Proof. unfold converted, inventory_numeric. now rewrite to_numeric_series. Qed.

Lemma converted_sales c :
  converted sales_numeric c = (fst c, SNum (numeric_values (snd c))).
Proof. unfold converted, sales_numeric. now rewrite to_numeric_series. Qed.

Lemma clean_inventory_map df :
  _clean_inventory_data df
  = map (fun c =>
           if numeric_like inventory_numeric_patterns (fst c) && single df (fst c)
           then (fst c, SNum (map F.fillna0 (numeric_values (snd c))))
           else c) df.
Proof.
  unfold _clean_inventory_data.
  rewrite (convert_numeric_columns_map _ _ _ inventory_numeric_refuses).
  apply map_ext. intros c. now rewrite converted_inventory.
Qed.

Lemma columns_clean_sales df : columns (_clean_sales_data df) = columns df.
Proof.
  change (_clean_sales_data df)
    with (convert_numeric_columns sales_numeric_patterns sales_numeric
            (date_converted df)).
  now rewrite columns_convert_numeric_columns, columns_date_converted.
Qed.

Lemma columns_clean_inventory df : columns (_clean_inventory_data df) = columns df.
Proof. apply columns_convert_numeric_columns. Qed.

(** X6. Neither cleaner renames, adds, drops or reorders a column. *)
Theorem cleaning_keeps_labels (df : frame) :
  columns (_clean_sales_data df) = columns df
  /\ columns (_clean_inventory_data df) = columns df.
Proof. split; [apply columns_clean_sales|apply columns_clean_inventory]. Qed.

Lemma columns_standardize_columns df :
  columns (standardize_columns df) = map _standardize_column_name (columns df).
Proof. unfold columns, standardize_columns. now rewrite !map_map. Qed.

(** X7. The table that a loader returns has one column for each column of
    the file, in the order of the file, under the normalised name of its
    header; so each of its labels is made of word characters, none of them
    a blank, and holds no two underscores in a row. *)
Theorem loaded_tables_have_normalised_labels (raw : frame) :
  let labels := map _standardize_column_name (columns raw) in
  columns (load_sales_data raw) = labels
  /\ columns (load_inventory_data raw) = labels
  /\ columns (load_advertising_data raw) = labels
  /\ columns (load_reviews_data raw) = labels
  /\ Forall (fun label => all_chars plain label = true /\ contains "__" label = false)
       labels.
Proof.
  cbn zeta. unfold load_sales_data, load_inventory_data, load_advertising_data,
    load_reviews_data.
  rewrite columns_clean_sales, columns_clean_inventory, columns_standardize_columns.
  repeat split. apply Forall_forall. intros label Hin.
  apply list_elem_of_In, in_map_iff in Hin as (name & <- & _).
  pose proof (normal_standardize name) as Hn. split.
  - apply (all_chars_impl settled); [exact settled_plain|].
    now apply (normal_settled false).
  - now apply (normal_no_double false).
Qed.

(** X8. Inventory cleaning works column by column: a column is replaced by
    its numeric reading with NaN turned into zero when its lowercased name
    contains one of the numeric keys and no other column carries its label;
    every other column (and so every column of a label that occurs twice) is
    left as it was. *)
Theorem clean_inventory_data_by_column (df : frame) :
  _clean_inventory_data df
  = map (fun c =>
           if numeric_like inventory_numeric_patterns (fst c) && single df (fst c)
           then (fst c, SNum (map F.fillna0 (numeric_values (snd c))))
           else c) df.
Proof. apply clean_inventory_map. Qed.

(** X9. Sales cleaning works column by column on the table that the date
    conversion leaves: a column is replaced by its numeric reading, NaN
    kept, when its lowercased name contains one of the numeric keys and no
    other column carries its label; the date conversion itself replaces at
    most the column that [_find_date_column] picks, and only when no other
    column carries that label. *)
Theorem clean_sales_data_by_column (df : frame) :
  _clean_sales_data df
  = map (fun c =>
           if numeric_like sales_numeric_patterns (fst c) && single df (fst c)
           then (fst c, SNum (numeric_values (snd c)))
           else c) (date_converted df)
  /\ date_converted df
     = map (fun c =>
              if bool_decide (_find_date_column (columns df) = Some (fst c))
                 && single df (fst c)
              then converted to_datetime c else c) df.
Proof.
  assert (Hdate : date_converted df
     = map (fun c =>
              if bool_decide (_find_date_column (columns df) = Some (fst c))
                 && single df (fst c)
              then converted to_datetime c else c) df).
  { unfold date_converted.
    destruct (_find_date_column (columns df)) as [d|].
    - rewrite (try_convert_map _ _ _ to_datetime_refuses). apply map_ext. intros c.
      unfold labelled. destruct (String.eqb_spec (fst c) d) as [->|Hne].
      + now rewrite bool_decide_eq_true_2.
      + rewrite bool_decide_eq_false_2; [reflexivity|congruence].
    - symmetry. apply map_same. intros c _. now rewrite bool_decide_eq_false_2. }
  split; [|exact Hdate].
  change (_clean_sales_data df)
    with (convert_numeric_columns sales_numeric_patterns sales_numeric
            (date_converted df)).
  rewrite (convert_numeric_columns_map _ _ _ sales_numeric_refuses).
  apply map_ext. intros c. rewrite converted_sales.
  rewrite Hdate at 1. rewrite single_map; [reflexivity|].
  intros c'. destruct (_ && _); [apply fst_converted|reflexivity].
Qed.

Lemma fillna0_not_nan x : F.is_nan (F.fillna0 x) = false.
Proof. now destruct x. Qed.

Lemma fillna0_fixed x : F.fillna0 (F.fillna0 x) = F.fillna0 x.
Proof. now destruct x. Qed.

(** X10. After inventory cleaning, a column whose lowercased name contains
    one of the numeric keys and whose label no other column carries is still
    one column of the same number of rows, and none of its values is NaN,
    whatever it held before. *)
Theorem clean_inventory_data_leaves_no_nan (df : frame) (col : string) (s : series) :
  numeric_like inventory_numeric_patterns col = true ->
  getitem df col = Ok (Series s) ->
  exists s',
    getitem (_clean_inventory_data df) col = Ok (Series s')
    /\ series_len s' = series_len s
    /\ Forall (fun x => F.is_nan x = false) (numeric_values s').
Proof.
  intros Hpat Hget. exists (SNum (map F.fillna0 (numeric_values s))).
  split; [|split].
  - unfold _clean_inventory_data.
    apply (convert_numeric_columns_unique _ _ _ _ s); [assumption..|].
    unfold inventory_numeric. now rewrite to_numeric_series.
  - cbn [series_len]. now rewrite length_map, length_numeric_values.
  - cbn [numeric_values]. apply Forall_forall. intros x Hx.
    apply list_elem_of_In, in_map_iff in Hx.
    destruct Hx as (y & <- & _). apply fillna0_not_nan.
Qed.

(** X11. Cleaning an inventory table that was already cleaned changes
    nothing. *)
Theorem clean_inventory_data_idempotent (df : frame) :
  _clean_inventory_data (_clean_inventory_data df) = _clean_inventory_data df.
Proof.
  assert (Hsingle : forall l, single (_clean_inventory_data df) l = single df l).
  { intros l. rewrite clean_inventory_map. apply single_map.
    intros c. now destruct (_ && _). }
  rewrite (clean_inventory_map (_clean_inventory_data df)).
  apply map_same. intros c Hc. rewrite Hsingle.
  rewrite clean_inventory_map in Hc. apply in_map_iff in Hc.
  destruct Hc as (c0 & Hc & _).
  destruct (numeric_like inventory_numeric_patterns (fst c0) && single df (fst c0))
    eqn:Hc0; subst c; cbn [fst snd]; rewrite Hc0; [|reflexivity].
  f_equal. f_equal. cbn [numeric_values].
  rewrite map_map. apply map_ext. intros x. apply fillna0_fixed.
Qed.

End Cleaners.

Lemma clean_inventory_data_leaves_no_nan_witness :
  exists s',
    getitem (@DataLoader._clean_inventory_data Shape.sample_pandas Shape.raw_inventory)
      "current_stock" = Ok (Series s')
    /\ series_len s' = 2
    /\ Forall (fun x => F.is_nan x = false) (@Shape.numeric_values Shape.sample_pandas s').
Proof.
  apply (@clean_inventory_data_leaves_no_nan Shape.sample_pandas Shape.raw_inventory
           "current_stock" (SObj [CStr "12"; CStr "n/a"])); reflexivity.
Defined.

(** ** The count of discovered files *)

Section FileCount.
Import PyStr DataLoader Shape Terms.

Lemma fold_append_none (csv_files : list string) (categorized : gmap string (list string)) k :
  fold_left (fun categorized file_path =>
               append_to (bucket_key (classify file_path)) file_path categorized)
            csv_files categorized !! k = None
  <-> categorized !! k = None.
Proof.
  revert categorized. induction csv_files as [|f fs IH]; intros categorized; simpl;
    [tauto|].
  rewrite IH. unfold append_to. apply lookup_alter_None.
Qed.

Lemma bucket_of_key k :
  (exists b, k = bucket_key b) \/ empty_categorized !! k = None.
Proof.
  destruct (decide (k = "sales")) as [->|?]; [left; now exists Sales|].
  destruct (decide (k = "inventory")) as [->|?]; [left; now exists Inventory|].
  destruct (decide (k = "advertising")) as [->|?]; [left; now exists Advertising|].
  destruct (decide (k = "reviews")) as [->|?]; [left; now exists Reviews|].
  destruct (decide (k = "other")) as [->|?]; [left; now exists Other|].
  right. unfold empty_categorized. now rewrite !lookup_insert_ne by congruence.
Qed.

(** The dictionary that [discover_files] returns, key by key. *)
Lemma discover_files_buckets (csv_files : list string) :
  discover_files csv_files
  = <["sales" := files_of Sales csv_files]>
      (<["inventory" := files_of Inventory csv_files]>
         (<["advertising" := files_of Advertising csv_files]>
            (<["reviews" := files_of Reviews csv_files]>
               (<["other" := files_of Other csv_files]> ∅)))).
Proof.
  apply map_eq. intros k.
  destruct (bucket_of_key k) as [[b ->]|Hk].
  - unfold discover_files. rewrite discover_fold, empty_categorized_lookup.
    destruct b; now simplify_map_eq.
  - unfold discover_files.
    rewrite (proj2 (fold_append_none csv_files empty_categorized k) Hk).
    symmetry. unfold empty_categorized in Hk.
    repeat (apply lookup_insert_None in Hk as [Hk ?]).
    now rewrite !lookup_insert_ne by congruence.
Qed.

Lemma length_files_of (csv_files : list string) :
  length (files_of Sales csv_files) + length (files_of Inventory csv_files)
  + length (files_of Advertising csv_files) + length (files_of Reviews csv_files)
  + length (files_of Other csv_files) = length csv_files.
Proof.
  unfold files_of. induction csv_files as [|f fs IH]; [reflexivity|].
  cbn [List.filter]. destruct (classify f);
    repeat (first [rewrite bool_decide_eq_true_2 by reflexivity
                  |rewrite bool_decide_eq_false_2 by discriminate]);
    cbn [length]; lia.
Qed.

(** X12. The dictionary of [discover_files] has the five keys "sales",
    "inventory", "advertising", "reviews" and "other" and no other, whatever
    the directory holds, and the count of files that the console run takes
    from it is the number of CSV files of the directory: each file is counted
    once, the files of "other" included. *)
Theorem every_file_counted_once (csv_files : list string) :
  (forall k, is_Some (discover_files csv_files !! k)
             <-> In k ["sales"; "inventory"; "advertising"; "reviews"; "other"])
  /\ UIManager.total_files (discover_files csv_files) = length csv_files.
Proof.
  split.
  - intros k. destruct (bucket_of_key k) as [[b ->]|Hk].
    + unfold discover_files. rewrite discover_fold, empty_categorized_lookup.
      split; [intros _|intros _; eexists; reflexivity].
      destruct b; simpl; tauto.
    + unfold discover_files.
      rewrite (proj2 (fold_append_none csv_files empty_categorized k) Hk).
      split; [intros [? ?]; discriminate|].
      unfold empty_categorized in Hk.
      repeat (apply lookup_insert_None in Hk as [Hk ?]).
      simpl. intuition congruence.
  - rewrite discover_files_buckets. unfold UIManager.total_files.
    repeat (rewrite map_fold_insert_L;
            [|intros; lia|now rewrite ?lookup_insert_ne by discriminate]).
    rewrite map_fold_empty.
    pose proof (length_files_of csv_files). lia.
Qed.

End FileCount.

(** ** What each analysis records *)

Section Records.
Import PyStr DataAnalyzer Shape Terms.
Context `{Pandas}.
Variable cfg : Config.
Variable now : Z.

Lemma analyze_inventory_results sc :
  let sc' := fst (_analyze_inventory cfg sc) in
  self_results sc' = <["inventory" := sc_metrics sc']> (self_results sc)
  /\ sc_metrics sc' !! "total_products" = Some (MInt (Z.of_nat (len (sc_df sc)))).
Proof.
  unfold _analyze_inventory, inventory_stock_block, low_stock_analysis. mrun.
  mcases; (split; [reflexivity|now simplify_map_eq]).
Qed.

Lemma analyze_reviews_results sc :
  let sc' := fst (_analyze_reviews cfg sc) in
  self_results sc' = <["reviews" := sc_metrics sc']> (self_results sc)
  /\ sc_metrics sc' !! "total_reviews" = Some (MInt (Z.of_nat (len (sc_df sc)))).
Proof.
  unfold _analyze_reviews, rating_block. mrun.
  mcases; (split; [reflexivity|now simplify_map_eq]).
Qed.

(** X13. The inventory analysis and the reviews analysis never raise:
    whatever the table, each stores a record under its own domain, with the
    number of rows of the table under 'total_products' ('total_reviews'),
    and leaves the records of the other domains and the table as they
    were. *)
Theorem inventory_and_reviews_always_complete (sc : scope) :
  (let sc' := fst (_analyze_inventory cfg sc) in
   snd (_analyze_inventory cfg sc) = Ok tt
   /\ sc_df sc' = sc_df sc
   /\ exists m, self_results sc' = <["inventory" := m]> (self_results sc)
                /\ m !! "total_products" = Some (MInt (Z.of_nat (len (sc_df sc)))))
  /\ (let sc' := fst (_analyze_reviews cfg sc) in
      snd (_analyze_reviews cfg sc) = Ok tt
      /\ sc_df sc' = sc_df sc
      /\ exists m, self_results sc' = <["reviews" := m]> (self_results sc)
                   /\ m !! "total_reviews" = Some (MInt (Z.of_nat (len (sc_df sc))))).
Proof.
  split; cbn zeta.
  - split; [apply analyze_inventory_returns|]. split; [apply analyze_inventory_frame|].
    eexists. apply analyze_inventory_results.
  - split; [apply analyze_reviews_returns|]. split; [apply analyze_reviews_frame|].
    eexists. apply analyze_reviews_results.
Qed.

Lemma has_column_getitem df label :
  has_column df label = true -> exists sel, getitem df label = Ok sel.
Proof.
  intros Hhas. apply has_column_In, in_map_iff in Hhas as (c & Hc & Hin).
  assert (Hf : In c (List.filter (labelled label) df)).
  { apply filter_In. split; [assumption|]. unfold labelled. rewrite Hc.
    apply String.eqb_refl. }
  unfold getitem. destruct (List.filter (labelled label) df) as [|c0 [|c1 cs]];
    [destruct Hf|eauto|eauto].
Qed.

Lemma getitem_frame_repeats df label cols :
  getitem df label = Ok (Frame cols) -> ~ NoDup (columns df).
Proof.
  intros Hget Hnd.
  destruct (getitem_unique df label Hnd) as (s & Hs & _).
  - eapply has_column_In, getitem_has_column, Hget.
  - congruence.
Qed.


Lemma all_numbers_empty : all_numbers ∅.
Proof. intros key v Hv. now rewrite lookup_empty in Hv. Qed.

Lemma all_numbers_insert m key x :
  all_numbers m -> all_numbers (<[key := MNum x]> m).
Proof.
  intros Hm k v. destruct (decide (k = key)) as [->|Hne].
  - rewrite lookup_insert_eq. intros [= <-]. now exists x.
  - rewrite lookup_insert_ne by congruence. apply Hm.
Qed.

Lemma get_number_numbers m key :
  all_numbers m -> exists x, get_number m key = Ok x.
Proof.
  intros Hm. unfold get_number. destruct (m !! key) as [v|] eqn:Hv; [|eauto].
  destruct (Hm _ _ Hv) as [x ->]. eauto.
Qed.

Lemma total_of_run key col sc :
  all_numbers (sc_metrics sc) ->
  let sc' := fst (total_of key col sc) in
  sc_df sc' = sc_df sc
  /\ self_results sc' = self_results sc
  /\ self_alerts sc' = self_alerts sc
  /\ all_numbers (sc_metrics sc')
  /\ (forall k, k <> key -> sc_metrics sc' !! k = sc_metrics sc !! k)
  /\ (snd (total_of key col sc) = Ok tt
      \/ (snd (total_of key col sc) = Raise TypeError
          /\ ~ NoDup (columns (sc_df sc)))).
Proof.
  intros Hm. unfold total_of. mrun.
  destruct col as [c|]; cbn [resolved]; [|now repeat split; auto].
  destruct (negb (c =? "")%string && has_column (sc_df sc) c) eqn:Hres;
    [|now repeat split; auto].
  apply andb_true_iff in Hres as [_ Hhas].
  destruct (has_column_getitem _ _ Hhas) as [[s|cols] Hget]; rewrite Hget.
  - rewrite to_numeric_series. cbn [fst snd sc_df sc_metrics self_results self_alerts].
    repeat split; auto.
    + now apply all_numbers_insert.
    + intros k Hk. now rewrite lookup_insert_ne by congruence.
  - cbn [fst snd sc_df sc_metrics self_results self_alerts DataLoader.to_numeric].
    repeat split; auto. right. split; [reflexivity|].
    eapply getitem_frame_repeats, Hget.
Qed.

Lemma campaign_block_metrics spend_col clicks_col sc :
  let sc' := fst (campaign_block cfg spend_col clicks_col sc) in
  self_results sc' = self_results sc
  /\ (forall key, key <> "high_acos_campaigns" -> key <> "campaign_performance" ->
                  sc_metrics sc' !! key = sc_metrics sc !! key).
Proof.
  unfold campaign_block. mrun. split; [|intros key Hk1 Hk2]; mcases; try reflexivity.
  all: now rewrite ?lookup_insert_ne by congruence.
Qed.

Lemma analyze_advertising_outcome sc sc' out :
  _analyze_advertising cfg sc = (sc', out) ->
  (out = Raise TypeError /\ ~ NoDup (columns (sc_df sc)))
  \/ (out = Ok tt
      /\ exists m spend clicks impressions,
           self_results sc' = <["advertising" := m]> (self_results sc)
           /\ get_number m "total_spend" = Ok spend
           /\ get_number m "total_clicks" = Ok clicks
           /\ get_number m "total_impressions" = Ok impressions
           /\ m !! "avg_cpc"
              = (if F.gtb spend (F.of_Z 0) && F.gtb clicks (F.of_Z 0)
                 then Some (MNum (F.div spend clicks)) else None)
           /\ m !! "ctr"
              = (if F.gtb spend (F.of_Z 0) && F.gtb clicks (F.of_Z 0)
                    && F.gtb impressions (F.of_Z 0)
                 then Some (MNum (F.mul (F.div clicks impressions) (F.of_Z 100)))
                 else None)).
Proof.
  intros Hrun. unfold _analyze_advertising in Hrun. mrun.
  set (sc0 := {| sc_df := sc_df sc; sc_metrics := ∅; self_results := self_results sc;
                 self_alerts := self_alerts sc |}) in Hrun.
  pose proof (total_of_run "total_spend" (find_containing "spend" (columns (sc_df sc)))
                sc0 all_numbers_empty) as (Hd1 & Hr1 & _ & Hn1 & Hk1 & Ho1).
  destruct (total_of "total_spend" _ sc0) as [sc1 [[]|e1]]; cbn [fst snd] in *.
  2: { injection Hrun as <- <-. left.
       destruct Ho1 as [Ho1|[Ho1 Hdup]]; [discriminate Ho1|]. split; [assumption|].
       exact Hdup. }
  pose proof (total_of_run "total_clicks" (find_containing "clicks" (columns (sc_df sc)))
                sc1 Hn1) as (Hd2 & Hr2 & _ & Hn2 & Hk2 & Ho2).
  destruct (total_of "total_clicks" _ sc1) as [sc2 [[]|e2]]; cbn [fst snd] in *.
  2: { injection Hrun as <- <-. left.
       destruct Ho2 as [Ho2|[Ho2 Hdup]]; [discriminate Ho2|]. split; [assumption|].
       now rewrite Hd1 in Hdup. }
  pose proof (total_of_run "total_impressions"
                (find_containing "impressions" (columns (sc_df sc)))
                sc2 Hn2) as (Hd3 & Hr3 & _ & Hn3 & Hk3 & Ho3).
  destruct (total_of "total_impressions" _ sc2) as [sc3 [[]|e3]]; cbn [fst snd] in *.
  2: { injection Hrun as <- <-. left.
       destruct Ho3 as [Ho3|[Ho3 Hdup]]; [discriminate Ho3|]. split; [assumption|].
       now rewrite Hd2, Hd1 in Hdup. }
  clear Ho1 Ho2 Ho3. right.
  assert (Hcpc : sc_metrics sc3 !! "avg_cpc" = None).
  { now rewrite Hk3, Hk2, Hk1 by discriminate. }
  assert (Hctr : sc_metrics sc3 !! "ctr" = None).
  { now rewrite Hk3, Hk2, Hk1 by discriminate. }
  assert (Hres : self_results sc3 = self_results sc) by now rewrite Hr3, Hr2, Hr1.
  destruct (get_number_numbers (sc_metrics sc3) "total_spend" Hn3) as [spend Hs].
  destruct (get_number_numbers (sc_metrics sc3) "total_clicks" Hn3) as [clicks Hc].
  destruct (get_number_numbers (sc_metrics sc3) "total_impressions" Hn3)
    as [impressions Hi].
  rewrite Hs, Hc, Hi in Hrun. unfold get_number in Hs, Hc, Hi.
  destruct (F.gtb spend (F.of_Z 0)) eqn:Gs, (F.gtb clicks (F.of_Z 0)) eqn:Gc,
    (F.gtb impressions (F.of_Z 0)) eqn:Gi;
    cbn [fst snd sc_df sc_metrics self_results self_alerts andb] in Hrun;
    destruct (has_column (sc_df sc) "campaign_name");
    cbn [fst snd sc_df sc_metrics self_results self_alerts] in Hrun;
    injection Hrun as <- <-; (split; [reflexivity|]);
    eexists _, spend, clicks, impressions;
    (split; [rewrite ?(proj1 (campaign_block_metrics _ _ _));
             cbn [self_results]; rewrite Hres; reflexivity|]);
    unfold get_number;
    rewrite ?(proj2 (campaign_block_metrics _ _ _)) by discriminate;
    cbn [sc_metrics];
    rewrite ?lookup_insert_eq, ?lookup_insert_ne by discriminate;
    rewrite ?lookup_insert_eq, ?lookup_insert_ne by discriminate;
    rewrite Gs, Gc, Gi; cbn [andb]; auto 10.
Qed.

Lemma analyze_advertising_raise_repeats sc e :
  snd (_analyze_advertising cfg sc) = Raise e ->
  e = TypeError /\ ~ NoDup (columns (sc_df sc)).
Proof.
  destruct (_analyze_advertising cfg sc) as [sc' out] eqn:Hrun. cbn [snd]. intros ->.
  destruct (analyze_advertising_outcome _ _ _ Hrun) as [[[= ->] Hdup]|[[=] _]]. auto.
Qed.

(** X15. The advertising analysis fails in one way only: with a
    [TypeError], on a table in which two columns carry the same label.  On a
    table with pairwise distinct labels it always completes. *)
Theorem advertising_analysis_fails_only_on_repeated_labels (sc : scope) :
  (NoDup (columns (sc_df sc)) -> snd (_analyze_advertising cfg sc) = Ok tt)
  /\ (forall e, snd (_analyze_advertising cfg sc) = Raise e ->
                e = TypeError /\ ~ NoDup (columns (sc_df sc))).
Proof.
  destruct (_analyze_advertising cfg sc) as [sc' out] eqn:Hrun.
  destruct (analyze_advertising_outcome _ _ _ Hrun) as [[-> Hdup]|[-> _]]; cbn [snd].
  - split; [contradiction|]. now intros e [= <-].
  - split; [reflexivity|discriminate].
Qed.

(** X16. When the advertising analysis completes, 'avg_cpc' is stored
    exactly when the spend total and the clicks total are both above zero,
    and it is then their quotient; 'ctr' is stored exactly when, moreover,
    the impressions total is above zero, and it is then clicks over
    impressions times 100.  A total that was not computed counts as zero;
    so there is no click rate without spend, whatever the clicks and the
    impressions. *)
Theorem cost_per_click_and_click_rate (sc sc' : scope) :
  _analyze_advertising cfg sc = (sc', Ok tt) ->
  exists m spend clicks impressions,
    self_results sc' !! "advertising" = Some m
    /\ get_number m "total_spend" = Ok spend
    /\ get_number m "total_clicks" = Ok clicks
    /\ get_number m "total_impressions" = Ok impressions
    /\ m !! "avg_cpc"
       = (if F.gtb spend (F.of_Z 0) && F.gtb clicks (F.of_Z 0)
          then Some (MNum (F.div spend clicks)) else None)
    /\ m !! "ctr"
       = (if F.gtb spend (F.of_Z 0) && F.gtb clicks (F.of_Z 0)
             && F.gtb impressions (F.of_Z 0)
          then Some (MNum (F.mul (F.div clicks impressions) (F.of_Z 100)))
          else None).
Proof.
  intros Hrun.
  destruct (analyze_advertising_outcome _ _ _ Hrun)
    as [[Hout _]|(_ & m & spend & clicks & impressions & Hres & Hrest)];
    [discriminate Hout|].
  exists m, spend, clicks, impressions. split; [|exact Hrest].
  rewrite Hres. apply lookup_insert_eq.
Qed.

Lemma date_block_metrics date_col revenue_col sc :
  forall key,
    key <> "monthly_trends" -> key <> "recent_transactions" ->
    key <> "recent_revenue" -> key <> "monthly_growth" ->
    sc_metrics (fst (sales_date_block now date_col revenue_col sc)) !! key
    = sc_metrics sc !! key.
Proof.
  intros key H1 H2 H3 H4. unfold sales_date_block. mrun. mcases; try reflexivity.
  all: now rewrite ?lookup_insert_ne by congruence.
Qed.

Lemma after_dates_metrics revenue_col sc :
  forall key,
    key <> "monthly_trends" -> key <> "recent_transactions" ->
    key <> "recent_revenue" -> key <> "monthly_growth" ->
    sc_metrics (after_dates now revenue_col sc) !! key = sc_metrics sc !! key.
Proof.
  intros key H1 H2 H3 H4. unfold after_dates.
  destruct (find_date_col (columns (sc_df sc))) as [d|]; [|reflexivity].
  destruct (resolved (sc_df sc) (Some d)); [|reflexivity].
  now apply date_block_metrics.
Qed.

(** The end of the sales analysis when the basic aggregates were computed. *)
Lemma analyze_sales_finish sc q r a :
  sales_basics (sc_df sc) = Ok (q, r, a) ->
  exists sc3,
    self_alerts sc3 = self_alerts sc
    /\ self_results sc3 = self_results sc
    /\ sc_metrics sc3 !! "total_transactions"
       = Some (MInt (Z.of_nat (len (sc_df sc))))
    /\ (sc_metrics sc3 !! "monthly_growth" = None
        \/ exists g, sc_metrics sc3 !! "monthly_growth" = Some (MNum g))
    /\ _analyze_sales now sc = sales_finish sc3.
Proof.
  intros Hbasics. rewrite analyze_sales_stages, Hbasics. cbn zeta.
  set (rc := find_revenue_col (columns (sc_df sc))).
  set (qc := find_quantity_col (columns (sc_df sc))).
  set (sc1 := with_metrics sc (basic_metrics (sc_df sc) q r a)).
  set (sc2 := after_dates now rc sc1).
  set (sc3 := after_products rc qc sc2).
  exists sc3.
  destruct (basic_metrics_lookup (sc_df sc) q r a) as (_ & _ & _ & Hg & Ht & Hr).
  pose proof (after_dates_growth now rc sc1 Hg Ht Hr) as Hiff.
  destruct (after_dates_effects now rc sc1) as (Hres2 & Hal2 & _).
  destruct (after_products_effects rc qc sc2) as (_ & Hres3 & Hal3 & Hkeys).
  fold sc2 in Hiff, Hres2, Hal2. fold sc3 in Hres3, Hal3, Hkeys.
  split; [now rewrite Hal3, Hal2|]. split; [now rewrite Hres3, Hres2|].
  split; [|split; [|reflexivity]].
  - rewrite Hkeys by discriminate. unfold sc2.
    rewrite after_dates_metrics by discriminate.
    unfold sc1, with_metrics, basic_metrics. cbn [sc_metrics]. now simplify_map_eq.
  - rewrite Hkeys by discriminate.
    destruct (sc_metrics sc2 !! "monthly_growth") as [g|] eqn:Hgrowth; [|now left].
    right. apply Hiff in Hgrowth as (? & ? & l & p & ? & _ & _ & _ & _ & ->). eauto.
Qed.

(** X17. When the basic aggregates of a sales table can be computed, the
    analysis completes and stores its record with the number of rows under
    'total_transactions'; it appends the "Sales Decline" alert exactly when
    'monthly_growth' is in the record with a value below -10, and appends
    nothing otherwise (a missing growth counts as zero). *)
Theorem sales_decline_alert_iff (sc : scope) (q r a : mvalue) :
  sales_basics (sc_df sc) = Ok (q, r, a) ->
  let sc' := fst (_analyze_sales now sc) in
  snd (_analyze_sales now sc) = Ok tt
  /\ exists m,
       self_results sc' = <["sales" := m]> (self_results sc)
       /\ m !! "total_transactions" = Some (MInt (Z.of_nat (len (sc_df sc))))
       /\ self_alerts sc'
          = self_alerts sc
            ++ match m !! "monthly_growth" with
               | Some (MNum g) =>
                   if F.ltb g (F.of_Z (-10)) then [sales_decline_alert g] else []
               | _ => []
               end.
Proof.
  intros Hbasics. cbn zeta.
  destruct (analyze_sales_finish sc q r a Hbasics)
    as (sc3 & Hal & Hres & Htotal & Hgrowth & ->).
  unfold sales_finish, get_number.
  destruct Hgrowth as [Hg|[g Hg]]; rewrite Hg.
  - change (F.ltb (F.of_Z 0) (F.of_Z (-10))) with false. cbn [fst snd self_results
      self_alerts]. split; [reflexivity|]. exists (sc_metrics sc3).
    rewrite Hres, Hal, Hg, app_nil_r. auto.
  - destruct (F.ltb g (F.of_Z (-10))) eqn:Hlt; cbn [fst snd self_results self_alerts];
      (split; [reflexivity|]); exists (sc_metrics sc3);
      rewrite Hres, Hal, Hg, Hlt, ?app_nil_r; auto.
Qed.

(** Where the alerts of the advertising analysis come from: the campaign
    block, run on the table it was given. *)
Lemma analyze_advertising_alerts sc :
  (self_alerts (fst (_analyze_advertising cfg sc)) = self_alerts sc
   /\ (has_column (sc_df sc) "campaign_name" = false
       \/ exists e, snd (_analyze_advertising cfg sc) = Raise e))
  \/ exists sc1,
       self_alerts (fst (_analyze_advertising cfg sc))
       = self_alerts
           (fst (campaign_block cfg (find_containing "spend" (columns (sc_df sc)))
                   (find_containing "clicks" (columns (sc_df sc))) sc1))
       /\ sc_df sc1 = sc_df sc
       /\ self_alerts sc1 = self_alerts sc
       /\ has_column (sc_df sc) "campaign_name" = true
       /\ snd (_analyze_advertising cfg sc) = Ok tt.
Proof.
  unfold _analyze_advertising. mrun.
  set (sc0 := {| sc_df := sc_df sc; sc_metrics := ∅; self_results := self_results sc;
                 self_alerts := self_alerts sc |}).
  pose proof (total_of_run "total_spend" (find_containing "spend" (columns (sc_df sc)))
                sc0 all_numbers_empty) as (Hd1 & _ & Ha1 & Hn1 & _ & _).
  destruct (total_of "total_spend" _ sc0) as [sc1 [[]|e1]]; cbn [fst snd] in *;
    [|left; eauto].
  pose proof (total_of_run "total_clicks" (find_containing "clicks" (columns (sc_df sc)))
                sc1 Hn1) as (Hd2 & _ & Ha2 & Hn2 & _ & _).
  destruct (total_of "total_clicks" _ sc1) as [sc2 [[]|e2]]; cbn [fst snd] in *;
    [|left; rewrite Ha2, Ha1; eauto].
  pose proof (total_of_run "total_impressions"
                (find_containing "impressions" (columns (sc_df sc)))
                sc2 Hn2) as (Hd3 & _ & Ha3 & Hn3 & _ & _).
  destruct (total_of "total_impressions" _ sc2) as [sc3 [[]|e3]]; cbn [fst snd] in *;
    [|left; rewrite Ha3, Ha2, Ha1; eauto].
  assert (Hd : sc_df sc3 = sc_df sc) by now rewrite Hd3, Hd2, Hd1.
  assert (Ha : self_alerts sc3 = self_alerts sc) by now rewrite Ha3, Ha2, Ha1.
  destruct (get_number_numbers (sc_metrics sc3) "total_spend" Hn3) as [spend Hs].
  destruct (get_number_numbers (sc_metrics sc3) "total_clicks" Hn3) as [clicks Hc].
  destruct (get_number_numbers (sc_metrics sc3) "total_impressions" Hn3)
    as [impressions Hi].
  rewrite Hs, Hc, Hi.
  destruct (F.gtb spend (F.of_Z 0) && F.gtb clicks (F.of_Z 0));
    [destruct (F.gtb impressions (F.of_Z 0))|];
    cbn [fst snd sc_df sc_metrics self_results self_alerts];
    (destruct (has_column (sc_df sc) "campaign_name");
     cbn [fst snd sc_df sc_metrics self_results self_alerts];
     [right; eexists; split; [reflexivity|]; cbn [sc_df self_alerts]; auto
     |left; auto]).
Qed.

Lemma campaign_block_appends spend_col clicks_col sc :
  exists extra,
    self_alerts (fst (campaign_block cfg spend_col clicks_col sc))
    = self_alerts sc ++ extra
    /\ length extra <= 1
    /\ UIManager.critical_alerts extra = 0.
Proof.
  unfold campaign_block. mrun.
  mcases;
    first [exists []; rewrite app_nil_r; split; [reflexivity|split; [simpl; lia|reflexivity]]
          |eexists; split; [reflexivity|split; [simpl; lia|reflexivity]]].
Qed.

Lemma length_zip_with {A B C} (f : A -> B -> C) xs ys :
  length xs = length ys -> length (zip_with f xs ys) = length xs.
Proof.
  revert ys. induction xs as [|x xs IH]; intros [|y ys] Hlen; simpl in *;
    try reflexivity; try discriminate. now rewrite IH by lia.
Qed.

Lemma series_len_filter mask s :
  length mask = series_len s -> series_len (series_filter mask s) = count_true mask.
Proof. destruct s; simpl; apply length_mask_filter. Qed.

Lemma length_group_sum keys values :
  length (GroupBy.group_sum keys values) = length (GroupBy.group_keys keys).
Proof. unfold GroupBy.group_sum. apply length_map. Qed.

Lemma campaign_block_alerts spend_col clicks_col sc key_sel keys spend clicks sales floor :
  getitem (sc_df sc) "campaign_name" = Ok key_sel ->
  GroupBy.row_keys key_sel = Ok keys ->
  spend_col <> clicks_col ->
  getitem (sc_df sc) spend_col = Ok (Series (SNum spend)) ->
  getitem (sc_df sc) clicks_col = Ok (Series (SNum clicks)) ->
  getitem (sc_df sc) "sales" = Ok (Series (SNum sales)) ->
  roas_floor cfg = Ok floor ->
  let roas := zip_with roas_of (GroupBy.group_sum keys sales)
                (GroupBy.group_sum keys spend) in
  let n := count (fun r => F.ltb r floor) roas in
  self_alerts (fst (campaign_block cfg (Some spend_col) (Some clicks_col) sc))
  = self_alerts sc ++ (if (0 <? n)%nat then [high_acos_alert cfg n] else []).
Proof.
  intros Hkey Hkeys Hne Hspend Hclicks Hsales Hfloor roas n.
  assert (Hroas : length roas = length (GroupBy.group_keys keys)).
  { unfold roas. rewrite length_zip_with; rewrite !length_group_sum; reflexivity. }
  unfold campaign_block. mrun. rewrite Hkey, Hkeys.
  cbn [fst snd sc_df sc_metrics self_results self_alerts].
  unfold GroupBy.agg_sum. rewrite Hspend, Hclicks.
  cbn [fst snd sc_df sc_metrics self_results self_alerts].
  destruct (String.eqb_spec spend_col clicks_col) as [Heq|_]; [contradiction|].
  cbn [fst snd sc_df sc_metrics self_results self_alerts].
  rewrite (getitem_has_column _ _ _ Hsales), Hsales.
  cbn [fst snd sc_df sc_metrics self_results self_alerts]. rewrite Hfloor.
  cbn [fst snd sc_df sc_metrics self_results self_alerts].
  fold roas.
  set (sums := GroupBy.group_sum keys spend). set (csums := GroupBy.group_sum keys clicks).
  set (ssums := GroupBy.group_sum keys sales).
  set (mask := map (fun r => F.ltb r floor) roas).
  assert (Hlen : len (filter_rows mask
                        (setitem (setitem [("campaign_name", GroupBy.key_column keys);
                                           ("spend", SNum sums); ("clicks", SNum csums)]
                                    "sales" (SNum ssums)) "roas" (SNum roas))) = n).
  { change (series_len (series_filter mask (GroupBy.key_column keys)) = n).
    apply series_len_filter. unfold mask.
    now rewrite length_map, series_len_key_column. }
  rewrite Hlen.
  destruct (0 <? n)%nat; cbn [fst snd sc_df sc_metrics self_results self_alerts];
    [reflexivity|now rewrite app_nil_r].
Qed.

End Records.

Section HighAcos.
Import PyStr DataAnalyzer Shape Terms.
Context `{Pandas}.

(** X18. On an advertising table with pairwise distinct labels that has
    the columns 'campaign_name' and 'sales' and [float64] columns of spend,
    clicks and sales, the "High ACOS Campaigns" alert is appended exactly when
    some campaign has a return on spend below 100/40, with the number of such
    campaigns; the return of a campaign is taken from its sales and its spend
    as the group-by adds them, by compensated summation in the order of the
    rows.  A campaign whose spend sums to zero has a return of zero and is
    always among them. *)
Theorem high_acos_alert_by_campaign (sc : scope) (key_sel : selection)
    (keys : list (option cell)) (spend_col clicks_col : string)
    (spend clicks sales : list F.float) :
  NoDup (columns (sc_df sc)) ->
  getitem (sc_df sc) "campaign_name" = Ok key_sel ->
  GroupBy.row_keys key_sel = Ok keys ->
  find_containing "spend" (columns (sc_df sc)) = Some spend_col ->
  find_containing "clicks" (columns (sc_df sc)) = Some clicks_col ->
  spend_col <> clicks_col ->
  getitem (sc_df sc) spend_col = Ok (Series (SNum spend)) ->
  getitem (sc_df sc) clicks_col = Ok (Series (SNum clicks)) ->
  getitem (sc_df sc) "sales" = Ok (Series (SNum sales)) ->
  let floor := F.div (F.of_Z 100) (F.of_Z 40) in
  let roas := zip_with roas_of (GroupBy.group_sum keys sales)
                (GroupBy.group_sum keys spend) in
  let n := count (fun r => F.ltb r floor) roas in
  self_alerts (fst (_analyze_advertising config sc))
  = self_alerts sc ++ (if (0 <? n)%nat then [high_acos_alert config n] else [])
  /\ forall sales_sum s, F.ltb (roas_of sales_sum (S754_zero s)) floor = true.
Proof.
  intros Hnd Hkey Hkeys Hsc Hcc Hne Hspend Hclicks Hsales floor roas n. split.
  - destruct (analyze_advertising_alerts config sc)
      as [[_ [Hno|[e He]]]|(sc1 & -> & Hd & Ha & _ & _)].
    + rewrite (getitem_has_column _ _ _ Hkey) in Hno. discriminate Hno.
    + destruct (proj2 (analyze_advertising_raise_repeats config sc e He) Hnd).
    + rewrite Hsc, Hcc, <- Ha.
      apply (campaign_block_alerts config spend_col clicks_col sc1 key_sel keys
               spend clicks sales floor); rewrite ?Hd; auto.
  - intros sales_sum s. now rewrite roas_of_zero_spend.
Qed.

End HighAcos.

(** ** Bounds on the alerts of a run *)

Section AlertBounds.
Import PyStr DataAnalyzer Shape Terms.
Context `{Pandas}.
Variable cfg : Config.
Variable now : Z.

Lemma critical_alerts_app l1 l2 :
  UIManager.critical_alerts (l1 ++ l2)
  = UIManager.critical_alerts l1 + UIManager.critical_alerts l2.
Proof. unfold UIManager.critical_alerts. now rewrite List.filter_app, length_app. Qed.

Lemma appends_same n c l : appends n c l l.
Proof.
  exists []. rewrite app_nil_r. split; [reflexivity|].
  split; [simpl; lia|unfold UIManager.critical_alerts; simpl; lia].
Qed.

Lemma appends_then n1 c1 n2 c2 l1 l2 l3 :
  appends n1 c1 l1 l2 -> appends n2 c2 l2 l3 -> appends (n1 + n2) (c1 + c2) l1 l3.
Proof.
  intros (e1 & -> & Hn1 & Hc1) (e2 & -> & Hn2 & Hc2). exists (e1 ++ e2).
  rewrite app_assoc, length_app, critical_alerts_app.
  split; [reflexivity|]. split; lia.
Qed.

Lemma appends_more n c n' c' l1 l2 :
  n <= n' -> c <= c' -> appends n c l1 l2 -> appends n' c' l1 l2.
Proof.
  intros Hn Hc (e & -> & ? & ?). exists e. split; [reflexivity|]. split; lia.
Qed.

Lemma analyze_sales_appends sc :
  appends 1 0 (self_alerts sc) (self_alerts (fst (_analyze_sales now sc))).
Proof.
  destruct (sales_basics (sc_df sc)) as [[[q r] a]|e] eqn:Hbasics.
  - destruct (analyze_sales_finish now sc q r a Hbasics) as (sc3 & Hal & _ & _ & _ & ->).
    rewrite <- Hal. unfold sales_finish.
    destruct (get_number (sc_metrics sc3) "monthly_growth") as [g|e];
      [destruct (F.ltb g (F.of_Z (-10)))|]; cbn [fst self_alerts];
      try apply appends_same.
    eexists. split; [reflexivity|]. split; [simpl; lia|reflexivity].
  - rewrite analyze_sales_stages, Hbasics. apply appends_same.
Qed.

Lemma analyze_inventory_appends sc :
  appends 3 1 (self_alerts sc) (self_alerts (fst (_analyze_inventory cfg sc))).
Proof.
  unfold _analyze_inventory, inventory_stock_block, low_stock_analysis. mrun.
  mcases; try apply appends_same;
    rewrite <- ?app_assoc; eexists; (split; [reflexivity|]);
    (split; [simpl; lia|vm_compute; lia]).
Qed.

Lemma analyze_advertising_appends sc :
  appends 1 0 (self_alerts sc) (self_alerts (fst (_analyze_advertising cfg sc))).
Proof.
  destruct (analyze_advertising_alerts cfg sc) as [[-> _]|(sc1 & -> & _ & <- & _)];
    [apply appends_same|].
  destruct (campaign_block_appends cfg (find_containing "spend" (columns (sc_df sc)))
              (find_containing "clicks" (columns (sc_df sc))) sc1)
    as (extra & -> & Hn & Hc).
  exists extra. split; [reflexivity|]. split; [assumption|lia].
Qed.

Lemma analyze_reviews_appends sc :
  appends 1 0 (self_alerts sc) (self_alerts (fst (_analyze_reviews cfg sc))).
Proof.
  unfold _analyze_reviews, rating_block. mrun.
  mcases; try apply appends_same.
  all: eexists; (split; [reflexivity|]); split; [simpl; lia|reflexivity].
Qed.

Lemma analyze_domain_appends key method n c r :
  (forall sc, appends n c (self_alerts sc) (self_alerts (fst (method sc)))) ->
  appends n c (alerts r) (alerts (fst (analyze_domain key method r))).
Proof.
  intros Hmethod. unfold analyze_domain.
  destruct (data_dict r !! key) as [[table|]|]; try apply appends_same.
  specialize (Hmethod {| sc_df := table; sc_metrics := ∅; self_results := results r;
                         self_alerts := alerts r |}).
  now destruct (method _) as [sc out].
Qed.

(** X19. Whatever the tables, one run of [analyze_all] appends at most six
    alerts to the analyzer, of which at most one is critical; this holds
    also for a run that ends on an exception. *)
Theorem run_appends_at_most_six_alerts (r : run) :
  exists extra,
    alerts (fst (analyze_all cfg now r)) = alerts r ++ extra
    /\ length extra <= 6
    /\ UIManager.critical_alerts extra <= 1.
Proof.
  change (appends 6 1 (alerts r) (alerts (fst (analyze_all cfg now r)))).
  unfold analyze_all, try_reraise, bind.
  pose proof (analyze_domain_appends "sales" (_analyze_sales now) 1 0 r
                analyze_sales_appends) as H1.
  destruct (analyze_domain "sales" _ r) as [r1 [[]|e1]]; cbn [fst] in *;
    [|eapply appends_more; [| |exact H1]; lia].
  pose proof (analyze_domain_appends "inventory" (_analyze_inventory cfg) 3 1 r1
                analyze_inventory_appends) as H2.
  pose proof (appends_then _ _ _ _ _ _ _ H1 H2) as H12. clear H1 H2.
  destruct (analyze_domain "inventory" _ r1) as [r2 [[]|e2]]; cbn [fst] in *;
    [|eapply appends_more; [| |exact H12]; lia].
  pose proof (analyze_domain_appends "advertising" (_analyze_advertising cfg) 1 0 r2
                analyze_advertising_appends) as H3.
  pose proof (appends_then _ _ _ _ _ _ _ H12 H3) as H123. clear H12 H3.
  destruct (analyze_domain "advertising" _ r2) as [r3 [[]|e3]]; cbn [fst] in *;
    [|eapply appends_more; [| |exact H123]; lia].
  pose proof (analyze_domain_appends "reviews" (_analyze_reviews cfg) 1 0 r3
                analyze_reviews_appends) as H4.
  pose proof (appends_then _ _ _ _ _ _ _ H123 H4) as Hall. clear H123 H4.
  destruct (analyze_domain "reviews" _ r3) as [r4 [[]|e4]]; cbn [fst] in *;
    (eapply appends_more; [| |exact Hall]; lia).
Qed.

End AlertBounds.

(** ** The records of a run and the KPI summary *)

Section RunRecords.
Import PyStr DataAnalyzer Shape Terms.
Context `{Pandas}.
Variable cfg : Config.
Variable now : Z.

Lemma analyze_sales_record sc sc' :
  _analyze_sales now sc = (sc', Ok tt) ->
  exists m, self_results sc' = <["sales" := m]> (self_results sc)
            /\ m !! "total_transactions" = Some (MInt (Z.of_nat (len (sc_df sc)))).
Proof.
  destruct (sales_basics (sc_df sc)) as [[[q r] a]|e] eqn:Hbasics.
  - destruct (analyze_sales_finish now sc q r a Hbasics)
      as (sc3 & _ & Hres & Htotal & _ & ->).
    unfold sales_finish.
    destruct (get_number (sc_metrics sc3) "monthly_growth") as [g|e];
      [destruct (F.ltb g (F.of_Z (-10)))|]; intros [= <-];
      exists (sc_metrics sc3); cbn [self_results]; rewrite Hres; auto.
  - rewrite analyze_sales_stages, Hbasics. discriminate.
Qed.

Lemma analyze_inventory_record sc sc' :
  _analyze_inventory cfg sc = (sc', Ok tt) ->
  exists m, self_results sc' = <["inventory" := m]> (self_results sc)
            /\ m !! "total_products" = Some (MInt (Z.of_nat (len (sc_df sc)))).
Proof.
  intros Hrun. pose proof (analyze_inventory_results cfg sc) as Hres.
  rewrite Hrun in Hres. eexists. exact Hres.
Qed.

Lemma analyze_reviews_record sc sc' :
  _analyze_reviews cfg sc = (sc', Ok tt) ->
  exists m, self_results sc' = <["reviews" := m]> (self_results sc)
            /\ m !! "total_reviews" = Some (MInt (Z.of_nat (len (sc_df sc)))).
Proof.
  intros Hrun. pose proof (analyze_reviews_results cfg sc) as Hres.
  rewrite Hrun in Hres. eexists. exact Hres.
Qed.

Lemma analyze_advertising_record sc sc' :
  _analyze_advertising cfg sc = (sc', Ok tt) ->
  exists m, self_results sc' = <["advertising" := m]> (self_results sc) /\ True.
Proof.
  intros Hrun.
  destruct (analyze_advertising_outcome cfg _ _ _ Hrun)
    as [[[=] _]|(_ & m & _ & _ & _ & Hres & _)].
  now exists m.
Qed.

Lemma analyze_domain_record key method (P : frame -> gmap string mvalue -> Prop) r r' :
  (forall sc sc', method sc = (sc', Ok tt) ->
                  exists m, self_results sc' = <[key := m]> (self_results sc)
                            /\ P (sc_df sc) m) ->
  analyze_domain key method r = (r', Ok tt) ->
  (forall k, k <> key -> data_dict r' !! k = data_dict r !! k)
  /\ (forall d, d <> key -> results r' !! d = results r !! d)
  /\ match data_dict r !! key with
     | Some (Some table) => exists m, results r' !! key = Some m /\ P table m
     | _ => results r' !! key = results r !! key
     end.
Proof.
  intros Hmethod. unfold analyze_domain.
  destruct (data_dict r !! key) as [[table|]|] eqn:Htable;
    try (intros [= <-]; now repeat split).
  set (sc := {| sc_df := table; sc_metrics := ∅; self_results := results r;
                self_alerts := alerts r |}).
  destruct (method sc) as [sc' out] eqn:Hrun. intros [= <- ->].
  destruct (Hmethod _ _ Hrun) as (m & Hres & HP). cbn [data_dict results].
  split; [|split].
  - intros k Hk. now rewrite lookup_insert_ne by congruence.
  - intros d Hd. rewrite Hres. now rewrite lookup_insert_ne by congruence.
  - exists m. rewrite Hres. split; [apply lookup_insert_eq|exact HP].
Qed.

(** What a run that completes leaves in [self.results], domain by domain. *)
Lemma analyze_all_records r r' :
  analyze_all cfg now r = (r', Ok tt) ->
  (forall d, given (data_dict r) d = false -> results r' !! d = results r !! d)
  /\ (forall d, ~ In d ["sales"; "inventory"; "advertising"; "reviews"] ->
                results r' !! d = results r !! d)
  /\ (forall d, In d ["sales"; "inventory"; "advertising"; "reviews"] ->
                given (data_dict r) d = true ->
                exists m, results r' !! d = Some m
                          /\ (d = "sales" -> m !! "total_transactions" = rows_of (data_dict r) d)
                          /\ (d = "inventory" -> m !! "total_products" = rows_of (data_dict r) d)
                          /\ (d = "reviews" -> m !! "total_reviews" = rows_of (data_dict r) d)).
Proof.
  unfold analyze_all, try_reraise, bind.
  destruct (analyze_domain "sales" (_analyze_sales now) r) as [r1 [[]|e1]] eqn:H1;
    [|discriminate].
  destruct (analyze_domain "inventory" (_analyze_inventory cfg) r1) as [r2 [[]|e2]] eqn:H2;
    [|discriminate].
  destruct (analyze_domain "advertising" (_analyze_advertising cfg) r2)
    as [r3 [[]|e3]] eqn:H3; [|discriminate].
  destruct (analyze_domain "reviews" (_analyze_reviews cfg) r3) as [r4 [[]|e4]] eqn:H4;
    [|discriminate].
  intros [= <-].
  pose proof (analyze_domain_record "sales" (_analyze_sales now)
                (fun t m => m !! "total_transactions" = Some (MInt (Z.of_nat (len t))))
                r r1 analyze_sales_record H1) as (Hd1 & Ho1 & Hk1).
  pose proof (analyze_domain_record "inventory" (_analyze_inventory cfg)
                (fun t m => m !! "total_products" = Some (MInt (Z.of_nat (len t))))
                r1 r2 analyze_inventory_record H2) as (Hd2 & Ho2 & Hk2).
  pose proof (analyze_domain_record "advertising" (_analyze_advertising cfg)
                (fun _ _ => True) r2 r3 analyze_advertising_record H3)
    as (Hd3 & Ho3 & Hk3).
  pose proof (analyze_domain_record "reviews" (_analyze_reviews cfg)
                (fun t m => m !! "total_reviews" = Some (MInt (Z.of_nat (len t))))
                r3 r4 analyze_reviews_record H4) as (Hd4 & Ho4 & Hk4).
  clear H1 H2 H3 H4.
  rewrite Hd3, Hd2, Hd1 in Hk4 by discriminate.
  rewrite Hd2, Hd1 in Hk3 by discriminate.
  rewrite Hd1 in Hk2 by discriminate.
  split; [|split].
  - intros d Hd. unfold given in Hd.
    destruct (decide (d = "reviews")) as [->|N4].
    { destruct (data_dict r !! "reviews") as [[?|]|]; try discriminate Hd;
        now rewrite Hk4, Ho3, Ho2, Ho1 by discriminate. }
    rewrite Ho4 by assumption.
    destruct (decide (d = "advertising")) as [->|N3].
    { destruct (data_dict r !! "advertising") as [[?|]|]; try discriminate Hd;
        now rewrite Hk3, Ho2, Ho1 by discriminate. }
    rewrite Ho3 by assumption.
    destruct (decide (d = "inventory")) as [->|N2].
    { destruct (data_dict r !! "inventory") as [[?|]|]; try discriminate Hd;
        now rewrite Hk2, Ho1 by discriminate. }
    rewrite Ho2 by assumption.
    destruct (decide (d = "sales")) as [->|N1].
    { destruct (data_dict r !! "sales") as [[?|]|]; try discriminate Hd;
        now rewrite Hk1. }
    now rewrite Ho1.
  - intros d Hd. simpl in Hd.
    rewrite Ho4, Ho3, Ho2, Ho1 by intuition congruence. reflexivity.
  - intros d Hd Hgiven. unfold given, rows_of in *.
    destruct Hd as [<-|[<-|[<-|[<-|[]]]]].
    + destruct (data_dict r !! "sales") as [[t|]|]; try discriminate Hgiven.
      destruct Hk1 as (m & Hm & HP). exists m.
      rewrite Ho4, Ho3, Ho2 by discriminate. repeat split; auto; discriminate.
    + destruct (data_dict r !! "inventory") as [[t|]|]; try discriminate Hgiven.
      destruct Hk2 as (m & Hm & HP). exists m.
      rewrite Ho4, Ho3 by discriminate. repeat split; auto; discriminate.
    + destruct (data_dict r !! "advertising") as [[t|]|]; try discriminate Hgiven.
      destruct Hk3 as (m & Hm & HP). exists m.
      rewrite Ho4 by discriminate. repeat split; auto; discriminate.
    + destruct (data_dict r !! "reviews") as [[t|]|]; try discriminate Hgiven.
      destruct Hk4 as (m & Hm & HP). exists m. repeat split; auto; discriminate.
Qed.

(** X20. After a run of [analyze_all] that completes, a domain has a
    record in [self.results] exactly when it had one before or is one of
    sales, inventory, advertising and reviews with a table given for it; the
    record of any other domain, and of a domain without a table, is the one
    that was there before. *)
Theorem records_follow_tables (r r' : run) :
  analyze_all cfg now r = (r', Ok tt) ->
  forall d,
    if bool_decide (In d ["sales"; "inventory"; "advertising"; "reviews"])
       && given (data_dict r) d
    then is_Some (results r' !! d)
    else results r' !! d = results r !! d.
Proof.
  intros Hrun d. destruct (analyze_all_records r r' Hrun) as (Hnone & Hother & Hgiven).
  case_bool_decide as Hd; cbn [andb]; [|now apply Hother].
  destruct (given (data_dict r) d) eqn:Hg; [|now apply Hnone].
  destruct (Hgiven d Hd Hg) as (m & -> & _). eauto.
Qed.

(** X21. A run without any table (each of the four keys missing or [None])
    does nothing: it completes and leaves the analyzer and the dictionary as
    they were. *)
Theorem run_without_tables_does_nothing (r : run) :
  (forall d, In d ["sales"; "inventory"; "advertising"; "reviews"] ->
             given (data_dict r) d = false) ->
  analyze_all cfg now r = (r, Ok tt).
Proof.
  intros Hnone. unfold analyze_all, try_reraise, bind, analyze_domain.
  pose proof (Hnone "sales" ltac:(simpl; tauto)) as H1.
  pose proof (Hnone "inventory" ltac:(simpl; tauto)) as H2.
  pose proof (Hnone "advertising" ltac:(simpl; tauto)) as H3.
  pose proof (Hnone "reviews" ltac:(simpl; tauto)) as H4.
  unfold given in H1, H2, H3, H4.
  destruct (data_dict r !! "sales") as [[?|]|]; try discriminate H1;
    destruct (data_dict r !! "inventory") as [[?|]|]; try discriminate H2;
    destruct (data_dict r !! "advertising") as [[?|]|]; try discriminate H3;
    destruct (data_dict r !! "reviews") as [[?|]|]; try discriminate H4;
    reflexivity.
Qed.

(** The three row counts of the KPI summary. *)
Lemma kpi_row_counts (results : gmap string (gmap string mvalue)) :
  let kpis := Summary.get_kpi_summary results in
  kpis !! "total_transactions"
  = (fun m => Summary.get_or_zero m "total_transactions") <$> results !! "sales"
  /\ kpis !! "total_products"
     = (fun m => Summary.get_or_zero m "total_products") <$> results !! "inventory"
  /\ kpis !! "total_reviews"
     = (fun m => Summary.get_or_zero m "total_reviews") <$> results !! "reviews".
Proof.
  cbn zeta. unfold Summary.get_kpi_summary, Summary.for_domain, Summary.copy.
  destruct (results !! "sales"), (results !! "inventory"), (results !! "advertising"),
    (results !! "reviews"); repeat split; now simplify_map_eq.
Qed.

(** X22. After a run of a new analyzer that completes, the KPI summary
    holds the number of rows of the sales table under 'total_transactions',
    of the inventory table under 'total_products' and of the reviews table
    under 'total_reviews'; the KPI of a domain without a table is absent. *)
Theorem kpi_summary_counts_rows (r r' : run) :
  results r = ∅ ->
  analyze_all cfg now r = (r', Ok tt) ->
  let kpis := Summary.get_kpi_summary (results r') in
  kpis !! "total_transactions" = rows_of (data_dict r) "sales"
  /\ kpis !! "total_products" = rows_of (data_dict r) "inventory"
  /\ kpis !! "total_reviews" = rows_of (data_dict r) "reviews".
Proof.
  intros Hnew Hrun. cbn zeta.
  destruct (analyze_all_records r r' Hrun) as (Hnone & _ & Hgiven).
  assert (Hcount : forall d key,
    In d ["sales"; "inventory"; "advertising"; "reviews"] ->
    (forall m, results r' !! d = Some m -> given (data_dict r) d = true ->
               m !! key = rows_of (data_dict r) d) ->
    (fun m => Summary.get_or_zero m key) <$> results r' !! d = rows_of (data_dict r) d).
  { intros d key Hd Hkey. destruct (given (data_dict r) d) eqn:Hg.
    - destruct (Hgiven d Hd Hg) as (m & Hm & _). rewrite Hm.
      cbn [fmap option_fmap option_map]. unfold Summary.get_or_zero.
      rewrite (Hkey m Hm eq_refl). unfold given, rows_of in *.
      destruct (data_dict r !! d) as [[t|]|]; try discriminate Hg. reflexivity.
    - rewrite (Hnone d Hg), Hnew, lookup_empty.
      unfold given, rows_of in *. now destruct (data_dict r !! d) as [[?|]|]. }
  destruct (kpi_row_counts (results r')) as (-> & -> & ->).
  split; [|split]; apply Hcount; try (simpl; tauto); intros m Hm Hg;
    match goal with
    | |- _ !! _ = rows_of _ ?d =>
        destruct (Hgiven d ltac:(simpl; tauto) Hg) as (m' & Hm' & HP1 & HP2 & HP3)
    end;
    rewrite Hm in Hm'; injection Hm' as <-; auto.
Qed.

End RunRecords.

(** ** The inventory counts *)

Section InventoryCounts.
Import PyStr DataAnalyzer Shape Terms.
Context `{Pandas}.
Variable cfg : Config.

Lemma len_head n df : len (head n df) = Nat.min n (len df).
Proof.
  destruct df as [|[l s] df]; simpl; [now rewrite Nat.min_0_r|].
  destruct s; simpl; apply length_firstn.
Qed.

Lemma columns_head n df : columns (head n df) = columns df.
Proof. unfold columns, head. rewrite map_map. reflexivity. Qed.

Lemma columns_filter_rows mask df : columns (filter_rows mask df) = columns df.
Proof. unfold columns, filter_rows. rewrite map_map. reflexivity. Qed.

Lemma low_stock_analysis_metrics days_col sc s :
  rectangular (sc_df sc) ->
  getitem (sc_df sc) days_col = Ok (Series s) ->
  let days := numeric_values s in
  let low := count_true (below (low_stock_days cfg) days) in
  let over := count_true (above (overstock_days cfg) days) in
  let m := sc_metrics (fst (low_stock_analysis cfg days_col sc)) in
  m !! "low_stock_count" = Some (MInt (Z.of_nat low))
  /\ m !! "overstock_count" = Some (MInt (Z.of_nat over))
  /\ m !! "low_stock_products"
     = Some (MFrame (head 10 (filter_rows (below (low_stock_days cfg) days) (sc_df sc))))
  /\ m !! "overstock_products"
     = Some (MFrame (head 10 (filter_rows (above (overstock_days cfg) days) (sc_df sc))))
  /\ (forall key, key <> "low_stock_count" -> key <> "overstock_count" ->
                  key <> "low_stock_products" -> key <> "overstock_products" ->
                  m !! key = sc_metrics sc !! key).
Proof.
  intros Hrect Hget days low over.
  pose proof (getitem_nonempty _ _ _ Hget) as Hne.
  pose proof (getitem_series_len _ _ _ Hrect Hget) as Hlen.
  rewrite <- length_numeric_values in Hlen. fold days in Hlen.
  assert (Hlow : len (filter_rows (below (low_stock_days cfg) days) (sc_df sc)) = low).
  { apply len_filter_rows; [assumption|]. unfold below. now rewrite length_map. }
  assert (Hover : len (filter_rows (above (overstock_days cfg) days) (sc_df sc)) = over).
  { apply len_filter_rows; [assumption|]. unfold above. now rewrite length_map. }
  unfold low_stock_analysis. mrun. rewrite Hget, to_numeric_series.
  cbn [fst snd sc_df sc_metrics]. fold days. rewrite Hlow, Hover.
  mcases; repeat split; try (now simplify_map_eq);
    intros key K1 K2 K3 K4; now rewrite !lookup_insert_ne by congruence.
Qed.

(** X23. On an inventory table with rows of equal length in which a
    stock-level column and a days-of-supply column resolve to one column
    each, the analysis stores a total of the stock levels, the number of
    rows with days of supply below the low-stock threshold and the number of
    rows above the overstock threshold, and, for each of the two groups, a
    table with all the columns of the input and the first ten rows of the
    group at most. *)
Theorem inventory_counts_by_days (sc : scope) (stock_col days_col : string)
    (s_stock s_days : series) :
  rectangular (sc_df sc) ->
  find_stock_col (columns (sc_df sc)) = Some stock_col ->
  getitem (sc_df sc) stock_col = Ok (Series s_stock) ->
  find_days_col (columns (sc_df sc)) = Some days_col ->
  getitem (sc_df sc) days_col = Ok (Series s_days) ->
  let days := numeric_values s_days in
  let low := count (fun x => F.ltb x (F.of_Z (low_stock_days cfg))) days in
  let over := count (fun x => F.gtb x (F.of_Z (overstock_days cfg))) days in
  let m := sc_metrics (fst (_analyze_inventory cfg sc)) in
  is_Some (m !! "total_stock")
  /\ m !! "low_stock_count" = Some (MInt (Z.of_nat low))
  /\ m !! "overstock_count" = Some (MInt (Z.of_nat over))
  /\ (exists lows,
        m !! "low_stock_products" = Some (MFrame lows)
        /\ len lows = Nat.min 10 low /\ columns lows = columns (sc_df sc))
  /\ (exists overs,
        m !! "overstock_products" = Some (MFrame overs)
        /\ len overs = Nat.min 10 over /\ columns overs = columns (sc_df sc)).
Proof.
  intros Hrect Hst Hgst Hdc Hgdc days low over. cbn zeta.
  pose proof (getitem_nonempty _ _ _ Hgdc) as Hne.
  pose proof (getitem_series_len _ _ _ Hrect Hgdc) as Hlen.
  rewrite <- length_numeric_values in Hlen. fold days in Hlen.
  unfold _analyze_inventory. mrun.
  rewrite Hst, (find_resolved _ _ _ stock_word_nonempty Hst).
  cbn [fst snd sc_df sc_metrics]. unfold inventory_stock_block. mrun.
  rewrite Hgst, to_numeric_series, Hdc, (find_resolved _ _ _ days_word_nonempty Hdc).
  cbn [fst snd sc_df sc_metrics].
  match goal with
  | |- context [low_stock_analysis cfg days_col ?sc1] =>
      destruct (low_stock_analysis_metrics days_col sc1 s_days Hrect Hgdc)
        as (Hl & Ho & Hlp & Hop & Hkeys)
  end.
  cbn [sc_df sc_metrics] in *. fold days in Hl, Ho, Hlp, Hop.
  split; [|split; [|split; [|split]]].
  - rewrite Hkeys by discriminate. eexists. now simplify_map_eq.
  - exact Hl.
  - exact Ho.
  - eexists. split; [exact Hlp|]. split.
    + rewrite len_head. f_equal. apply len_filter_rows; [assumption|].
      unfold below. now rewrite length_map.
    + now rewrite columns_head, columns_filter_rows.
  - eexists. split; [exact Hop|]. split.
    + rewrite len_head. f_equal. apply len_filter_rows; [assumption|].
      unfold above. now rewrite length_map.
    + now rewrite columns_head, columns_filter_rows.
Qed.

End InventoryCounts.

(** ** The cards of the dashboard *)

Section Cards.
Import DataAnalyzer Shape Terms ExcelReportWriter.
Variable format_money format_count format_rating : mvalue -> string.

Lemma add_card_grows kpis key title format category kpi_cards cards :
  add_card kpis key title format category kpi_cards = Ok cards ->
  cards = kpi_cards \/ exists value, cards = kpi_cards ++ [(title, value, category)].
Proof.
  unfold add_card. destruct (get_number kpis key) as [x|e]; [|discriminate].
  destruct (F.gtb x (F.of_Z 0)); intros [= <-]; eauto.
Qed.

Lemma then_card_grows cards0 kpis key title format category cards n :
  (forall l, cards0 = Ok l ->
             length l <= n
             /\ Forall (fun c : card => _get_category_color (snd c) <> "E7E6E6") l) ->
  _get_category_color category <> "E7E6E6" ->
  then_card cards0 (add_card kpis key title format category) = Ok cards ->
  length cards <= S n
  /\ Forall (fun c : card => _get_category_color (snd c) <> "E7E6E6") cards.
Proof.
  intros Hprev Hcolor. unfold then_card. destruct cards0 as [l|e]; [|discriminate].
  destruct (Hprev l eq_refl) as [Hlen Hall]. intros Hadd.
  apply add_card_grows in Hadd as [->|[value ->]].
  - split; [lia|assumption].
  - rewrite length_app. simpl. split; [lia|].
    apply Forall_app. split; [assumption|]. now repeat constructor.
Qed.

Lemma layout_positions i row kpi_cards :
  map fst (layout i row kpi_cards)
  = map fst (layout i row (repeat ("", "", "") (length kpi_cards))).
Proof.
  revert i row. induction kpi_cards as [|c rest IH]; intros i row; [reflexivity|].
  cbn [layout length repeat]. destruct (4 <=? i)%nat; cbn [map fst]; now rewrite IH.
Qed.

Lemma cells_positions placed :
  cells placed
  = concat (map (fun p : nat * nat => card_cells (fst p) (snd p)) (map fst placed)).
Proof. unfold cells. now rewrite map_map. Qed.

(** X24. The executive dashboard shows at most eight KPI cards.  Laid out
    by the loop of [_create_executive_dashboard], each card lies within rows
    4 to 8 and columns 1 to 8, above the alert section of row 10, and no
    cell belongs to two cards; no card gets the default gray, its category
    being one of the four that have a colour. *)
Theorem dashboard_cards_do_not_overlap (kpis : gmap string mvalue) (cards : list card) :
  kpi_cards format_money format_count format_rating kpis = Ok cards ->
  let placed := layout 0 4 cards in
  length cards <= 8
  /\ NoDup (cells placed)
  /\ Forall (fun cell => 4 <= fst cell <= 8 /\ 1 <= snd cell <= 8) (cells placed)
  /\ Forall (fun c : card => _get_category_color (snd c) <> "E7E6E6") cards.
Proof.
  intros Hcards. cbn zeta.
  assert (Hshape : length cards <= 8
    /\ Forall (fun c : card => _get_category_color (snd c) <> "E7E6E6") cards).
  { unfold kpi_cards in Hcards. cbn zeta in Hcards.
    eapply then_card_grows; [| |exact Hcards]; [|vm_compute; discriminate]. intros l7 H7.
    eapply then_card_grows; [| |exact H7]; [|vm_compute; discriminate]. intros l6 H6.
    eapply then_card_grows; [| |exact H6]; [|vm_compute; discriminate]. intros l5 H5.
    eapply then_card_grows; [| |exact H5]; [|vm_compute; discriminate]. intros l4 H4.
    eapply then_card_grows; [| |exact H4]; [|vm_compute; discriminate]. intros l3 H3.
    eapply then_card_grows; [| |exact H3]; [|vm_compute; discriminate]. intros l2 H2.
    eapply then_card_grows; [| |exact H2]; [|vm_compute; discriminate]. intros l1 H1.
    eapply then_card_grows; [| |exact H1]; [|vm_compute; discriminate]. intros l0 [= <-].
    split; [simpl; lia|constructor]. }
  destruct Hshape as [Hlen Hcolors]. split; [assumption|].
  rewrite cells_positions, layout_positions.
  assert (Hn : In (length cards) (seq 0 9)) by (apply in_seq; lia).
  split; [|split; [|assumption]];
    repeat (destruct Hn as [<-|Hn];
            [first [apply NoDup_ListNoDup; repeat constructor; simpl; intuition congruence
                   |apply Forall_forall; intros cell Hin; apply list_elem_of_In in Hin;
                    simpl in Hin; intuition (subst; simpl; lia)]|]);
    destruct Hn.
Qed.

End Cards.

(** ** Closed instances *)


Lemma cost_per_click_and_click_rate_witness :
  exists m,
    DataAnalyzer.self_results
      (fst (@DataAnalyzer._analyze_advertising Shape.sample_pandas config
              (Shape.fresh Samples.busy_advertising))) !! "advertising" = Some m
    /\ m !! "avg_cpc" = Some (MNum (F.of_Z 5))
    /\ m !! "ctr" = Some (MNum (F.of_Z 4)).
Proof.
  destruct (@cost_per_click_and_click_rate Shape.sample_pandas config
              (Shape.fresh Samples.busy_advertising)
              (fst (@DataAnalyzer._analyze_advertising Shape.sample_pandas config
                      (Shape.fresh Samples.busy_advertising))))
    as (m & spend & clicks & impressions & Hm & Hs & Hc & Hi & Hcpc & Hctr).
  - vm_compute. reflexivity.
  - exists m. split; [exact Hm|].
    assert (Hm' : m = <["total_impressions" := MNum (F.of_Z 200)]>
                        (<["total_clicks" := MNum (F.of_Z 8)]>
                           (<["total_spend" := MNum (F.of_Z 40)]>
                              (<["ctr" := MNum (F.of_Z 4)]>
                                 (<["avg_cpc" := MNum (F.of_Z 5)]> ∅))))).
    { apply (inj Some). rewrite <- Hm. vm_compute. reflexivity. }
    subst m. split; reflexivity.
Defined.

Lemma sales_decline_alert_iff_witness :
  DataAnalyzer.self_alerts
    (fst (@DataAnalyzer._analyze_sales Shape.sample_pandas Shape.scenario_now
            (Shape.fresh Samples.declining_sales)))
  = [@DataAnalyzer.sales_decline_alert Shape.sample_pandas
       (DataAnalyzer.growth_rate (F.of_Z 100) (F.of_Z 200))].
Proof.
  destruct (@sales_decline_alert_iff Shape.sample_pandas Shape.scenario_now
              (Shape.fresh Samples.declining_sales)
              (MInt 0) (MNum (F.of_Z 300)) (MNum (F.of_Z 150)))
    as (_ & m & _ & _ & _).
  - vm_compute. reflexivity.
  - vm_compute. reflexivity.
Defined.

Lemma high_acos_alert_by_campaign_witness :
  DataAnalyzer.self_alerts
    (fst (@DataAnalyzer._analyze_advertising Shape.sample_pandas config
            (Shape.fresh Samples.campaign_advertising)))
  = [DataAnalyzer.high_acos_alert config 1].
Proof.
  destruct (@high_acos_alert_by_campaign Shape.sample_pandas
              (Shape.fresh Samples.campaign_advertising)
              (Series (SObj [CStr "a"; CStr "b"; CStr "a"]))
              [Some (CStr "a"); Some (CStr "b"); Some (CStr "a")]
              "spend" "clicks"
              [F.of_Z 10; F.of_Z 0; F.of_Z 10] [F.of_Z 1; F.of_Z 1; F.of_Z 1]
              [F.of_Z 100; F.of_Z 5; F.of_Z 20]) as [Halerts _];
    [apply NoDup_ListNoDup; repeat constructor; simpl; intuition discriminate
    |reflexivity|reflexivity|reflexivity|reflexivity|discriminate
    |reflexivity|reflexivity|reflexivity
    |rewrite Halerts; vm_compute; reflexivity].
Defined.

Lemma records_follow_tables_witness :
  is_Some (DataAnalyzer.results
             (fst (@DataAnalyzer.analyze_all Shape.sample_pandas config
                     Shape.scenario_now Samples.three_tables)) !! "inventory")
  /\ DataAnalyzer.results
       (fst (@DataAnalyzer.analyze_all Shape.sample_pandas config
               Shape.scenario_now Samples.three_tables)) !! "advertising" = None.
Proof.
  pose proof (@records_follow_tables Shape.sample_pandas config Shape.scenario_now
                Samples.three_tables
                (fst (@DataAnalyzer.analyze_all Shape.sample_pandas config
                        Shape.scenario_now Samples.three_tables))
                ltac:(vm_compute; reflexivity)) as Hd.
  split.
  - exact (Hd "inventory").
  - exact (Hd "advertising").
Defined.

Lemma kpi_summary_counts_rows_witness :
  let kpis :=
    Summary.get_kpi_summary
      (DataAnalyzer.results
         (fst (@DataAnalyzer.analyze_all Shape.sample_pandas config
                 Shape.scenario_now Samples.three_tables))) in
  kpis !! "total_transactions" = Some (MInt 4)
  /\ kpis !! "total_products" = Some (MInt 2)
  /\ kpis !! "total_reviews" = Some (MInt 4).
Proof.
  apply (@kpi_summary_counts_rows Shape.sample_pandas config Shape.scenario_now
           Samples.three_tables
           (fst (@DataAnalyzer.analyze_all Shape.sample_pandas config
                   Shape.scenario_now Samples.three_tables))).
  - reflexivity.
  - vm_compute. reflexivity.
Defined.

Lemma inventory_counts_by_days_witness :
  let m := DataAnalyzer.sc_metrics
             (fst (@DataAnalyzer._analyze_inventory Shape.sample_pandas config
                     (Shape.fresh Shape.two_row_inventory))) in
  is_Some (m !! "total_stock")
  /\ m !! "low_stock_count" = Some (MInt 1)
  /\ m !! "overstock_count" = Some (MInt 1).
Proof.
  destruct (@inventory_counts_by_days Shape.sample_pandas config
              (Shape.fresh Shape.two_row_inventory) "current_stock" "days_of_supply"
              (SNum [F.of_Z 5; F.of_Z 9]) (SNum [F.of_Z 2; F.of_Z 45]))
    as (Hstock & Hlow & Hover & _);
    [repeat constructor|reflexivity|reflexivity|reflexivity|reflexivity
    |cbn zeta; split; [exact Hstock|]; rewrite Hlow, Hover; vm_compute;
     repeat split; reflexivity].
Defined.

Lemma dashboard_cards_do_not_overlap_witness :
  exists cards,
    ExcelReportWriter.kpi_cards (fun _ => "$") (fun _ => "#") (fun _ => "/5")
      Samples.some_kpis = Ok cards
    /\ length cards = 4
    /\ NoDup (ExcelReportWriter.cells (ExcelReportWriter.layout 0 4 cards)).
Proof.
  eexists. split; [vm_compute; reflexivity|]. split; [reflexivity|].
  eapply (dashboard_cards_do_not_overlap (fun _ => "$") (fun _ => "#") (fun _ => "/5")
            Samples.some_kpis).
  vm_compute. reflexivity.
Defined.

Lemma run_without_tables_does_nothing_witness :
  @DataAnalyzer.analyze_all Shape.sample_pandas config Shape.scenario_now
    Samples.no_tables = (Samples.no_tables, Ok tt).
Proof.
  apply run_without_tables_does_nothing.
  intros d [<-|[<-|[<-|[<-|[]]]]]; reflexivity.
Defined.

Lemma standardized_name_shape_witness :
  Shape.all_chars Terms.not_upper
    (DataLoader._standardize_column_name " Order  Date (UTC)") = true
  /\ String.length (DataLoader._standardize_column_name " Order  Date (UTC)")
     <= String.length " Order  Date (UTC)".
Proof.
  destruct (standardized_name_shape " Order  Date (UTC)") as (_ & _ & Hascii).
  apply Hascii. reflexivity.
Defined.

(** ** The tables of a run *)

Section LoadedTables.
Import PyStr DataLoader Shape Terms.
Context `{Pandas} `{Loading.Reading}.

Lemma first_of_files_of b csv_files :
  first_of b csv_files = List.hd_error (files_of b csv_files).
Proof.
  unfold first_of, files_of. induction csv_files as [|f fs IH]; simpl; [reflexivity|].
  now destruct (bool_decide (classify f = b)).
Qed.

Lemma loader_outcome b path rest l :
  b <> Other ->
  snd (loader_of b (path :: rest) l)
  = match Loading.read_csv path with
    | Ok raw =>
        match b with
        | Reviews =>
            match rating_stats (loaded b raw) with
            | Ok _ => Ok (Some (loaded b raw))
            | Raise e => Raise e
            end
        | _ => Ok (Some (loaded b raw))
        end
    | Raise e => Raise e
    end.
Proof.
  intros Hb. destruct b; try contradiction; cbn [loader_of loaded];
    unfold Loading.load_sales_data, Loading.load_inventory_data,
      Loading.load_advertising_data, Loading.load_reviews_data,
      Loading.set_data, Loading.set_stats, rating_stats;
    unfold bind, lift, ret, modify;
    destruct (Loading.read_csv path) as [raw|e]; try reflexivity.
  - unfold load_inventory_data.
    destruct (has_column (_clean_inventory_data (standardize_columns raw)) "product_name")
      eqn:Hhas; [|reflexivity].
    destruct (has_column_getitem _ _ Hhas) as [sel ->]. reflexivity.
  - unfold load_reviews_data.
    destruct (has_column (standardize_columns raw) "rating"); [|reflexivity].
    destruct (getitem (standardize_columns raw) "rating") as [sel|e]; [|reflexivity].
    now destruct (DataAnalyzer.mean_of sel).
Qed.

Lemma load_if_any_outcome b csv_files l :
  b <> Other ->
  snd (UIManager.load_if_any (loader_of b) (discover_files csv_files) (bucket_key b) l)
  = load_outcome b csv_files.
Proof.
  intros Hb. unfold UIManager.load_if_any, load_outcome, discover_files.
  rewrite discover_fold, empty_categorized_lookup, first_of_files_of.
  cbn [fmap option_fmap option_map app].
  destruct (files_of b csv_files) as [|path rest]; [reflexivity|].
  cbn [List.hd_error]. now apply loader_outcome.
Qed.

(** The outcome of [load_tables], from the outcomes of the four loads. *)
Lemma load_tables_outcome csv_files l :
  snd (UIManager.load_tables (discover_files csv_files) l)
  = match load_outcome Sales csv_files with
    | Ok sales =>
        match load_outcome Inventory csv_files with
        | Ok inventory =>
            match load_outcome Advertising csv_files with
            | Ok advertising =>
                match load_outcome Reviews csv_files with
                | Ok reviews =>
                    Ok (<["reviews" := reviews]>
                          (<["advertising" := advertising]>
                             (<["inventory" := inventory]> (<["sales" := sales]> ∅))))
                | Raise e => Raise e
                end
            | Raise e => Raise e
            end
        | Raise e => Raise e
        end
    | Raise e => Raise e
    end.
Proof.
  unfold UIManager.load_tables, bind, ret.
  pose proof (load_if_any_outcome Sales csv_files l ltac:(discriminate)) as H1.
  cbn [loader_of bucket_key] in H1.
  destruct (UIManager.load_if_any Loading.load_sales_data _ "sales" l) as [l1 o1].
  cbn [snd] in H1. rewrite <- H1. destruct o1 as [sales|e]; [|reflexivity].
  pose proof (load_if_any_outcome Inventory csv_files l1 ltac:(discriminate)) as H2.
  cbn [loader_of bucket_key] in H2.
  destruct (UIManager.load_if_any Loading.load_inventory_data _ "inventory" l1)
    as [l2 o2].
  cbn [snd] in H2. rewrite <- H2. destruct o2 as [inventory|e]; [|reflexivity].
  pose proof (load_if_any_outcome Advertising csv_files l2 ltac:(discriminate)) as H3.
  cbn [loader_of bucket_key] in H3.
  destruct (UIManager.load_if_any Loading.load_advertising_data _ "advertising" l2)
    as [l3 o3].
  cbn [snd] in H3. rewrite <- H3. destruct o3 as [advertising|e]; [|reflexivity].
  pose proof (load_if_any_outcome Reviews csv_files l3 ltac:(discriminate)) as H4.
  cbn [loader_of bucket_key] in H4.
  destruct (UIManager.load_if_any Loading.load_reviews_data _ "reviews" l3)
    as [l4 o4].
  cbn [snd] in H4. rewrite <- H4. now destruct o4.
Qed.

(** X25. When the tables of a run are loaded without failure, the entry of
    each of the four domains is [None] if the directory holds no file of the
    domain, and otherwise the table made of the first such file of the
    listing: its columns renamed, and cleaned for sales and inventory.  The
    other files of the domain are not read. *)
Theorem tables_come_from_first_files (csv_files : list string)
    (l l' : Loading.loader) (data_dict : gmap string (option frame)) :
  UIManager.load_tables (discover_files csv_files) l = (l', Ok data_dict) ->
  forall b, b <> Other ->
    match first_of b csv_files with
    | None => data_dict !! bucket_key b = Some None
    | Some path =>
        exists raw, Loading.read_csv path = Ok raw
                    /\ data_dict !! bucket_key b = Some (Some (loaded b raw))
    end.
Proof.
  intros Hrun b Hb.
  pose proof (load_tables_outcome csv_files l) as Hout. rewrite Hrun in Hout.
  cbn [snd] in Hout.
  destruct (load_outcome Sales csv_files) as [sales|?] eqn:H1; [|discriminate].
  destruct (load_outcome Inventory csv_files) as [inventory|?] eqn:H2; [|discriminate].
  destruct (load_outcome Advertising csv_files) as [advertising|?] eqn:H3; [|discriminate].
  destruct (load_outcome Reviews csv_files) as [reviews|?] eqn:H4; [|discriminate].
  injection Hout as Hdict.
  assert (Hentry : exists table, load_outcome b csv_files = Ok table
                                 /\ data_dict !! bucket_key b = Some table).
  { rewrite Hdict. destruct b; try contradiction; eexists; (split; [eassumption|]);
      cbn [bucket_key]; now simplify_map_eq. }
  destruct Hentry as (table & Hload & ->). unfold load_outcome in Hload.
  destruct (first_of b csv_files) as [path|]; [|now injection Hload as <-].
  destruct (Loading.read_csv path) as [raw|e]; [|discriminate]. exists raw.
  split; [reflexivity|]. destruct b; try contradiction;
    try (now injection Hload as <-).
  destruct (rating_stats (loaded Reviews raw)); [|discriminate].
  now injection Hload as <-.
Qed.

(** X26. Loading the tables of a run fails in two ways only: the reading
    of the first file of one of the four domains fails, or the mean of the
    'rating' column of the reviews table, which the loader takes for its
    statistics, cannot be computed; the exception is that of this step.
    Renaming and cleaning never fail. *)
Theorem loading_fails_on_first_files (csv_files : list string)
    (l l' : Loading.loader) (e : exn) :
  UIManager.load_tables (discover_files csv_files) l = (l', Raise e) ->
  exists b path,
    b <> Other
    /\ first_of b csv_files = Some path
    /\ (Loading.read_csv path = Raise e
        \/ (b = Reviews
            /\ exists raw, Loading.read_csv path = Ok raw
                           /\ rating_stats (loaded Reviews raw) = Raise e)).
Proof.
  intros Hrun.
  pose proof (load_tables_outcome csv_files l) as Hout. rewrite Hrun in Hout.
  cbn [snd] in Hout.
  assert (Hfail : forall b, b <> Other -> load_outcome b csv_files = Raise e ->
    exists path,
      first_of b csv_files = Some path
      /\ (Loading.read_csv path = Raise e
          \/ (b = Reviews
              /\ exists raw, Loading.read_csv path = Ok raw
                             /\ rating_stats (loaded Reviews raw) = Raise e))).
  { intros b Hb. unfold load_outcome.
    destruct (first_of b csv_files) as [path|]; [|discriminate].
    intros Hload. exists path. split; [reflexivity|].
    destruct (Loading.read_csv path) as [raw|e']; [|left; congruence].
    destruct b; try discriminate; try contradiction.
    destruct (rating_stats (loaded Reviews raw)) as [?|e'] eqn:Hr; [discriminate|].
    right. split; [reflexivity|]. exists raw. split; [reflexivity|congruence]. }
  destruct (load_outcome Sales csv_files) as [sales|?] eqn:H1.
  2: { injection Hout as <-. destruct (Hfail Sales ltac:(discriminate) H1) as (p & ? & ?).
       exists Sales, p. repeat split; auto; discriminate. }
  destruct (load_outcome Inventory csv_files) as [inventory|?] eqn:H2.
  2: { injection Hout as <-.
       destruct (Hfail Inventory ltac:(discriminate) H2) as (p & ? & ?).
       exists Inventory, p. repeat split; auto; discriminate. }
  destruct (load_outcome Advertising csv_files) as [advertising|?] eqn:H3.
  2: { injection Hout as <-.
       destruct (Hfail Advertising ltac:(discriminate) H3) as (p & ? & ?).
       exists Advertising, p. repeat split; auto; discriminate. }
  destruct (load_outcome Reviews csv_files) as [reviews|?] eqn:H4; [discriminate|].
  injection Hout as <-. destruct (Hfail Reviews ltac:(discriminate) H4) as (p & ? & ?).
  exists Reviews, p. repeat split; auto; discriminate.
Qed.

End LoadedTables.

Lemma tables_come_from_first_files_witness :
  let csv_files := ["notes.csv"; "sales_2023.csv"; "sales_2024.csv"] in
  let data_dict : gmap string (option frame) :=
    <["reviews" := None]>
      (<["advertising" := None]>
         (<["inventory" := None]>
            (<["sales" := Some (@DataLoader.load_sales_data Shape.sample_pandas
                                  Shape.raw_sales)]> ∅))) in
  match Terms.first_of DataLoader.Sales csv_files with
  | None => data_dict !! "sales" = Some None
  | Some path =>
      exists raw,
        @Loading.read_csv Samples.sample_reading path = Ok raw
        /\ data_dict !! "sales"
           = Some (Some (@Terms.loaded Shape.sample_pandas DataLoader.Sales raw))
  end.
Proof.
  cbn zeta.
  apply (@tables_come_from_first_files Shape.sample_pandas Samples.sample_reading
           ["notes.csv"; "sales_2023.csv"; "sales_2024.csv"] Samples.new_loader
           (fst (@UIManager.load_tables Shape.sample_pandas Samples.sample_reading
                   (DataLoader.discover_files
                      ["notes.csv"; "sales_2023.csv"; "sales_2024.csv"])
                   Samples.new_loader))).
  - vm_compute. reflexivity.
  - discriminate.
Defined.

Lemma loading_fails_on_first_files_witness :
  exists b path,
    Terms.first_of b ["sales_2023.csv"; "reviews.csv"] = Some path
    /\ (@Loading.read_csv Samples.sample_reading path = Raise TypeError
        \/ (b = DataLoader.Reviews
            /\ exists raw,
                 @Loading.read_csv Samples.sample_reading path = Ok raw
                 /\ @Terms.rating_stats Shape.sample_pandas
                      (@Terms.loaded Shape.sample_pandas DataLoader.Reviews raw)
                    = Raise TypeError)).
Proof.
  destruct (@loading_fails_on_first_files Shape.sample_pandas Samples.sample_reading
              ["sales_2023.csv"; "reviews.csv"] Samples.new_loader
              (fst (@UIManager.load_tables Shape.sample_pandas Samples.sample_reading
                      (DataLoader.discover_files ["sales_2023.csv"; "reviews.csv"])
                      Samples.new_loader))
              TypeError ltac:(vm_compute; reflexivity))
    as (b & path & _ & Hfirst & Hwhy).
  exists b, path. split; assumption.
Defined.

(** ** From the file to the alert *)

Section LoadedInventory.
Import PyStr DataLoader DataAnalyzer Shape Terms.
Context `{Pandas}.

Lemma len_map_columns (f : string * series -> string * series) df :
  (forall c, series_len (snd (f c)) = series_len (snd c)) ->
  len (map f df) = len df.
Proof.
  intros Hf. destruct df as [|c df]; [reflexivity|]. simpl.
  specialize (Hf c). destruct (f c) as [l s], c as [l' s']. exact Hf.
Qed.

Lemma rectangular_clean_inventory df :
  rectangular df -> rectangular (_clean_inventory_data df).
Proof.
  intros Hrect. rewrite clean_inventory_map.
  set (f := fun c : string * series => _).
  assert (Hf : forall c, series_len (snd (f c)) = series_len (snd c)).
  { intros c. unfold f. destruct (_ && _); [|reflexivity]. cbn [snd series_len].
    now rewrite length_map, length_numeric_values. }
  unfold rectangular in *. rewrite (len_map_columns f df Hf).
  apply Forall_fmap. eapply Forall_impl; [exact Hrect|].
  intros c Hc. cbn. now rewrite Hf.
Qed.

Lemma days_is_numeric_key col :
  contains "days" (lower col) = true ->
  contains_any inventory_numeric_patterns (lower col) = true.
Proof.
  intros Hd. unfold contains_any, inventory_numeric_patterns. cbn [existsb].
  rewrite Hd. now rewrite !orb_true_r.
Qed.

Lemma stock_is_numeric_key col :
  contains "stock" (lower col) = true ->
  contains_any inventory_numeric_patterns (lower col) = true.
Proof.
  intros Hd. unfold contains_any, inventory_numeric_patterns. cbn [existsb].
  now rewrite Hd.
Qed.

(** X27. A days-of-supply cell that does not read as a number (text in a
    column of text, a blank in a column of numbers) is turned into 0 by the
    inventory loader and then counts as less than 3 days of stock: on a
    loaded inventory table with columns of equal length in which a
    stock-level column and a days-of-supply column resolve to one column
    each, one such cell is enough for the "Critical Stock Shortage" alert. *)
Theorem unreadable_days_raise_critical_alert (raw : frame) (stock_col days_col : string)
    (s_stock s_days : series) (i : nat) (x : F.float) :
  let named := standardize_columns raw in
  rectangular named ->
  find_stock_col (columns named) = Some stock_col ->
  getitem named stock_col = Ok (Series s_stock) ->
  find_days_col (columns named) = Some days_col ->
  getitem named days_col = Ok (Series s_days) ->
  numeric_values s_days !! i = Some x ->
  F.is_nan x = true ->
  has_critical
    (self_alerts (fst (_analyze_inventory config (fresh (load_inventory_data raw)))))
  = true.
Proof.
  intros named Hrect Hst Hgst Hdc Hgdc Hcell Hnan.
  unfold load_inventory_data. fold named.
  pose proof (rectangular_clean_inventory named Hrect) as Hrect'.
  rewrite (analyze_inventory_alerts config (fresh (_clean_inventory_data named)) Hrect').
  cbn [fresh self_alerts sc_df app].
  unfold inventory_alerts. rewrite columns_clean_inventory, Hst, Hdc.
  assert (Hstock : contains "stock" (lower stock_col) = true).
  { apply find_some in Hst as [_ Hst]. now apply andb_true_iff in Hst as [Hst _]. }
  assert (Hdays : contains "days" (lower days_col) = true).
  { now apply find_some in Hdc as [_ Hdc]. }
  assert (Hgst' : getitem (_clean_inventory_data named) stock_col
                  = Ok (Series (SNum (map F.fillna0 (numeric_values s_stock))))).
  { unfold _clean_inventory_data.
    apply (convert_numeric_columns_unique _ _ _ _ s_stock);
      [assumption|now apply stock_is_numeric_key|].
    unfold inventory_numeric. now rewrite to_numeric_series. }
  assert (Hgdc' : getitem (_clean_inventory_data named) days_col
                  = Ok (Series (SNum (map F.fillna0 (numeric_values s_days))))).
  { unfold _clean_inventory_data.
    apply (convert_numeric_columns_unique _ _ _ _ s_days);
      [assumption|now apply days_is_numeric_key|].
    unfold inventory_numeric. now rewrite to_numeric_series. }
  rewrite Hgst', Hgdc'.
  rewrite has_critical_stock_alerts. cbn [numeric_values].
  apply Nat.ltb_lt, count_true_pos. unfold below. apply in_map_iff.
  exists F.zero. split; [reflexivity|].
  apply list_elem_of_In, list_elem_of_lookup. exists i.
  rewrite list_lookup_fmap, Hcell. cbn. unfold F.fillna0. now rewrite Hnan.
Qed.

End LoadedInventory.

Lemma unreadable_days_raise_critical_alert_witness :
  Shape.has_critical
    (DataAnalyzer.self_alerts
       (fst (@DataAnalyzer._analyze_inventory Shape.sample_pandas config
               (Shape.fresh (@DataLoader.load_inventory_data Shape.sample_pandas
                               Samples.unreadable_inventory)))))
  = true.
Proof.
  apply (@unreadable_days_raise_critical_alert Shape.sample_pandas
           Samples.unreadable_inventory "current_stock" "days_of_supply"
           (SNum [F.of_Z 40]) (SObj [CStr "unknown"]) 0 F.nan);
    try reflexivity.
  repeat constructor.
Defined.
(** ** Dates that carry a time zone *)

Section AwareDates.
Import PyStr GroupBy DataAnalyzer Shape Terms.
Context `{Pandas}.
Variable now : Z.

Lemma setitem_labelled df label s c :
  In c (setitem df label s) -> labelled label c = true -> c = (label, s).
Proof.
  unfold setitem. destruct (has_column df label) eqn:Hhas; intros Hin Hc.
  - apply in_map_iff in Hin as (c0 & <- & _).
    destruct (labelled label c0) eqn:Hc0; [reflexivity|congruence].
  - apply in_app_or in Hin as [Hin|[<-|[]]]; [|reflexivity].
    apply has_column_false in Hhas. exfalso. apply Hhas.
    apply in_map_iff. exists c. split; [|assumption].
    unfold labelled in Hc. now apply String.eqb_eq in Hc.
Qed.

Lemma getitem_setitem_series df label s s' :
  getitem (setitem df label s) label = Ok (Series s') -> s' = s.
Proof.
  unfold getitem.
  destruct (List.filter (labelled label) (setitem df label s)) as [|c [|d cs]] eqn:Hf;
    try discriminate.
  intros [= <-].
  assert (Hin : In c (List.filter (labelled label) (setitem df label s)))
    by (rewrite Hf; now left).
  apply filter_In in Hin as [Hin Hc].
  now rewrite (setitem_labelled _ _ _ _ Hin Hc).
Qed.

Lemma filter_setitem_ne df label label' s :
  label' <> label ->
  List.filter (labelled label') (setitem df label s)
  = List.filter (labelled label') df.
Proof.
  intros Hne. unfold setitem. destruct (has_column df label).
  - induction df as [|c df IH]; simpl; [reflexivity|].
    rewrite labelled_setitem. destruct (labelled label' c) eqn:Hc; rewrite IH; [|reflexivity].
    f_equal. unfold labelled in *. destruct c as [l t]. simpl in *.
    apply String.eqb_eq in Hc. subst l.
    now destruct (String.eqb_spec label' label).
  - rewrite List.filter_app. simpl. unfold labelled at 2. simpl.
    destruct (String.eqb_spec label label'); [congruence|apply app_nil_r].
Qed.

Lemma getitem_setitem_ne df label label' s :
  label' <> label -> getitem (setitem df label s) label' = getitem df label'.
Proof. intros Hne. unfold getitem. now rewrite filter_setitem_ne. Qed.

(** With aware dates the block on dates ends at the comparison with the
    naive cutoff: of its four entries only 'monthly_trends' can be
    written. *)
Lemma date_block_aware date_col revenue_col sc ts :
  getitem (sc_df sc) date_col = Ok (Series (STime true ts)) ->
  forall key, key <> "monthly_trends" ->
    sc_metrics (fst (sales_date_block now date_col revenue_col sc)) !! key
    = sc_metrics sc !! key.
Proof.
  intros Hget key Hkey. unfold sales_date_block. mrun.
  rewrite Hget. cbn [DataLoader.to_datetime fst snd sc_df].
  destruct (getitem (setitem (sc_df sc) "_date" (STime true ts)) "_date")
    as [[s'|cols]|e] eqn:Hdate; cbn [fst snd sc_df month_strings sc_metrics];
    [|reflexivity|reflexivity].
  apply getitem_setitem_series in Hdate as Hs'. subst s'.
  cbn [fst snd sc_df sc_metrics].
  set (months := SObj _).
  destruct (resolved _ revenue_col); [|reflexivity].
  destruct revenue_col as [revenue_col|]; [|reflexivity].
  rewrite (getitem_setitem_ne _ "_month_str" "_date") by discriminate.
  rewrite Hdate.
  destruct (getitem _ "_month_str") as [key_sel|e]; cbn [fst snd sc_metrics];
    [|reflexivity].
  destruct (row_keys key_sel) as [keys|e]; cbn [fst snd sc_metrics]; [|reflexivity].
  destruct (agg_sum keys _) as [revenue|e]; cbn [fst snd sc_metrics not_before];
    [|reflexivity].
  now rewrite lookup_insert_ne by congruence.
Qed.

Lemma after_dates_aware revenue_col sc date_col ts :
  find_date_col (columns (sc_df sc)) = Some date_col ->
  getitem (sc_df sc) date_col = Ok (Series (STime true ts)) ->
  forall key, key <> "monthly_trends" ->
    sc_metrics (after_dates now revenue_col sc) !! key = sc_metrics sc !! key.
Proof.
  intros Hfind Hget key Hkey. unfold after_dates. rewrite Hfind.
  destruct (resolved (sc_df sc) (Some date_col)); [|reflexivity].
  now apply (date_block_aware date_col revenue_col sc ts).
Qed.

(** X28. A date column with a time zone stops the date-based metrics of
    the sales analysis at the comparison with the naive cutoff of thirty
    days: when the basic aggregates can be computed the analysis still
    completes and stores its record, but the record has none of
    'recent_transactions', 'recent_revenue' and 'monthly_growth', and no
    alert is appended, whatever the monthly totals are. *)
Theorem aware_dates_leave_no_growth (sc : scope) (q r a : mvalue)
    (date_col : string) (ts : list (option Z)) :
  sales_basics (sc_df sc) = Ok (q, r, a) ->
  find_date_col (columns (sc_df sc)) = Some date_col ->
  getitem (sc_df sc) date_col = Ok (Series (STime true ts)) ->
  let sc' := fst (_analyze_sales now sc) in
  snd (_analyze_sales now sc) = Ok tt
  /\ self_alerts sc' = self_alerts sc
  /\ exists m,
       self_results sc' = <["sales" := m]> (self_results sc)
       /\ m !! "recent_transactions" = None
       /\ m !! "recent_revenue" = None
       /\ m !! "monthly_growth" = None.
Proof.
  intros Hbasics Hfind Hget. cbn zeta.
  rewrite analyze_sales_stages, Hbasics. cbn zeta.
  set (rc := find_revenue_col (columns (sc_df sc))).
  set (qc := find_quantity_col (columns (sc_df sc))).
  set (sc1 := with_metrics sc (basic_metrics (sc_df sc) q r a)).
  set (sc2 := after_dates now rc sc1).
  set (sc3 := after_products rc qc sc2).
  destruct (after_dates_effects now rc sc1) as (Hres2 & Hal2 & _).
  destruct (after_products_effects rc qc sc2) as (_ & Hres3 & Hal3 & Hkeys).
  fold sc2 in Hres2, Hal2. fold sc3 in Hres3, Hal3, Hkeys.
  assert (Hnone : forall key,
    key <> "monthly_trends" -> key <> "top_products" ->
    basic_metrics (sc_df sc) q r a !! key = None ->
    sc_metrics sc3 !! key = None).
  { intros key Hk1 Hk2 Hbasic. rewrite Hkeys by assumption. unfold sc2.
    now rewrite (after_dates_aware rc sc1 date_col ts Hfind Hget key Hk1). }
  assert (Hrt : sc_metrics sc3 !! "recent_transactions" = None).
  { apply Hnone; [discriminate..|]. unfold basic_metrics. now simplify_map_eq. }
  assert (Hrr : sc_metrics sc3 !! "recent_revenue" = None).
  { apply Hnone; [discriminate..|]. unfold basic_metrics. now simplify_map_eq. }
  assert (Hmg : sc_metrics sc3 !! "monthly_growth" = None).
  { apply Hnone; [discriminate..|]. unfold basic_metrics. now simplify_map_eq. }
  unfold sales_finish, get_number. rewrite Hmg.
  change (F.ltb (F.of_Z 0) (F.of_Z (-10))) with false.
  cbn [fst snd self_results self_alerts].
  split; [reflexivity|]. split; [now rewrite Hal3, Hal2|].
  exists (sc_metrics sc3). rewrite Hres3, Hres2. auto.
Qed.

End AwareDates.

Lemma aware_dates_leave_no_growth_witness :
  let sc := Shape.fresh Samples.aware_sales in
  let sc' := fst (@DataAnalyzer._analyze_sales Shape.sample_pandas
                    (Calendar.timestamp 2023 2 10) sc) in
  snd (@DataAnalyzer._analyze_sales Shape.sample_pandas
         (Calendar.timestamp 2023 2 10) sc) = Ok tt
  /\ DataAnalyzer.self_alerts sc' = DataAnalyzer.self_alerts sc
  /\ exists m,
       DataAnalyzer.self_results sc' = <["sales" := m]> (DataAnalyzer.self_results sc)
       /\ m !! "recent_transactions" = None
       /\ m !! "recent_revenue" = None
       /\ m !! "monthly_growth" = None.
Proof.
  apply (@aware_dates_leave_no_growth Shape.sample_pandas (Calendar.timestamp 2023 2 10)
           (Shape.fresh Samples.aware_sales) (MInt 0) (MNum (F.of_Z 300))
           (MNum (F.of_Z 150)) "date"
           [Some (Calendar.timestamp 2023 1 5); Some (Calendar.timestamp 2023 2 1)]).
  - vm_compute. reflexivity.
  - reflexivity.
  - reflexivity.
Defined.
(** ** What a load leaves in the loader *)

Section LoaderState.
Import PyStr DataLoader Shape Terms.
Context `{Pandas} `{Loading.Reading}.

Lemma shape_stats_rows df :
  Loading.shape_stats df !! "rows" = Some (MInt (Z.of_nat (len df))).
Proof. unfold Loading.shape_stats. now simplify_map_eq. Qed.

Lemma shape_stats_columns df :
  Loading.shape_stats df !! "columns" = Some (MInt (Z.of_nat (length (columns df)))).
Proof. unfold Loading.shape_stats. now simplify_map_eq. Qed.

(** The state and the result of the load of one bucket, step by step. *)
Lemma loader_of_run b path rest l :
  b <> Other ->
  loader_of b (path :: rest) l
  = match Loading.read_csv path with
    | Raise e => (l, Raise e)
    | Ok raw =>
        let df := loaded b raw in
        let stored := {| Loading.data := <[bucket_key b := df]> (Loading.data l);
                         Loading.stats := Loading.stats l |} in
        match b with
        | Reviews =>
            match rating_stats df with
            | Raise e => (stored, Raise e)
            | Ok average_rating =>
                ({| Loading.data := <[bucket_key b := df]> (Loading.data l);
                    Loading.stats :=
                      <[bucket_key b :=
                          <["average_rating" := average_rating]> (Loading.shape_stats df)]>
                        (Loading.stats l) |},
                 Ok (Some df))
            end
        | Inventory =>
            ({| Loading.data := <[bucket_key b := df]> (Loading.data l);
                Loading.stats :=
                  <[bucket_key b :=
                      <["unique_products" :=
                          if has_column df "product_name"
                          then match getitem df "product_name" with
                               | Ok sel => Loading.nunique sel
                               | Raise _ => MInt 0
                               end
                          else MInt 0]> (Loading.shape_stats df)]>
                    (Loading.stats l) |},
             Ok (Some df))
        | Sales =>
            ({| Loading.data := <[bucket_key b := df]> (Loading.data l);
                Loading.stats :=
                  <[bucket_key b :=
                      <["date_range" :=
                          MStr (Loading._get_date_range df
                                  (_find_date_column (columns df)))]>
                        (Loading.shape_stats df)]>
                    (Loading.stats l) |},
             Ok (Some df))
        | _ =>
            ({| Loading.data := <[bucket_key b := df]> (Loading.data l);
                Loading.stats :=
                  <[bucket_key b := Loading.shape_stats df]> (Loading.stats l) |},
             Ok (Some df))
        end
    end.
Proof.
  intros Hb. destruct b; try contradiction; cbn [loader_of loaded bucket_key]; cbn zeta;
    unfold Loading.load_sales_data, Loading.load_inventory_data,
      Loading.load_advertising_data, Loading.load_reviews_data,
      Loading.set_data, Loading.set_stats, rating_stats;
    unfold bind, lift, ret, modify;
    destruct (Loading.read_csv path) as [raw|e]; try reflexivity;
    cbn [fst snd Loading.data Loading.stats].
  - unfold load_inventory_data.
    destruct (has_column (_clean_inventory_data (standardize_columns raw)) "product_name")
      eqn:Hhas; [|reflexivity].
    destruct (has_column_getitem _ _ Hhas) as [sel ->]. reflexivity.
  - unfold load_reviews_data.
    destruct (has_column (standardize_columns raw) "rating"); [|reflexivity].
    destruct (getitem (standardize_columns raw) "rating") as [sel|e]; [|reflexivity].
    now destruct (DataAnalyzer.mean_of sel).
Qed.

(** X29. A load that returns leaves the loader in step with its result:
    without a file it returns [None] and changes nothing; with files it
    stores under the key of its domain the very table it returns, and a
    statistics record whose 'rows' and 'columns' are the numbers of rows
    and of labels of that table.  The entries of the other domains are not
    touched. *)
Theorem load_stores_returned_table (b : bucket) (file_paths : list string)
    (l l' : Loading.loader) (table : option frame) :
  b <> Other ->
  loader_of b file_paths l = (l', Ok table) ->
  match table with
  | None => file_paths = [] /\ l' = l
  | Some df =>
      Loading.data l' = <[bucket_key b := df]> (Loading.data l)
      /\ exists entries,
           Loading.stats l' = <[bucket_key b := entries]> (Loading.stats l)
           /\ entries !! "rows" = Some (MInt (Z.of_nat (len df)))
           /\ entries !! "columns" = Some (MInt (Z.of_nat (length (columns df))))
  end.
Proof.
  intros Hb Hrun. destruct file_paths as [|path rest].
  - destruct b; try contradiction; cbn in Hrun; injection Hrun as <- <-; now split.
  - rewrite (loader_of_run b path rest l Hb) in Hrun. cbn zeta in Hrun.
    destruct (Loading.read_csv path) as [raw|e]; [|discriminate].
    destruct b; try contradiction.
    4: destruct (rating_stats (loaded Reviews raw)) as [avg|e]; [|discriminate].
    all: injection Hrun as <- <-; cbn [Loading.data Loading.stats];
      (split; [reflexivity|]); eexists; (split; [reflexivity|]).
    all: rewrite ?lookup_insert_ne by discriminate;
      split; [apply shape_stats_rows|apply shape_stats_columns].
Qed.

(** X30. A load that fails never writes statistics.  Either the reading of
    the first file failed, and the loader is as it was; or, for reviews
    only, the mean of the 'rating' column could not be computed, and then
    the renamed table is already stored under 'reviews' while the
    statistics of the domain are those of before. *)
Theorem failed_load_writes_no_statistics (b : bucket) (file_paths : list string)
    (l l' : Loading.loader) (e : exn) :
  b <> Other ->
  loader_of b file_paths l = (l', Raise e) ->
  Loading.stats l' = Loading.stats l
  /\ exists path rest,
       file_paths = path :: rest
       /\ ((Loading.read_csv path = Raise e /\ l' = l)
           \/ (b = Reviews
               /\ exists raw,
                    Loading.read_csv path = Ok raw
                    /\ rating_stats (loaded Reviews raw) = Raise e
                    /\ Loading.data l'
                       = <["reviews" := loaded Reviews raw]> (Loading.data l))).
Proof.
  intros Hb Hrun. destruct file_paths as [|path rest].
  - destruct b; try contradiction; discriminate Hrun.
  - rewrite (loader_of_run b path rest l Hb) in Hrun. cbn zeta in Hrun.
    destruct (Loading.read_csv path) as [raw|e'] eqn:Hread.
    + destruct b; try contradiction; try discriminate Hrun.
      destruct (rating_stats (loaded Reviews raw)) as [avg|e'] eqn:Hmean;
        [discriminate|].
      injection Hrun as <- <-. cbn [Loading.data Loading.stats bucket_key].
      split; [reflexivity|]. exists path, rest. split; [reflexivity|]. right.
      split; [reflexivity|]. exists raw. auto.
    + injection Hrun as <- <-. split; [reflexivity|].
      exists path, rest. split; [reflexivity|]. now left.
Qed.

End LoaderState.

Lemma load_stores_returned_table_witness :
  let l' := fst (@Loading.load_inventory_data Shape.sample_pandas Samples.sample_reading
                   ["stock.csv"; "stock_old.csv"] Samples.new_loader) in
  let df := @DataLoader.load_inventory_data Shape.sample_pandas Shape.raw_inventory in
  Loading.data l' = <["inventory" := df]> (Loading.data Samples.new_loader)
  /\ exists entries,
       Loading.stats l' = <["inventory" := entries]> (Loading.stats Samples.new_loader)
       /\ entries !! "rows" = Some (MInt (Z.of_nat (len df)))
       /\ entries !! "columns" = Some (MInt (Z.of_nat (length (columns df)))).
Proof.
  cbn zeta.
  apply (@load_stores_returned_table Shape.sample_pandas Samples.sample_reading
           DataLoader.Inventory ["stock.csv"; "stock_old.csv"] Samples.new_loader
           (fst (@Loading.load_inventory_data Shape.sample_pandas Samples.sample_reading
                   ["stock.csv"; "stock_old.csv"] Samples.new_loader))
           (Some (@DataLoader.load_inventory_data Shape.sample_pandas
                    Shape.raw_inventory))).
  - discriminate.
  - vm_compute. reflexivity.
Defined.

Lemma failed_load_writes_no_statistics_witness :
  let l' := fst (@Loading.load_reviews_data Shape.sample_pandas Samples.sample_reading
                   ["reviews.csv"] Samples.new_loader) in
  Loading.stats l' = Loading.stats Samples.new_loader
  /\ exists path rest,
       ["reviews.csv"] = path :: rest
       /\ ((@Loading.read_csv Samples.sample_reading path = Raise TypeError
            /\ l' = Samples.new_loader)
           \/ (DataLoader.Reviews = DataLoader.Reviews
               /\ exists raw,
                    @Loading.read_csv Samples.sample_reading path = Ok raw
                    /\ @Terms.rating_stats Shape.sample_pandas
                         (@Terms.loaded Shape.sample_pandas DataLoader.Reviews raw)
                       = Raise TypeError
                    /\ Loading.data l'
                       = <["reviews" :=
                             @Terms.loaded Shape.sample_pandas DataLoader.Reviews raw]>
                           (Loading.data Samples.new_loader))).
Proof.
  cbn zeta.
  apply (@failed_load_writes_no_statistics Shape.sample_pandas Samples.sample_reading
           DataLoader.Reviews ["reviews.csv"] Samples.new_loader
           (fst (@Loading.load_reviews_data Shape.sample_pandas Samples.sample_reading
                   ["reviews.csv"] Samples.new_loader))
           TypeError).
  - discriminate.
  - vm_compute. reflexivity.
Defined.
(** ** Monthly growth, from the table *)

Section Growth.
Import PyStr GroupBy DataAnalyzer Shape Terms.
Context `{Pandas}.
Variable now : Z.

Lemma revenue_like_label c :
  revenue_like c = true -> c <> "" /\ c <> "_date" /\ c <> "_month_str".
Proof. intros Hc. repeat split; intros ->; discriminate Hc. Qed.

Lemma getitem_filter_rows mask df label s :
  getitem df label = Ok (Series s) ->
  getitem (filter_rows mask df) label = Ok (Series (series_filter mask s)).
Proof.
  unfold getitem, filter_rows.
  rewrite (filter_labelled_map (fun c => (fst c, series_filter mask (snd c))))
    by reflexivity.
  destruct (List.filter (labelled label) df) as [|c [|d cs]]; try discriminate.
  now intros [= <-].
Qed.

Lemma length_group_totals keys values :
  length (group_sum keys values) = length (group_keys keys).
Proof. unfold group_sum. apply length_map. Qed.

(** The block on dates, on a table with distinct labels whose date column
    reads as timestamps and whose revenue column is a [float64] column: what
    it leaves under 'monthly_growth'. *)
Lemma date_block_growth_of_table sc date_col revenue_col sel aware ts xs :
  NoDup (columns (sc_df sc)) ->
  getitem (sc_df sc) date_col = Ok sel ->
  DataLoader.to_datetime sel = Ok (STime aware ts) ->
  revenue_like revenue_col = true ->
  getitem (sc_df sc) revenue_col = Ok (Series (SNum xs)) ->
  sc_metrics sc !! "monthly_growth" = None ->
  let totals := group_sum (month_keys aware ts) xs in
  sc_metrics (fst (sales_date_block now date_col (Some revenue_col) sc))
    !! "monthly_growth"
  = if aware then None
    else match last_two totals with
         | Some (last_month, prev_month) =>
             if F.gtb prev_month (F.of_Z 0)
             then Some (MNum (growth_rate last_month prev_month))
             else None
         | None => None
         end.
Proof.
  intros Hnd Hdate Hdates Hlike Hrev Hnone totals.
  destruct (revenue_like_label _ Hlike) as (Hne & Hnd1 & Hnm).
  unfold sales_date_block. mrun.
  rewrite Hdate. cbn [fst snd sc_df sc_metrics]. rewrite Hdates.
  cbn [fst snd sc_df sc_metrics].
  set (df1 := setitem (sc_df sc) "_date" (STime aware ts)).
  assert (Hnd' : NoDup (columns df1)) by now apply NoDup_columns_setitem.
  assert (Hd1 : getitem df1 "_date" = Ok (Series (STime aware ts)))
    by now apply getitem_setitem.
  rewrite Hd1. cbn [fst snd sc_df sc_metrics month_strings].
  set (months := SObj _).
  set (df2 := setitem df1 "_month_str" months).
  assert (Hm2 : getitem df2 "_month_str" = Ok (Series months))
    by now apply getitem_setitem.
  assert (Hr2 : getitem df2 revenue_col = Ok (Series (SNum xs))).
  { unfold df2, df1. now rewrite !getitem_setitem_ne by assumption. }
  assert (Hd2 : getitem df2 "_date" = Ok (Series (STime aware ts))).
  { unfold df2. now rewrite getitem_setitem_ne by discriminate. }
  assert (Hres : resolved df2 (Some revenue_col) = true).
  { unfold resolved. rewrite (getitem_has_column _ _ _ Hr2), andb_true_r.
    now apply negb_true_iff, String.eqb_neq. }
  rewrite Hres, Hm2. cbn [fst snd sc_df sc_metrics].
  assert (Hkeys : row_keys (Series months) = Ok (month_keys aware ts)) by reflexivity.
  rewrite Hkeys. cbn [fst snd sc_df sc_metrics]. rewrite Hr2.
  cbn [agg_sum fst snd sc_df sc_metrics]. fold totals. rewrite Hd2.
  destruct aware; cbn [not_before fst snd sc_df sc_metrics].
  - now rewrite lookup_insert_ne by discriminate.
  - set (mask := map _ ts).
    rewrite (getitem_has_column _ _ _ (getitem_filter_rows mask _ _ _ Hr2)).
    rewrite (getitem_filter_rows mask _ _ _ Hr2).
    cbn [sum_of series_filter fst snd sc_df sc_metrics len series_len].
    rewrite series_len_key_column, <- (length_group_totals _ xs). fold totals.
    destruct (last_two totals) as [[last_month prev_month]|] eqn:Hlast.
    + assert (Hlen : 2 <= length totals) by (apply last_two_length; eauto).
      apply Nat.ltb_lt in Hlen. rewrite Hlen.
      destruct (F.gtb prev_month (F.of_Z 0)); cbn [fst snd sc_metrics].
      * now rewrite lookup_insert_eq.
      * now rewrite !lookup_insert_ne by discriminate.
    + destruct (1 <? length totals)%nat; cbn [fst snd sc_metrics];
        now rewrite !lookup_insert_ne by discriminate.
Qed.

(** C3. On a sales table with distinct labels and computable basic
    aggregates, whose date column reads as timestamps and whose revenue
    column is a [float64] column, the analysis completes; the months are the
    distinct month strings of the valid dates and the monthly totals are the
    revenues summed by month, in the order of the months.  'monthly_growth'
    is present exactly when the timestamps carry no time zone, there are at
    least two months and the total of the month before the last is strictly
    positive; it then equals (last - previous) / previous * 100 in binary64
    arithmetic, which is not NaN when both totals are finite. *)
Theorem monthly_growth_present_iff (sc : scope) (q r a : mvalue)
    (date_col revenue_col : string) (sel : selection) (aware : bool)
    (ts : list (option Z)) (xs : list F.float) :
  NoDup (columns (sc_df sc)) ->
  sales_basics (sc_df sc) = Ok (q, r, a) ->
  find_date_col (columns (sc_df sc)) = Some date_col ->
  getitem (sc_df sc) date_col = Ok sel ->
  DataLoader.to_datetime sel = Ok (STime aware ts) ->
  find_revenue_col (columns (sc_df sc)) = Some revenue_col ->
  getitem (sc_df sc) revenue_col = Ok (Series (SNum xs)) ->
  let months := group_keys (month_keys aware ts) in
  let totals := group_sum (month_keys aware ts) xs in
  exists sc' m,
    _analyze_sales now sc = (sc', Ok tt)
    /\ self_results sc' !! "sales" = Some m
    /\ length totals = length months
    /\ forall g,
         m !! "monthly_growth" = Some g <->
         aware = false
         /\ 2 <= length months
         /\ exists last_month prev_month,
              last_two totals = Some (last_month, prev_month)
              /\ F.gtb prev_month (F.of_Z 0) = true
              /\ g = MNum (growth_rate last_month prev_month)
              /\ (F.is_finite last_month = true -> F.is_finite prev_month = true ->
                  F.is_nan (growth_rate last_month prev_month) = false).
Proof.
  intros Hnd Hbasics Hfd Hdate Hdates Hfr Hrev months totals.
  assert (Hlen : length totals = length months) by apply length_group_totals.
  assert (Hlike : revenue_like revenue_col = true).
  { apply find_some in Hfr. apply Hfr. }
  rewrite analyze_sales_stages, Hbasics. cbn zeta. rewrite Hfr.
  set (qc := find_quantity_col (columns (sc_df sc))).
  set (sc1 := with_metrics sc (basic_metrics (sc_df sc) q r a)).
  set (sc2 := after_dates now (Some revenue_col) sc1).
  set (sc3 := after_products (Some revenue_col) qc sc2).
  destruct (basic_metrics_lookup (sc_df sc) q r a) as (_ & _ & _ & Hg & _ & _).
  destruct (after_products_effects (Some revenue_col) qc sc2) as (_ & _ & _ & Hkeys).
  fold sc3 in Hkeys.
  assert (Hgrowth : sc_metrics sc3 !! "monthly_growth"
                    = if aware then None
                      else match last_two totals with
                           | Some (last_month, prev_month) =>
                               if F.gtb prev_month (F.of_Z 0)
                               then Some (MNum (growth_rate last_month prev_month))
                               else None
                           | None => None
                           end).
  { rewrite Hkeys by discriminate. unfold sc2, after_dates.
    cbn [sc1 with_metrics sc_df]. rewrite Hfd.
    rewrite (find_resolved _ _ _ date_word_nonempty Hfd).
    now apply (date_block_growth_of_table sc1 date_col revenue_col sel aware ts xs). }
  assert (Hiff : forall g,
    sc_metrics sc3 !! "monthly_growth" = Some g <->
    aware = false
    /\ 2 <= length months
    /\ exists last_month prev_month,
         last_two totals = Some (last_month, prev_month)
         /\ F.gtb prev_month (F.of_Z 0) = true
         /\ g = MNum (growth_rate last_month prev_month)
         /\ (F.is_finite last_month = true -> F.is_finite prev_month = true ->
             F.is_nan (growth_rate last_month prev_month) = false)).
  { intros g. rewrite Hgrowth. split.
    - destruct aware; [discriminate|].
      destruct (last_two totals) as [[l p]|] eqn:Hlast; [|discriminate].
      destruct (F.gtb p (F.of_Z 0)) eqn:Hpos; [|discriminate].
      intros [= <-]. split; [reflexivity|]. split.
      + rewrite <- Hlen. apply last_two_length. rewrite Hlast. eauto.
      + exists l, p. repeat split; try assumption. now apply growth_rate_not_nan.
    - intros (-> & _ & l & p & -> & -> & -> & _). reflexivity. }
  unfold sales_finish, get_number.
  destruct (sc_metrics sc3 !! "monthly_growth") as [g|] eqn:Hsome.
  - pose proof (proj1 (Hiff g) eq_refl) as (_ & _ & l & p & _ & _ & -> & _).
    destruct (F.ltb (growth_rate l p) (F.of_Z (-10)));
      eexists _, (sc_metrics sc3); (split; [reflexivity|]);
      cbn [self_results]; rewrite lookup_insert_eq; (split; [reflexivity|]);
      (split; [exact Hlen|]); intros g; rewrite <- Hiff, Hsome; reflexivity.
  - change (F.ltb (F.of_Z 0) (F.of_Z (-10))) with false. cbn iota.
    eexists _, (sc_metrics sc3). split; [reflexivity|].
    cbn [self_results]. rewrite lookup_insert_eq. split; [reflexivity|].
    split; [exact Hlen|]. intros g. rewrite <- Hiff, Hsome. reflexivity.
Qed.

End Growth.

Lemma monthly_growth_present_iff_witness :
  let months := GroupBy.group_keys
                  (@Terms.month_keys Shape.sample_pandas false
                     [Some (Calendar.timestamp 2023 1 5);
                      Some (Calendar.timestamp 2023 1 20);
                      Some (Calendar.timestamp 2023 2 1);
                      Some (Calendar.timestamp 2023 2 15)]) in
  let totals := GroupBy.group_sum
                  (@Terms.month_keys Shape.sample_pandas false
                     [Some (Calendar.timestamp 2023 1 5);
                      Some (Calendar.timestamp 2023 1 20);
                      Some (Calendar.timestamp 2023 2 1);
                      Some (Calendar.timestamp 2023 2 15)])
                  [F.of_Z 100; F.of_Z 50; F.of_Z 200; F.of_Z 60] in
  exists sc' m,
    @DataAnalyzer._analyze_sales Shape.sample_pandas Shape.scenario_now
      (Shape.fresh Shape.scenario_sales) = (sc', Ok tt)
    /\ DataAnalyzer.self_results sc' !! "sales" = Some m
    /\ length totals = length months
    /\ forall g,
         m !! "monthly_growth" = Some g <->
         false = false
         /\ 2 <= length months
         /\ exists last_month prev_month,
              DataAnalyzer.last_two totals = Some (last_month, prev_month)
              /\ F.gtb prev_month (F.of_Z 0) = true
              /\ g = MNum (DataAnalyzer.growth_rate last_month prev_month)
              /\ (F.is_finite last_month = true -> F.is_finite prev_month = true ->
                  F.is_nan (DataAnalyzer.growth_rate last_month prev_month) = false).
Proof.
  apply (@monthly_growth_present_iff Shape.sample_pandas Shape.scenario_now
           (Shape.fresh Shape.scenario_sales)
           (MInt 0) (MNum (F.of_Z 410))
           (MNum (F.div (F.of_Z 410) (F.of_Z 4)))
           "date" "revenue"
           (Series (STime false [Some (Calendar.timestamp 2023 1 5);
                                 Some (Calendar.timestamp 2023 1 20);
                                 Some (Calendar.timestamp 2023 2 1);
                                 Some (Calendar.timestamp 2023 2 15)]))
           false
           [Some (Calendar.timestamp 2023 1 5); Some (Calendar.timestamp 2023 1 20);
            Some (Calendar.timestamp 2023 2 1); Some (Calendar.timestamp 2023 2 15)]
           [F.of_Z 100; F.of_Z 50; F.of_Z 200; F.of_Z 60]).
  - vm_compute. repeat constructor; intros Hin; inversion Hin as [|? ? ? Hin'];
      try discriminate; inversion Hin'.
  - vm_compute. reflexivity.
  - reflexivity.
  - reflexivity.
  - reflexivity.
  - reflexivity.
  - reflexivity.
Defined.

(** The growth can be infinite although both monthly totals are finite:
    from a total of 1 to a total of 10^308, the product by 100 overflows. *)
Lemma monthly_growth_infinite_on_overflow :
  DataAnalyzer.sc_metrics
    (fst (@DataAnalyzer._analyze_sales Shape.sample_pandas Shape.scenario_now
            (Shape.fresh Samples.soaring_sales))) !! "monthly_growth"
  = Some (MNum F.inf).
Proof. vm_compute. reflexivity. Qed.
